(** * Token usage dashboard: the aggregation service behind its
      authentication middleware

    A shallow embedding of the backend of the dashboard:

    - [backend/models/models.py]: [TokenUsage] rows and the [User] object;
    - [backend/services/token_usage_service.py]: [get_token_usage_aggregated],
      whose two SQL statements are read as list comprehensions over the table;
    - [backend/middleware/auth_middleware.py]: [AuthMiddleware.dispatch];
    - [backend/routes/token_usage.py]: [get_current_user] and the endpoint
      [get_token_usage], with the declaration of its query parameters.

    The table is a list of rows passed explicitly; the service only reads
    it. The calls that leave a handler (decoding a token, running the
    aggregation) are recorded in a trace that the handler returns next to
    its response, so that "the service is not called" is a statement about
    that trace.

    Conventions taken from the libraries the code runs on:

    - [datetime] values are compared field by field, as Python and the
      store do; [date_trunc] is the one of PostgreSQL, weeks start on Monday;
    - ORDER BY on a text column is the order of the code points;
    - [strftime("%Y")] prints the year without padding, which only shows
      before the year 1000;
    - the pattern of the [timeframe] parameter is applied with [re.match];
    - a text is the UTF-8 encoding of a Python [str], byte by byte; the
      operations used on texts (equality, prefix, search for an ASCII word,
      order) read the same on the bytes as on the code points;
    - [strptime] reads [\d] as any decimal digit of Unicode, as [re] does
      for a [str] pattern; the table is the one of Unicode 14.0;
    - [jwt.decode] is a parameter: nothing is assumed of it but that it
      returns the claims of a token or fails. python-jose refuses a token
      whose [sub] is not a text, so [sub] is a text when it is there; the
      claims [username] and [roles] are whatever JSON the token carries.

    Left out: the HTTPS-redirect, CORS and session middlewares of
    [backend/main.py] and failures of the store, which the endpoint turns
    into a 500. Requests are GET requests that arrive over HTTPS, so that
    the redirect lets them through. The audit logger is modelled apart from
    [app], in [create_app]; of the frontend, the default ranges of the date
    picker and the request of the API client are modelled, the pages are
    not. *)

From Stdlib Require Import ZArith List String Ascii Bool Lia.
From Stdlib Require Import Permutation Sorted DecimalString DecimalZ.
Import ListNotations.

Local Open Scope string_scope.
Local Open Scope list_scope.
Local Open Scope Z_scope.

(* ===================================================================== *)
(** * Orders used by comparisons and by ORDER BY                          *)
(* ===================================================================== *)

(** A three-way comparison on the keys of a grouped query. *)
Class Ord (K : Type) := { cmp : K -> K -> comparison }.

(** The laws that make [cmp] a decidable strict total order. *)
Class OrdLaws (K : Type) `{Ord K} : Prop := {
  cmp_eq : forall a b : K, cmp a b = Eq <-> a = b;
  cmp_opp : forall a b : K, cmp b a = CompOpp (cmp a b);
  cmp_lt_trans : forall a b c : K, cmp a b = Lt -> cmp b c = Lt -> cmp a c = Lt
}.

Definition ltk {K} `{Ord K} (a b : K) : Prop := cmp a b = Lt.
Definition eqbk {K} `{Ord K} (a b : K) : bool :=
  match cmp a b with Eq => true | _ => false end.
Definition lebk {K} `{Ord K} (a b : K) : bool :=
  match cmp a b with Gt => false | _ => true end.

#[global] Instance Ord_Z : Ord Z := {| cmp := Z.compare |}.

(** ORDER BY activity: texts in the order of their code points. *)
#[global] Instance Ord_string : Ord string := {| cmp := String.compare |}.

(** ORDER BY a, b: the lexicographic product. *)
#[global] Instance Ord_pair {A B} `{Ord A} `{Ord B} : Ord (A * B) :=
  {| cmp := fun x y =>
       match cmp (fst x) (fst y) with
       | Eq => cmp (snd x) (snd y)
       | c => c
       end |}.

(* ===================================================================== *)
(** * datetime                                                            *)
(* ===================================================================== *)

(** A naive [datetime.datetime]: the fields Python stores. *)
Record datetime := mkdatetime {
  year : Z;
  month : Z;
  day : Z;
  hour : Z;
  minute : Z;
  second : Z;
  microsecond : Z
}.

Definition dt_tuple (d : datetime) : list Z :=
  [year d; month d; day d; hour d; minute d; second d; microsecond d].

(** Comparison of two datetimes is the comparison of their field tuples. *)
#[global] Instance Ord_datetime : Ord datetime :=
  {| cmp := fun a b => list_compare Z.compare (dt_tuple a) (dt_tuple b) |}.

Definition is_leap (y : Z) : bool :=
  (y mod 4 =? 0) && (negb (y mod 100 =? 0) || (y mod 400 =? 0)).

Definition days_in_month (y m : Z) : Z :=
  if m =? 2 then (if is_leap y then 29 else 28)
  else if (m =? 4) || (m =? 6) || (m =? 9) || (m =? 11) then 30
  else 31.

(** The invariant of a [datetime] object (MINYEAR = 1, MAXYEAR = 9999). *)
Definition valid_datetime (d : datetime) : bool :=
  (1 <=? year d) && (year d <=? 9999) &&
  (1 <=? month d) && (month d <=? 12) &&
  (1 <=? day d) && (day d <=? days_in_month (year d) (month d)) &&
  (0 <=? hour d) && (hour d <=? 23) &&
  (0 <=? minute d) && (minute d <=? 59) &&
  (0 <=? second d) && (second d <=? 59) &&
  (0 <=? microsecond d) && (microsecond d <=? 999999).

(** Midnight at the start of a calendar day. *)
Definition midnight (y m d : Z) : datetime := mkdatetime y m d 0 0 0 0.

(** The events of one calendar day: same year, month and day. *)
Definition same_day (a b : datetime) : bool :=
  (year a =? year b) && (month a =? month b) && (day a =? day b).

(** [date.toordinal]: days since 0001-01-01, that day being 1. *)
Definition days_before_year (y : Z) : Z :=
  let y1 := y - 1 in y1 * 365 + y1 / 4 - y1 / 100 + y1 / 400.

Fixpoint days_before_month_aux (y : Z) (m : nat) : Z :=
  match m with
  | O => 0
  | S m' => days_before_month_aux y m' + days_in_month y (Z.of_nat m)
  end.

Definition days_before_month (y m : Z) : Z :=
  days_before_month_aux y (Z.to_nat (m - 1)).

Definition toordinal (d : datetime) : Z :=
  days_before_year (year d) + days_before_month (year d) (month d) + day d.

(** Monday is 0, Sunday is 6. *)
Definition weekday (d : datetime) : Z := (toordinal d + 6) mod 7.

(** The calendar day before, at the same time of day. *)
Definition prev_day (d : datetime) : datetime :=
  if 1 <? day d then
    mkdatetime (year d) (month d) (day d - 1)
               (hour d) (minute d) (second d) (microsecond d)
  else if 1 <? month d then
    mkdatetime (year d) (month d - 1) (days_in_month (year d) (month d - 1))
               (hour d) (minute d) (second d) (microsecond d)
  else
    mkdatetime (year d - 1) 12 31
               (hour d) (minute d) (second d) (microsecond d).

(** The store's [date_trunc(unit, ts)] for the three units the service
    passes: the start of the day, of the ISO week (Monday) and of the month.
    Units the service never passes leave the timestamp as it is. *)
Definition date_trunc (trunc_unit : string) (t : datetime) : datetime :=
  if String.eqb trunc_unit "day" then midnight (year t) (month t) (day t)
  else if String.eqb trunc_unit "week" then
    Nat.iter (Z.to_nat (weekday t)) prev_day (midnight (year t) (month t) (day t))
  else if String.eqb trunc_unit "month" then midnight (year t) (month t) 1
  else t.

(* ===================================================================== *)
(** * Python strings, strftime and strptime                               *)
(* ===================================================================== *)

Definition digit_char (n : Z) : ascii := ascii_of_N (Z.to_N (48 + n mod 10)).

Definition pad2 (n : Z) : string :=
  String (digit_char (n / 10)) (String (digit_char n) EmptyString).

(** [%Y]: the decimal digits of the year, without padding. *)
Definition fmt_year (y : Z) : string := NilEmpty.string_of_int (Z.to_int y).

(** [dt.strftime("%Y-%m-%d")]. *)
Definition strftime_ymd (d : datetime) : string :=
  (fmt_year (year d) ++ "-" ++ pad2 (month d) ++ "-" ++ pad2 (day d))%string.

(** The value of an ASCII digit, for the classes written in brackets. *)
Definition digit_val (c : ascii) : option Z :=
  let n := Z.of_N (N_of_ascii c) in
  if (48 <=? n) && (n <=? 57) then Some (n - 48) else None.

Definition in_range (lo hi : Z) (c : ascii) : bool :=
  match digit_val c with
  | Some n => (lo <=? n) && (n <=? hi)
  | None => false
  end.

Definition dval (c : ascii) : Z :=
  match digit_val c with Some n => n | None => 0 end.

(** The code point at the head of a text in UTF-8, and what follows it. *)
Definition byte_of (a : ascii) : Z := Z.of_N (N_of_ascii a).

Definition continuation (a : ascii) : bool :=
  (128 <=? byte_of a) && (byte_of a <? 192).

Definition utf8_next (s : list ascii) : option (Z * list ascii) :=
  match s with
  | [] => None
  | a :: r =>
      let x := byte_of a in
      if x <? 128 then Some (x, r)
      else if (194 <=? x) && (x <? 224) then
        match r with
        | b :: r' =>
            if continuation b
            then Some ((x - 192) * 64 + (byte_of b - 128), r')
            else None
        | _ => None
        end
      else if (224 <=? x) && (x <? 240) then
        match r with
        | b :: c :: r' =>
            let cp := (x - 224) * 4096 + (byte_of b - 128) * 64
                      + (byte_of c - 128) in
            if continuation b && continuation c && (2048 <=? cp)
            then Some (cp, r')
            else None
        | _ => None
        end
      else if (240 <=? x) && (x <? 245) then
        match r with
        | b :: c :: d :: r' =>
            let cp := (x - 240) * 262144 + (byte_of b - 128) * 4096
                      + (byte_of c - 128) * 64 + (byte_of d - 128) in
            if continuation b && continuation c && continuation d
               && (65536 <=? cp) && (cp <=? 1114111)
            then Some (cp, r')
            else None
        | _ => None
        end
      else None
  end.

(** The decimal digits of Unicode come in runs of ten, 0 to 9; these are
    the code points of the zeros. *)
Definition decimal_zeros : list Z :=
  [0x30; 0x660; 0x6f0; 0x7c0; 0x966; 0x9e6; 0xa66; 0xae6; 0xb66; 0xbe6;
   0xc66; 0xce6; 0xd66; 0xde6; 0xe50; 0xed0; 0xf20; 0x1040; 0x1090; 0x17e0;
   0x1810; 0x1946; 0x19d0; 0x1a80; 0x1a90; 0x1b50; 0x1bb0; 0x1c40; 0x1c50;
   0xa620; 0xa8d0; 0xa900; 0xa9d0; 0xa9f0; 0xaa50; 0xabf0; 0xff10; 0x104a0;
   0x10d30; 0x11066; 0x110f0; 0x11136; 0x111d0; 0x112f0; 0x11450; 0x114d0;
   0x11650; 0x116c0; 0x11730; 0x118e0; 0x11950; 0x11c50; 0x11d50; 0x11da0;
   0x16a60; 0x16ac0; 0x16b50; 0x1d7ce; 0x1d7d8; 0x1d7e2; 0x1d7ec; 0x1d7f6;
   0x1e140; 0x1e2f0; 0x1e950; 0x1fbf0].

(** [int(c)] for a character [c] that [\d] matches. *)
Definition decimal_value (cp : Z) : option Z :=
  match find (fun z => (z <=? cp) && (cp <? z + 10)) decimal_zeros with
  | Some z => Some (cp - z)
  | None => None
  end.

(** [\d]: one decimal digit, of any script. *)
Definition read_digit (s : list ascii) : option (Z * list ascii) :=
  match utf8_next s with
  | Some (cp, r) =>
      match decimal_value cp with
      | Some v => Some (v, r)
      | None => None
      end
  | None => None
  end.

(** The first alternative that matches. *)
Fixpoint first_match {A} (alternatives : list (option A)) : option A :=
  match alternatives with
  | [] => None
  | Some a :: _ => Some a
  | None :: rest => first_match rest
  end.

(** [%Y]: [\d\d\d\d]. *)
Definition parse_Y (s : list ascii) : option (Z * list ascii) :=
  match read_digit s with
  | None => None
  | Some (a, s1) =>
  match read_digit s1 with
  | None => None
  | Some (b, s2) =>
  match read_digit s2 with
  | None => None
  | Some (c, s3) =>
  match read_digit s3 with
  | None => None
  | Some (d, rest) => Some (1000 * a + 100 * b + 10 * c + d, rest)
  end end end end.

(** [%m]: [1[0-2]|0[1-9]|[1-9]], alternatives tried in this order. *)
Definition parse_m (s : list ascii) : option (Z * list ascii) :=
  match s with
  | a :: b :: rest =>
      if Ascii.eqb a "1" && in_range 0 2 b then Some (10 + dval b, rest)
      else if Ascii.eqb a "0" && in_range 1 9 b then Some (dval b, rest)
      else if in_range 1 9 a then Some (dval a, b :: rest)
      else None
  | [a] => if in_range 1 9 a then Some (dval a, []) else None
  | [] => None
  end.

(** [%d]: [3[0-1]|[1-2]\d|0[1-9]|[1-9]| [1-9]], alternatives tried in this
    order; the classes in brackets hold ASCII digits only. *)
Definition parse_d (s : list ascii) : option (Z * list ascii) :=
  first_match
    [ match s with
      | a :: b :: rest =>
          if Ascii.eqb a "3" && in_range 0 1 b then Some (30 + dval b, rest)
          else None
      | _ => None
      end;
      match s with
      | a :: rest =>
          if in_range 1 2 a then
            match read_digit rest with
            | Some (v, rest') => Some (10 * dval a + v, rest')
            | None => None
            end
          else None
      | [] => None
      end;
      match s with
      | a :: b :: rest =>
          if Ascii.eqb a "0" && in_range 1 9 b then Some (dval b, rest)
          else None
      | _ => None
      end;
      match s with
      | a :: rest => if in_range 1 9 a then Some (dval a, rest) else None
      | [] => None
      end;
      match s with
      | a :: b :: rest =>
          if Ascii.eqb a " " && in_range 1 9 b then Some (dval b, rest)
          else None
      | _ => None
      end ].

Definition expect (c : ascii) (s : list ascii) : option (list ascii) :=
  match s with
  | a :: rest => if Ascii.eqb a c then Some rest else None
  | [] => None
  end.

(** [datetime.strptime(s, "%Y-%m-%d")]; [None] is the ValueError: the text
    does not match the format, text remains after the day, or the fields
    are not a date. The result is midnight of the day. *)
Definition strptime_ymd (s : string) : option datetime :=
  match parse_Y (list_ascii_of_string s) with
  | None => None
  | Some (y, s1) =>
  match expect "-" s1 with
  | None => None
  | Some s2 =>
  match parse_m s2 with
  | None => None
  | Some (m, s3) =>
  match expect "-" s3 with
  | None => None
  | Some s4 =>
  match parse_d s4 with
  | Some (d, []) =>
      if (1 <=? y) && (d <=? days_in_month y m) then Some (midnight y m d)
      else None
  | _ => None
  end end end end end.

(** [s.startswith(p)]. *)
Fixpoint startswith (p s : string) : bool :=
  match p, s with
  | EmptyString, _ => true
  | String a p', String b s' => Ascii.eqb a b && startswith p' s'
  | String _ _, EmptyString => false
  end.

(** [s.split(" ", 1)[1]]; [None] is the IndexError when [s] has no space. *)
Fixpoint split_space_snd (s : string) : option string :=
  match s with
  | EmptyString => None
  | String c r => if Ascii.eqb c " " then Some r else split_space_snd r
  end.

(* ===================================================================== *)
(** * dict: insertion-ordered, keyed by strings                           *)
(* ===================================================================== *)

Definition dict (V : Type) : Type := list (string * V).

Fixpoint dict_get {V} (k : string) (d : dict V) : option V :=
  match d with
  | [] => None
  | (k', v) :: r => if String.eqb k k' then Some v else dict_get k r
  end.

(** [d[k] = v]: a present key keeps its place, a new key goes last. *)
Fixpoint dict_set {V} (k : string) (v : V) (d : dict V) : dict V :=
  match d with
  | [] => [(k, v)]
  | (k', v') :: r =>
      if String.eqb k k' then (k', v) :: r else (k', v') :: dict_set k v r
  end.

(** [k in d]. *)
Definition dict_contains {V} (k : string) (d : dict V) : bool :=
  match dict_get k d with Some _ => true | None => false end.

Definition dict_keys {V} (d : dict V) : list string := map fst d.
Definition dict_values {V} (d : dict V) : list V := map snd d.

(** [sum(l)]. *)
Definition zsum (l : list Z) : Z := fold_right Z.add 0 l.

(* ===================================================================== *)
(** * Regular expressions of [re], as far as the endpoint uses them        *)
(* ===================================================================== *)

Inductive regex :=
| Lit (s : string)          (* the characters of [s], in sequence *)
| Alt (r1 r2 : regex)       (* [r1|r2] *)
| Cat (r1 r2 : regex)       (* [r1] then [r2] *)
| Bol                       (* [^] *)
| Eol.                      (* [$] *)

Fixpoint strip_prefix (p : string) (s : list ascii) : option (list ascii) :=
  match p, s with
  | EmptyString, _ => Some s
  | String a p', b :: s' => if Ascii.eqb a b then strip_prefix p' s' else None
  | String _ _, [] => None
  end.

(** Backtracking matcher in continuation style. [at_start] tells whether the
    position is the start of the text. Without the MULTILINE flag [^] holds
    at the start only, and [$] holds at the end of the text and just before
    a newline that ends the text. *)
Fixpoint re_run (r : regex) (at_start : bool) (s : list ascii)
         (k : bool -> list ascii -> bool) : bool :=
  match r with
  | Lit p =>
      match strip_prefix p s with
      | Some s' => k (at_start && (String.length p =? 0)%nat) s'
      | None => false
      end
  | Alt r1 r2 => re_run r1 at_start s k || re_run r2 at_start s k
  | Cat r1 r2 => re_run r1 at_start s (fun b s' => re_run r2 b s' k)
  | Bol => at_start && k at_start s
  | Eol =>
      match s with
      | [] => k at_start s
      | [c] => Ascii.eqb c "010" && k at_start s
      | _ => false
      end
  end.

(** [re.match(r, s)]: a match that starts at the start of [s]; it need not
    reach the end. *)
Definition re_match (r : regex) (s : string) : bool :=
  re_run r true (list_ascii_of_string s) (fun _ _ => true).

(* ===================================================================== *)
(** * JSON values, as Python holds them                                   *)
(* ===================================================================== *)

(** What [json.loads] makes of a claim: [None], a [bool], an [int], a
    [float] (here [m * 2^e]; NaN and the infinities are truthy like any
    float that is not zero), a [str], a [list] or a [dict]. *)
Local Unset Elimination Schemes.
Inductive json :=
| JNull
| JBool (b : bool)
| JInt (n : Z)
| JFloat (m e : Z)
| JStr (s : string)
| JList (l : list json)
| JObj (o : list (string * json)).
Local Set Elimination Schemes.

(** A text is a JSON value. *)
Coercion JStr : string >-> json.

(** [not v]. *)
Definition json_falsy (v : json) : bool :=
  match v with
  | JNull => true
  | JBool b => negb b
  | JInt n => n =? 0
  | JFloat m _ => m =? 0
  | JStr s => String.eqb s ""
  | JList l => match l with [] => true | _ :: _ => false end
  | JObj o => match o with [] => true | _ :: _ => false end
  end.

(** [p in s] for two texts: [p] occurs in [s]. *)
Fixpoint contains (p s : string) : bool :=
  startswith p s
  || match s with
     | EmptyString => false
     | String _ s' => contains p s'
     end.

(** [role in roles] for a text [role]: membership in a list, search in a
    text, a key of a dict; [None] is the TypeError that any other value
    raises. *)
Definition py_in (role : string) (roles : json) : option bool :=
  match roles with
  | JList l =>
      Some (existsb (fun v => match v with
                              | JStr s => String.eqb s role
                              | _ => false
                              end) l)
  | JStr s => Some (contains role s)
  | JObj o => Some (existsb (fun kv => String.eqb (fst kv) role) o)
  | JNull | JBool _ | JInt _ | JFloat _ _ => None
  end.

(* ===================================================================== *)
(** * backend/models/models.py                                            *)
(* ===================================================================== *)

Module TokenUsage.
(** A row of the [token_usage] table. *)
Record t := mk {
  id : Z;
  user_id : string;
  usage_time : datetime;
  tokens_used : Z;
  activity : string
}.
End TokenUsage.

Module User.
(** The user object the middleware attaches to the request. *)
Record t := mk {
  id : string;
  username : json;
  roles : json
}.
End User.

(* ===================================================================== *)
(** * The two SQL statements of the service                               *)
(* ===================================================================== *)

(** SUM(tokens_used) over some rows. *)
Definition tokens_of (rows : list TokenUsage.t) : Z :=
  zsum (map TokenUsage.tokens_used rows).

Section Grouping.
Context {K : Type} `{Ord K}.

(** Insertion into an ascending list without repetitions. *)
Fixpoint insert_key (k : K) (l : list K) : list K :=
  match l with
  | [] => [k]
  | k' :: r =>
      match cmp k k' with
      | Lt => k :: l
      | Eq => l
      | Gt => k' :: insert_key k r
      end
  end.

(** GROUP BY key ORDER BY key ASC: the distinct keys, ascending. *)
Definition group_keys (ks : list K) : list K := fold_right insert_key [] ks.

(** The rows of the group of [k]. *)
Definition group_rows (key : TokenUsage.t -> K) (rows : list TokenUsage.t)
           (k : K) : list TokenUsage.t :=
  filter (fun r => eqbk (key r) k) rows.

(** SELECT key, SUM(tokens_used) ... GROUP BY key ORDER BY key ASC. *)
Definition group_sum (key : TokenUsage.t -> K) (rows : list TokenUsage.t)
  : list (K * Z) :=
  map (fun k => (k, tokens_of (group_rows key rows k)))
      (group_keys (map key rows)).
End Grouping.

(** WHERE user_id = :user_id AND usage_time >= :start_date
      AND usage_time <= :end_date *)
Definition where_clause (user_id : string) (start_date end_date : datetime)
           (r : TokenUsage.t) : bool :=
  String.eqb (TokenUsage.user_id r) user_id
  && lebk start_date (TokenUsage.usage_time r)
  && lebk (TokenUsage.usage_time r) end_date.

(** date_trunc(:trunc_unit, usage_time) AS period *)
Definition period_of (trunc_unit : string) (r : TokenUsage.t) : datetime :=
  date_trunc trunc_unit (TokenUsage.usage_time r).

(** SELECT date_trunc(:trunc_unit, usage_time) AS period,
           SUM(tokens_used) AS total_tokens
    FROM token_usage WHERE ... GROUP BY period ORDER BY period ASC *)
Definition usage_query (table : list TokenUsage.t) (trunc_unit user_id : string)
           (start_date end_date : datetime) : list (datetime * Z) :=
  group_sum (period_of trunc_unit)
            (filter (where_clause user_id start_date end_date) table).

(** SELECT date_trunc(:trunc_unit, usage_time) AS period, activity,
           SUM(tokens_used) AS tokens
    FROM token_usage WHERE ... GROUP BY period, activity
    ORDER BY period ASC, activity ASC *)
Definition breakdown_query (table : list TokenUsage.t)
           (trunc_unit user_id : string) (start_date end_date : datetime)
  : list ((datetime * string) * Z) :=
  group_sum (fun r => (period_of trunc_unit r, TokenUsage.activity r))
            (filter (where_clause user_id start_date end_date) table).

(* ===================================================================== *)
(** * backend/services/token_usage_service.py                             *)
(* ===================================================================== *)

(** An element of [usage_data]. *)
Record usage_entry := mk_entry { period : string; total_tokens : Z }.

(** The [if]/[elif]/[else] that picks the unit of [date_trunc]. *)
Definition trunc_unit_of (timeframe : string) : string :=
  if String.eqb timeframe "daily" then "day"
  else if String.eqb timeframe "weekly" then "week"
  else if String.eqb timeframe "monthly" then "month"
  else "day".

(** One turn of the loop that fills [breakdowns]. *)
Definition breakdown_step (breakdowns : dict (dict Z))
           (row : (datetime * string) * Z) : dict (dict Z) :=
  let period := strftime_ymd (fst (fst row)) in
  let activity := snd (fst row) in
  let tokens := snd row in
  let breakdowns :=
    if dict_contains period breakdowns then breakdowns
    else dict_set period [] breakdowns in
  let inner :=
    match dict_get period breakdowns with Some d => d | None => [] end in
  dict_set period (dict_set activity tokens inner) breakdowns.

Definition get_token_usage_aggregated (table : list TokenUsage.t)
           (user_id : string) (start_date end_date : datetime)
           (timeframe : string) : list usage_entry * dict (dict Z) :=
  let trunc_unit := trunc_unit_of timeframe in
  let usage_result :=
    usage_query table trunc_unit user_id start_date end_date in
  let usage_data :=
    map (fun row => mk_entry (strftime_ymd (fst row)) (snd row)) usage_result in
  let breakdown_result :=
    breakdown_query table trunc_unit user_id start_date end_date in
  let breakdowns := fold_left breakdown_step breakdown_result [] in
  (usage_data, breakdowns).

(* ===================================================================== *)
(** * Handlers: responses, exceptions and the trace of outside calls      *)
(* ===================================================================== *)

(** What a handler does outside itself. *)
Inductive event :=
| JwtDecode (token key : string) (algorithms : list string)
| Aggregate (user_id : string) (start_date end_date : datetime)
            (timeframe : string).

Inductive body :=
| Detail (detail : string)
| Usage (data : list usage_entry) (breakdowns : dict (dict Z))
| Page (name : string).

Record response := mk_response { status_code : Z; content : body }.

(** A handler either returns or raises [HTTPException]. *)
Inductive outcome (A : Type) :=
| Return (a : A)
| HTTPException (status : Z) (detail : string).
Arguments Return {A} a.
Arguments HTTPException {A} status detail.

(** The outcome of a computation with the events it caused, oldest first. *)
Definition io (A : Type) : Type := outcome A * list event.

Definition ret {A} (a : A) : io A := (Return a, []).
Definition raise {A} (status : Z) (detail : string) : io A :=
  (HTTPException status detail, []).
Definition emit (e : event) : io unit := (Return tt, [e]).
Definition bind {A B} (m : io A) (f : A -> io B) : io B :=
  match m with
  | (Return a, t) => let (r, t') := f a in (r, t ++ t')
  | (HTTPException s d, t) => (HTTPException s d, t)
  end.

Notation "x <- m ;; f" := (bind m (fun x => f))
  (at level 61, m at next level, right associativity).
Notation "m ;;; f" := (bind m (fun _ => f))
  (at level 61, right associativity).

(** The exception handler of the framework: an [HTTPException] becomes a
    JSON response that carries its status and detail. *)
Definition to_response (m : io body) : response * list event :=
  match m with
  | (Return b, t) => (mk_response 200 b, t)
  | (HTTPException s d, t) => (mk_response s (Detail d), t)
  end.

Definition JSONResponse (status : Z) (detail : string)
  : response * list event :=
  (mk_response status (Detail detail), []).

(** An incoming GET request: its path, its Authorization header, its query
    string in the order sent, and [request.state.user]. *)
Record request := mk_request {
  path : string;
  authorization : option string;
  query_params : list (string * string);
  state_user : option User.t
}.

(** [request.query_params.get(k)]: of a repeated key the last value counts. *)
Fixpoint query_get (k : string) (q : list (string * string)) : option string :=
  match q with
  | [] => None
  | (k', v) :: r =>
      match query_get k r with
      | Some v' => Some v'
      | None => if String.eqb k k' then Some v else None
      end
  end.

(** The claims of a decoded token the middleware reads: [sub] is a text
    when it is there, the other two are what the token carries; a claim
    that is [null] is there and holds [JNull]. *)
Record payload := mk_payload {
  sub : option string;
  username_claim : option json;
  roles_claim : option json
}.

(** [not x] for an optional string: absent or empty. *)
Definition falsy (x : option string) : bool :=
  match x with
  | None => true
  | Some s => String.eqb s ""
  end.

Definition or_default {A} (x : option A) (d : A) : A :=
  match x with Some a => a | None => d end.

(** [not x] for an optional claim: absent or a falsy value. *)
Definition claim_falsy (x : option json) : bool :=
  match x with
  | None => true
  | Some v => json_falsy v
  end.

(** [os.environ.get(name, default)]. *)
Definition environ_get (environ : dict string) (name default : string)
  : string :=
  or_default (dict_get name environ) default.

(* ===================================================================== *)
(** * backend/routes/token_usage.py                                       *)
(* ===================================================================== *)

Section Routes.
Variable table : list TokenUsage.t.

Definition get_current_user (req : request) : io User.t :=
  match state_user req with
  | None => raise 401 "Not authenticated"
  | Some user => ret user
  end.

(** The call of the service, recorded. *)
Definition call_get_token_usage_aggregated (user_id : string)
           (start_date end_date : datetime) (timeframe : string)
  : io (list usage_entry * dict (dict Z)) :=
  emit (Aggregate user_id start_date end_date timeframe) ;;;
  ret (get_token_usage_aggregated table user_id start_date end_date
                                  timeframe).

(** The body of the endpoint, its parameters bound. *)
Definition get_token_usage (start_date end_date timeframe : string)
           (user : User.t) : io body :=
  match strptime_ymd start_date, strptime_ymd end_date with
  | Some start_dt, Some end_dt =>
      if negb (lebk start_dt end_dt) then
        raise 422 "Start date must be before or equal to end date."
      else
        let user_id := User.id user in
        r <- call_get_token_usage_aggregated user_id start_dt end_dt
                                             timeframe ;;
        ret (Usage (fst r) (snd r))
  | _, _ => raise 422 "Invalid date format. Use YYYY-MM-DD."
  end.

(** [regex="^(daily|weekly|monthly)$"]. *)
Definition timeframe_regex : regex :=
  Cat Bol (Cat (Alt (Lit "daily") (Alt (Lit "weekly") (Lit "monthly"))) Eol).

(** The declared parameters of the endpoint: the dependency
    [get_current_user] first, then the query parameters; [start_date] and
    [end_date] are required, [timeframe] has the default ["daily"] and,
    when sent, is validated with [re.match]. The body of a validation
    error of the framework is a list of errors; here it is cut down to
    the message of the error, and only its status 422 is relied on. *)
Definition endpoint (req : request) : io body :=
  user <- get_current_user req ;;
  match query_get "start_date" (query_params req),
        query_get "end_date" (query_params req) with
  | Some start_date, Some end_date =>
      match query_get "timeframe" (query_params req) with
      | None => get_token_usage start_date end_date "daily" user
      | Some timeframe =>
          if re_match timeframe_regex timeframe
          then get_token_usage start_date end_date timeframe user
          else raise 422 "string does not match regex"
      end
  | _, _ => raise 422 "field required"
  end.

(** The routes of the application: the router mounted under [/api] and
    the documentation pages. *)
Definition router (req : request) : response * list event :=
  if String.eqb (path req) "/api/token-usage" then to_response (endpoint req)
  else if String.eqb (path req) "/docs" then (mk_response 200 (Page "docs"), [])
  else if String.eqb (path req) "/redoc" then (mk_response 200 (Page "redoc"), [])
  else if String.eqb (path req) "/openapi.json"
       then (mk_response 200 (Page "openapi"), [])
  else JSONResponse 404 "Not Found".
End Routes.

(* ===================================================================== *)
(** * backend/middleware/auth_middleware.py                               *)
(* ===================================================================== *)

Section Middleware.
(** The environment of the process. *)
Variable environ : dict string.
(** [jose.jwt.decode(token, key, algorithms)]; [None] is a [JWTError]:
    a malformed token, a wrong signature, an expired token. *)
Variable jwt_decode : string -> string -> list string -> option payload.

Definition JWT_SECRET_KEY : string :=
  environ_get environ "JWT_SECRET_KEY" "supersecretkey".
Definition JWT_ALGORITHM : string :=
  environ_get environ "JWT_ALGORITHM" "HS256".

(** The paths served without authentication. *)
Definition is_open_path (p : string) : bool :=
  startswith "/docs" p || startswith "/openapi" p || startswith "/redoc" p.

(** [any(role in roles for role in ["user", "admin"])]: the roles are
    tried in this order until one is found; [None] is the TypeError of
    the first test. *)
Definition has_permitted_role (roles : json) : option bool :=
  match py_in "user" roles with
  | None => None
  | Some true => Some true
  | Some false => py_in "admin" roles
  end.

(** [AuthMiddleware.dispatch]. The branch for a header without a space
    stands for the [IndexError] of [split(" ", 1)[1]], which the last
    [except] would turn into a 500; a header that starts with "Bearer "
    never takes it. The same [except] answers 500 when the test of the
    roles raises. [User(...)] keeps [roles or []]. *)
Definition dispatch (req : request)
           (call_next : request -> response * list event)
  : response * list event :=
  if is_open_path (path req) then call_next req
  else
    match authorization req with
    | None => JSONResponse 401 "Not authenticated"
    | Some auth_header =>
        if String.eqb auth_header "" || negb (startswith "Bearer " auth_header)
        then JSONResponse 401 "Not authenticated"
        else
          match split_space_snd auth_header with
          | None => JSONResponse 500 "Authentication system error."
          | Some token =>
              let decoded :=
                [JwtDecode token JWT_SECRET_KEY [JWT_ALGORITHM]] in
              match jwt_decode token JWT_SECRET_KEY [JWT_ALGORITHM] with
              | None =>
                  (mk_response 401
                     (Detail "Invalid or expired authentication token."),
                   decoded)
              | Some payload =>
                  let user_id := sub payload in
                  let username := username_claim payload in
                  let roles := or_default (roles_claim payload) (JList []) in
                  if falsy user_id || claim_falsy username then
                    (mk_response 401 (Detail "Invalid authentication token."),
                     decoded)
                  else
                    match has_permitted_role roles with
                    | None =>
                        (mk_response 500
                           (Detail "Authentication system error."),
                         decoded)
                    | Some false =>
                        (mk_response 403 (Detail "Insufficient permissions."),
                         decoded)
                    | Some true =>
                        let user :=
                          User.mk (or_default user_id "")
                                  (or_default username JNull)
                                  (if json_falsy roles then JList []
                                   else roles) in
                        let (resp, t) :=
                          call_next (mk_request (path req)
                                                (authorization req)
                                                (query_params req)
                                                (Some user)) in
                        (resp, decoded ++ t)
                    end
              end
          end
    end.

(** The application: the middleware in front of the routes. *)
Definition app (table : list TokenUsage.t) (req : request)
  : response * list event :=
  dispatch req (router table).
End Middleware.

(* ===================================================================== *)
(** * Auxiliary definitions of the statements                             *)
(* ===================================================================== *)

(** What the loop does to the entry of one bucket key [s]. *)
Definition bucket_step (s : string) (o : option (dict Z))
           (row : (datetime * string) * Z) : option (dict Z) :=
  if String.eqb s (strftime_ymd (fst (fst row)))
  then Some (dict_set (snd (fst row)) (snd row) (or_default o []))
  else o.

(** The rows of the breakdown query that fall under the bucket key [s]. *)
Definition rows_under (s : string) (rows : list ((datetime * string) * Z))
  : list ((datetime * string) * Z) :=
  filter (fun row => String.eqb s (strftime_ymd (fst (fst row)))) rows.

(** The item a row of the breakdown query leaves in the dict of its bucket. *)
Definition activity_entry (row : (datetime * string) * Z) : string * Z :=
  (snd (fst row), snd row).

(** The shape of a bucket start: midnight of a day whose month and day
    numbers are those of a calendar. *)
Definition bucket_start (d : datetime) : Prop :=
  1 <= month d <= 12 /\ 1 <= day d <= 31 /\
  hour d = 0 /\ minute d = 0 /\ second d = 0 /\ microsecond d = 0.

(** The rows both queries of the service read. *)
Definition matching_rows (table : list TokenUsage.t) (user_id : string)
           (start_date end_date : datetime) : list TokenUsage.t :=
  filter (where_clause user_id start_date end_date) table.

(** The groups of a query grouped by two keys that lie in the group [p] of
    the query grouped by the first key alone. *)
Definition keys_under {P A : Type} `{Ord P} `{Ord A}
           (kp : TokenUsage.t -> P) (ka : TokenUsage.t -> A)
           (rows : list TokenUsage.t) (p : P) : list (P * A) :=
  filter (fun k => eqbk (fst k) p)
         (group_keys (map (fun r => (kp r, ka r)) rows)).

(** The token of a request that carries a Bearer header. *)
Definition bearer_token (req : request) : option string :=
  match authorization req with
  | Some auth_header =>
      if startswith "Bearer " auth_header then split_space_snd auth_header
      else None
  | None => None
  end.

(** The identity the middleware admits for a request, if it admits one: the token
    decodes under the configured key and algorithm, the claims [sub] and
    [username] are present and truthy, and the test of the roles succeeds. *)
Definition verified_identity (environ : dict string)
           (jwt_decode : string -> string -> list string -> option payload)
           (req : request) : option User.t :=
  match bearer_token req with
  | None => None
  | Some token =>
      match jwt_decode token (JWT_SECRET_KEY environ) [JWT_ALGORITHM environ] with
      | None => None
      | Some pl =>
          let roles := or_default (roles_claim pl) (JList []) in
          match sub pl, username_claim pl with
          | Some user_id, Some username =>
              if negb (String.eqb user_id "") && negb (json_falsy username)
              then match has_permitted_role roles with
                   | Some true =>
                       Some (User.mk user_id username
                                     (if json_falsy roles then JList []
                                      else roles))
                   | _ => None
                   end
              else None
          | _, _ => None
          end
      end
  end.

(** The granularity a request asks for: the parameter [timeframe] when it
    passes the pattern of the endpoint, ["daily"] when it is not sent. *)
Definition requested_timeframe (req : request) : option string :=
  match query_get "timeframe" (query_params req) with
  | None => Some "daily"
  | Some timeframe =>
      if re_match timeframe_regex timeframe then Some timeframe else None
  end.

(** The date a query parameter names. *)
Definition requested_date (name : string) (req : request) : option datetime :=
  match query_get name (query_params req) with
  | Some text => strptime_ymd text
  | None => None
  end.

(** The parameters the endpoint binds for a request: both dates parse, the
    first is not after the second, and the granularity is accepted. *)
Definition bound_parameters (req : request)
  : option (datetime * datetime * string) :=
  if String.eqb (path req) "/api/token-usage" then
    match requested_date "start_date" req, requested_date "end_date" req,
          requested_timeframe req with
    | Some start_dt, Some end_dt, Some timeframe =>
        if lebk start_dt end_dt then Some (start_dt, end_dt, timeframe)
        else None
    | _, _, _ => None
    end
  else None.

(** The body carries usage data. *)
Definition is_usage (b : body) : bool :=
  match b with Usage _ _ => true | _ => false end.

(** The event is a call of the service. *)
Definition is_aggregate (e : event) : bool :=
  match e with Aggregate _ _ _ _ => true | JwtDecode _ _ _ => false end.

(** The request as the routes see it once the middleware has attached [user]. *)
Definition with_user (req : request) (user : User.t) : request :=
  mk_request (path req) (authorization req) (query_params req) (Some user).

(** The same request with another query string. *)
Definition set_query (req : request) (q : list (string * string)) : request :=
  mk_request (path req) (authorization req) q (state_user req).

(** The middleware refuses the credential of a request: there is no Bearer
    credential, or it does not decode (it is malformed, wrongly signed or
    expired), or a required claim is missing or falsy, or the test of the
    roles does not succeed: it finds none of the permitted roles, or it
    raises. *)
Definition credential_refused (environ : dict string)
           (jwt_decode : string -> string -> list string -> option payload)
           (req : request) : Prop :=
  match bearer_token req with
  | None => True
  | Some token =>
      match jwt_decode token (JWT_SECRET_KEY environ) [JWT_ALGORITHM environ] with
      | None => True
      | Some pl =>
          falsy (sub pl) = true \/ claim_falsy (username_claim pl) = true
          \/ has_permitted_role (or_default (roles_claim pl) (JList []))
             <> Some true
      end
  end.

(** The calendar day of an instant. *)
Definition date_tuple (d : datetime) : list Z := [year d; month d; day d].

(** The time of day of an instant. *)
Definition time_tuple (d : datetime) : list Z :=
  [hour d; minute d; second d; microsecond d].

(** The instant [t] falls on a day from the day of [start_date] through the
    day of [end_date], at any time of day. *)
Definition on_days_between (start_date end_date t : datetime) : bool :=
  match list_compare Z.compare (date_tuple start_date) (date_tuple t),
        list_compare Z.compare (date_tuple t) (date_tuple end_date) with
  | Gt, _ => false
  | _, Gt => false
  | _, _ => true
  end.

(** Four digits, with leading zeros. *)
Definition pad4 (n : Z) : string :=
  String (digit_char (n / 1000)) (String (digit_char (n / 100)) (pad2 n)).

(** The years of the rows are such that every bucket starts in a year of
    four digits: a week that holds the first days of a year can start in
    the year before. *)
Definition four_digit_years (table : list TokenUsage.t) : bool :=
  forallb (fun r => 1001 <=? year (TokenUsage.usage_time r)) table.

(** All rows of the table hold datetimes. *)
Definition valid_table (table : list TokenUsage.t) : bool :=
  forallb (fun r => valid_datetime (TokenUsage.usage_time r)) table.

(* ===================================================================== *)
(** * A sample deployment                                                 *)
(* ===================================================================== *)

(** The rows of the test fixture, on three consecutive days; the last day
    is 2024-06-10 and the rows of that day are stamped at noon. *)
Definition sample_table : list TokenUsage.t :=
  [ TokenUsage.mk 1 "testuser" (mkdatetime 2024 6 8 12 0 0 0) 100 "chat";
    TokenUsage.mk 2 "testuser" (mkdatetime 2024 6 9 12 0 0 0) 200 "api";
    TokenUsage.mk 3 "testuser" (mkdatetime 2024 6 10 12 0 0 0) 150 "chat";
    TokenUsage.mk 4 "otheruser" (mkdatetime 2024 6 10 12 0 0 0) 999 "api" ].

(** A decoder that knows the tokens of the examples, signed with the
    default secret: a user, a guest, another user, a token whose roles
    claim is the text "superuser" and a token whose roles claim is null. *)
Definition sample_jwt_decode (token key : string) (algorithms : list string)
  : option payload :=
  if negb (String.eqb key "supersecretkey") then None
  else if String.eqb token "user-token" then
    Some (mk_payload (Some "testuser") (Some (JStr "testuser"))
                     (Some (JList [JStr "user"])))
  else if String.eqb token "guest-token" then
    Some (mk_payload (Some "testuser") (Some (JStr "testuser"))
                     (Some (JList [JStr "guest"])))
  else if String.eqb token "other-token" then
    Some (mk_payload (Some "otheruser") (Some (JStr "otheruser"))
                     (Some (JList [JStr "user"])))
  else if String.eqb token "superuser-token" then
    Some (mk_payload (Some "testuser") (Some (JStr "testuser"))
                     (Some (JStr "superuser")))
  else if String.eqb token "null-roles-token" then
    Some (mk_payload (Some "testuser") (Some (JStr "testuser"))
                     (Some JNull))
  else None.

(** A request to the endpoint. *)
Definition sample_request (auth : option string)
           (query : list (string * string)) : request :=
  mk_request "/api/token-usage" auth query None.

(* ===================================================================== *)
(** * Further definitions: what a bucket holds                            *)
(* ===================================================================== *)

(** The rows a request reads that fall in the bucket with the key [key]. *)
Definition bucket_rows (table : list TokenUsage.t) (user_id : string)
           (start_date end_date : datetime) (timeframe key : string)
  : list TokenUsage.t :=
  filter (fun r => String.eqb (strftime_ymd
                                 (period_of (trunc_unit_of timeframe) r)) key)
         (matching_rows table user_id start_date end_date).

(** Those of them that carry the activity [activity]. *)
Definition bucket_activity_rows (table : list TokenUsage.t) (user_id : string)
           (start_date end_date : datetime) (timeframe key activity : string)
  : list TokenUsage.t :=
  filter (fun r => String.eqb (TokenUsage.activity r) activity)
         (bucket_rows table user_id start_date end_date timeframe key).

(** No row counts a negative number of tokens. *)
Definition tokens_nonnegative (table : list TokenUsage.t) : bool :=
  forallb (fun r => 0 <=? TokenUsage.tokens_used r) table.

(** The key of the bucket of granularity [timeframe] that holds the day
    with the key [day_key]. *)
Definition bucket_of_day (timeframe day_key : string) : option string :=
  match strptime_ymd day_key with
  | Some t => Some (strftime_ymd (date_trunc (trunc_unit_of timeframe) t))
  | None => None
  end.

(** The day with the key [day_key] lies in the bucket with the key
    [bucket_key]. *)
Definition day_in_bucket (timeframe bucket_key day_key : string) : bool :=
  match bucket_of_day timeframe day_key with
  | Some k => String.eqb k bucket_key
  | None => false
  end.

(* ===================================================================== *)
(** * frontend/components/date_picker.py                                  *)
(* ===================================================================== *)

(** [d.replace(day=n)]. *)
Definition replace_day (d : datetime) (n : Z) : datetime :=
  mkdatetime (year d) (month d) n
             (hour d) (minute d) (second d) (microsecond d).

(** [d.replace(hour=h, minute=mi, second=s, microsecond=us)]. *)
Definition replace_time (d : datetime) (h mi s us : Z) : datetime :=
  mkdatetime (year d) (month d) (day d) h mi s us.

(** [d - timedelta(days=n)]; [None] is the OverflowError of a result before
    the year 1. *)
Definition minus_days (d : datetime) (n : nat) : option datetime :=
  let r := Nat.iter n prev_day d in
  if 1 <=? year r then Some r else None.

(** [get_default_date_range(timeframe)], where [today] is what
    [datetime.today()] returns. *)
Definition get_default_date_range (today : datetime) (timeframe : string)
  : option (datetime * datetime) :=
  let start :=
    if String.eqb timeframe "daily" then minus_days today 6%nat
    else if String.eqb timeframe "weekly" then minus_days today (11 * 7)%nat
    else if String.eqb timeframe "monthly"
         then minus_days (replace_day today 1) 365%nat
    else minus_days today 29%nat in
  match start with
  | Some start =>
      Some (replace_time start 0 0 0 0, replace_time today 23 59 59 999999)
  | None => None
  end.


(* ===================================================================== *)
(** * frontend/api/api_client.py                                          *)
(* ===================================================================== *)

Module TokenUsageApiClient.
(** The request [client.get(url, headers=headers, params=params)] sends. *)
Definition request_of (token : string) (start_date end_date : datetime)
           (timeframe : string) : request :=
  mk_request "/api/token-usage"
             (Some ("Bearer " ++ token)%string)
             [("start_date", strftime_ymd start_date);
              ("end_date", strftime_ymd end_date);
              ("timeframe", timeframe)]
             None.

(** [get_token_usage] against a backend; [None] is the exception raised
    after [raise_for_status] on an answer that is not a success. The
    backend answers 200, 401, 403, 404, 422 or 500. *)
Definition get_token_usage (backend : request -> response * list event)
           (token : string) (start_date end_date : datetime)
           (timeframe : string) : option body :=
  let resp := fst (backend (request_of token start_date end_date
                                       timeframe)) in
  if (200 <=? status_code resp) && (status_code resp <? 300)
  then Some (content resp)
  else None.
End TokenUsageApiClient.

(* ===================================================================== *)
(** * backend/middleware/audit_logger.py and backend/main.py              *)
(* ===================================================================== *)

(** The fields of [log_data] that come from the request and the response
    as they are modelled; the method, the time taken and the host of the
    client are left out. *)
Record log_data := mk_log_data {
  log_user_id : string;
  log_username : json;
  log_path : string;
  log_status_code : Z
}.

(** [x or "anonymous"], for the identifier and for the name. *)
Definition or_anonymous (x : option string) : string :=
  if falsy x then "anonymous" else or_default x "".

Definition or_anonymous_json (x : option json) : json :=
  if claim_falsy x then JStr "anonymous" else or_default x JNull.

Module AuditLoggerMiddleware.
(** [AuditLoggerMiddleware.dispatch]: the user is read from
    [request.state] before the request is passed on; the entries written
    with [logger.info] are returned beside the response. *)
Definition dispatch (req : request)
           (call_next : request -> response * list event)
  : (response * list event) * list log_data :=
  let user := state_user req in
  let user_id :=
    match user with Some u => Some (User.id u) | None => None end in
  let username :=
    match user with Some u => Some (User.username u) | None => None end in
  let result := call_next req in
  let entry := mk_log_data (or_anonymous user_id)
                           (or_anonymous_json username)
                           (path req) (status_code (fst result)) in
  if startswith "/api" (path req) || startswith "/dashboard" (path req)
  then (result, [entry])
  else (result, []).
End AuditLoggerMiddleware.

(** [create_app]: the middleware added last is the outermost, so a request
    passes the audit logger first, then the authentication middleware,
    then the routes. The session, CORS and HTTPS-redirect middlewares pass
    a GET request that arrives over HTTPS through unchanged. *)
Definition create_app (environ : dict string)
           (jwt_decode : string -> string -> list string -> option payload)
           (table : list TokenUsage.t) (req : request)
  : (response * list event) * list log_data :=
  AuditLoggerMiddleware.dispatch req (app environ jwt_decode table).

(** A day of June 2024 with a time of day, for the examples. *)
Definition sample_today : datetime := mkdatetime 2024 6 10 15 30 0 0.

(* ===================================================================== *)
(** * The orders are total orders                                         *)
(* ===================================================================== *)

Lemma Z_compare_trans_any (x y z : Z) (c : comparison) :
  (x ?= y) = c -> (y ?= z) = c -> (x ?= z) = c.
Proof.
  destruct c; intros H1 H2.
  - apply Z.compare_eq_iff in H1, H2. subst. apply Z.compare_refl.
  - rewrite Z.compare_lt_iff in *. lia.
  - rewrite Z.compare_gt_iff in *. lia.
Qed.

#[global] Instance OrdLaws_Z : OrdLaws Z.
Proof.
  constructor; simpl.
  - intros a b. apply Z.compare_eq_iff.
  - intros a b. apply Z.compare_antisym.
  - intros a b c. apply Z_compare_trans_any.
Qed.

Lemma ascii_compare_refl (a : ascii) : Ascii.compare a a = Eq.
Proof. unfold Ascii.compare. apply N.compare_refl. Qed.

Lemma string_compare_refl (s : string) : String.compare s s = Eq.
Proof.
  induction s as [|a s IH]; simpl; [reflexivity|].
  now rewrite ascii_compare_refl.
Qed.

Lemma string_compare_lt_trans (a b c : string) :
  String.compare a b = Lt -> String.compare b c = Lt -> String.compare a c = Lt.
Proof.
  revert b c. induction a as [|x a IH]; intros [|y b] [|z c]; simpl;
    try discriminate; try reflexivity.
  destruct (Ascii.compare x y) eqn:Exy; try discriminate;
    destruct (Ascii.compare y z) eqn:Eyz; try discriminate; intros H1 H2.
  - apply Ascii.compare_eq_iff in Exy, Eyz. subst.
    rewrite ascii_compare_refl. eauto.
  - apply Ascii.compare_eq_iff in Exy. subst. now rewrite Eyz.
  - apply Ascii.compare_eq_iff in Eyz. subst. now rewrite Exy.
  - unfold Ascii.compare in *. rewrite N.compare_lt_iff in *.
    assert (Hlt : (N_of_ascii x < N_of_ascii z)%N) by lia.
    apply N.compare_lt_iff in Hlt. now rewrite Hlt.
Qed.

#[global] Instance OrdLaws_string : OrdLaws string.
Proof.
  constructor; simpl.
  - intros a b. split; [apply String.compare_eq_iff|].
    intros ->. apply string_compare_refl.
  - intros a b. apply String.compare_antisym.
  - apply string_compare_lt_trans.
Qed.

#[global] Instance OrdLaws_pair {A B} `{OrdLaws A} `{OrdLaws B} : OrdLaws (A * B).
Proof.
  constructor; simpl.
  - intros [a1 b1] [a2 b2]; simpl. destruct (cmp a1 a2) eqn:E.
    + apply cmp_eq in E. subst. rewrite cmp_eq. split; congruence.
    + split; [discriminate|]. intros [= -> ->].
      assert (Hr : cmp a2 a2 = Eq) by now apply cmp_eq. congruence.
    + split; [discriminate|]. intros [= -> ->].
      assert (Hr : cmp a2 a2 = Eq) by now apply cmp_eq. congruence.
  - intros [a1 b1] [a2 b2]; simpl. rewrite (cmp_opp a1 a2).
    destruct (cmp a1 a2); simpl; try reflexivity. apply cmp_opp.
  - intros [a1 b1] [a2 b2] [a3 b3]; simpl.
    destruct (cmp a1 a2) eqn:E12; try discriminate;
      destruct (cmp a2 a3) eqn:E23; try discriminate; intros L1 L2.
    + apply cmp_eq in E12, E23. subst.
      assert (Hr : cmp a3 a3 = Eq) by now apply cmp_eq.
      rewrite Hr. eapply cmp_lt_trans; eauto.
    + apply cmp_eq in E12. subst. now rewrite E23.
    + apply cmp_eq in E23. subst. now rewrite E12.
    + now rewrite (cmp_lt_trans _ _ _ E12 E23).
Qed.

Lemma dt_tuple_inj (a b : datetime) : dt_tuple a = dt_tuple b -> a = b.
Proof. destruct a, b; unfold dt_tuple; simpl. congruence. Qed.

#[global] Instance OrdLaws_datetime : OrdLaws datetime.
Proof.
  constructor; unfold cmp, Ord_datetime.
  - intros a b. rewrite (list_compare_refl Z.compare Z.compare_eq_iff).
    split; [apply dt_tuple_inj | congruence].
  - intros a b. apply (list_compare_antisym Z.compare Z.compare_eq_iff).
    intros x y. apply Z.compare_antisym.
  - intros a b c. apply (list_compare_trans Z.compare Z.compare_eq_iff).
    + intros x y z k. apply Z_compare_trans_any.
    + intros x y. apply Z.compare_antisym.
Qed.

Section OrderFacts.
Context {K : Type} `{OrdLaws K}.

Lemma cmp_refl (a : K) : cmp a a = Eq.
Proof. now apply cmp_eq. Qed.

Lemma cmp_gt_lt (a b : K) : cmp a b = Gt -> cmp b a = Lt.
Proof. intros E. rewrite (cmp_opp a b), E. reflexivity. Qed.

Lemma cmp_lt_gt (a b : K) : cmp a b = Lt -> cmp b a = Gt.
Proof. intros E. rewrite (cmp_opp a b), E. reflexivity. Qed.

Lemma ltk_irrefl (a : K) : ~ ltk a a.
Proof. unfold ltk. rewrite cmp_refl. discriminate. Qed.

Lemma ltk_trans (a b c : K) : ltk a b -> ltk b c -> ltk a c.
Proof. apply cmp_lt_trans. Qed.

Lemma eqbk_eq (a b : K) : eqbk a b = true <-> a = b.
Proof.
  unfold eqbk. destruct (cmp a b) eqn:E.
  - apply cmp_eq in E. tauto.
  - split; [discriminate|]. intros ->. rewrite cmp_refl in E. discriminate.
  - split; [discriminate|]. intros ->. rewrite cmp_refl in E. discriminate.
Qed.

Lemma eqbk_refl (a : K) : eqbk a a = true.
Proof. now apply eqbk_eq. Qed.

Lemma eqbk_neq (a b : K) : eqbk a b = false <-> a <> b.
Proof.
  rewrite <- eqbk_eq. destruct (eqbk a b); split; congruence.
Qed.

Lemma lebk_trans (a b c : K) :
  lebk a b = true -> lebk b c = true -> lebk a c = true.
Proof.
  unfold lebk. destruct (cmp a b) eqn:E1; try discriminate;
    destruct (cmp b c) eqn:E2; try discriminate; intros _ _.
  - apply cmp_eq in E1, E2. subst. now rewrite cmp_refl.
  - apply cmp_eq in E1. subst. now rewrite E2.
  - apply cmp_eq in E2. subst. now rewrite E1.
  - now rewrite (cmp_lt_trans _ _ _ E1 E2).
Qed.
End OrderFacts.

(* ===================================================================== *)
(** * GROUP BY ... ORDER BY: facts about the grouped keys                  *)
(* ===================================================================== *)

Section GroupingFacts.
Context {K : Type} `{OrdLaws K}.

Lemma insert_key_In (k x : K) (l : list K) :
  In x (insert_key k l) <-> x = k \/ In x l.
Proof.
  induction l as [|k' r IH]; simpl.
  - intuition.
  - destruct (cmp k k') eqn:E; simpl.
    + apply cmp_eq in E. subst. intuition.
    + intuition.
    + rewrite IH. intuition.
Qed.

Lemma insert_key_sorted (k : K) (l : list K) :
  StronglySorted ltk l -> StronglySorted ltk (insert_key k l).
Proof.
  induction l as [|k' r IH]; simpl; intros Hs.
  - repeat constructor.
  - inversion Hs as [|? ? Hr Hall]; subst.
    destruct (cmp k k') eqn:E.
    + exact Hs.
    + constructor; [exact Hs|]. constructor; [exact E|].
      eapply Forall_impl; [|exact Hall]. intros a Ha.
      eapply ltk_trans; eauto.
    + constructor; [auto|]. apply Forall_forall. intros x Hx.
      apply insert_key_In in Hx. destruct Hx as [->|Hx].
      * now apply cmp_gt_lt.
      * rewrite Forall_forall in Hall. auto.
Qed.

Lemma group_keys_In (x : K) (ks : list K) :
  In x (group_keys ks) <-> In x ks.
Proof.
  induction ks as [|k ks IH]; simpl; [tauto|].
  rewrite insert_key_In, IH. intuition.
Qed.

Lemma group_keys_sorted (ks : list K) : StronglySorted ltk (group_keys ks).
Proof.
  induction ks as [|k ks IH]; simpl; [constructor|].
  now apply insert_key_sorted.
Qed.

Lemma sorted_NoDup (l : list K) : StronglySorted ltk l -> NoDup l.
Proof.
  induction 1 as [|a l Hs IH Hall]; constructor; auto.
  intros Hin. rewrite Forall_forall in Hall.
  exact (ltk_irrefl a (Hall a Hin)).
Qed.

(** An ascending list without repetitions is determined by its members. *)
Lemma sorted_ext (l1 l2 : list K) :
  StronglySorted ltk l1 -> StronglySorted ltk l2 ->
  (forall x, In x l1 <-> In x l2) -> l1 = l2.
Proof.
  intros Hs1. revert l2.
  induction Hs1 as [|a l1 Hs1 IH Ha]; intros l2 Hs2 Hin.
  - destruct l2 as [|b l2]; [reflexivity|].
    exfalso. apply (Hin b). now left.
  - destruct Hs2 as [|b l2 Hs2 Hb].
    + exfalso. apply (Hin a). now left.
    + rewrite Forall_forall in Ha, Hb.
      assert (Hab : a = b).
      { destruct (proj1 (Hin a) (or_introl eq_refl)) as [E|Hi]; [auto|].
        destruct (proj2 (Hin b) (or_introl eq_refl)) as [E|Hj]; [auto|].
        exfalso. apply (ltk_irrefl a).
        eapply ltk_trans; [apply Ha, Hj | apply Hb, Hi]. }
      subst b. f_equal. apply IH; [exact Hs2|].
      intros x. split; intros Hx.
      * destruct (proj1 (Hin x) (or_intror Hx)) as [E|Hi]; [|exact Hi].
        subst x. exfalso. exact (ltk_irrefl a (Ha a Hx)).
      * destruct (proj2 (Hin x) (or_intror Hx)) as [E|Hi]; [|exact Hi].
        subst x. exfalso. exact (ltk_irrefl a (Hb a Hx)).
Qed.

Lemma group_keys_ext (ks ks' : list K) :
  (forall x, In x ks <-> In x ks') -> group_keys ks = group_keys ks'.
Proof.
  intros Hin. apply sorted_ext; try apply group_keys_sorted.
  intros x. now rewrite !group_keys_In.
Qed.

Lemma group_keys_nil_inv (ks : list K) : group_keys ks = [] -> ks = [].
Proof.
  destruct ks as [|k ks]; [reflexivity|]. intros E. exfalso.
  assert (Hin : In k (group_keys (k :: ks))) by (apply group_keys_In; now left).
  rewrite E in Hin. exact Hin.
Qed.
End GroupingFacts.

(* ===================================================================== *)
(** * Sums                                                                *)
(* ===================================================================== *)

Lemma zsum_app (l1 l2 : list Z) : zsum (l1 ++ l2) = zsum l1 + zsum l2.
Proof. induction l1 as [|a l1 IH]; simpl; [reflexivity|]. rewrite IH. lia. Qed.

Lemma tokens_of_perm (l1 l2 : list TokenUsage.t) :
  Permutation l1 l2 -> tokens_of l1 = tokens_of l2.
Proof.
  unfold tokens_of.
  induction 1 as [|x l1 l2 _ IH|x y l|l1 l2 l3 _ IH1 _ IH2]; simpl; lia.
Qed.

Section PartitionSum.
Context {K : Type} `{OrdLaws K}.
Variable key : TokenUsage.t -> K.

Lemma tokens_of_group_cons (r : TokenUsage.t) (rows : list TokenUsage.t) (k : K) :
  tokens_of (group_rows key (r :: rows) k)
  = (if eqbk (key r) k then TokenUsage.tokens_used r else 0)
    + tokens_of (group_rows key rows k).
Proof.
  unfold group_rows, tokens_of. simpl.
  destruct (eqbk (key r) k); reflexivity.
Qed.

Lemma zsum_map_add {A} (f g : A -> Z) (l : list A) :
  zsum (map (fun a => f a + g a) l) = zsum (map f l) + zsum (map g l).
Proof. induction l as [|a l IH]; simpl; [reflexivity|]. rewrite IH. lia. Qed.

Lemma zsum_map_zero {A} (l : list A) : zsum (map (fun _ => 0) l) = 0.
Proof. induction l as [|a l IH]; simpl; [reflexivity|]. exact IH. Qed.

(** Among distinct keys exactly one is the key of a given row. *)
Lemma sum_indicator (ks : list K) (x : K) (v : Z) :
  NoDup ks -> In x ks ->
  zsum (map (fun k => if eqbk x k then v else 0) ks) = v.
Proof.
  induction 1 as [|k ks Hnotin Hnd IH]; intros Hin; [destruct Hin|].
  simpl. destruct (eqbk x k) eqn:E.
  - apply eqbk_eq in E. subst k.
    rewrite (map_ext_in _ (fun _ => 0)).
    + rewrite zsum_map_zero. lia.
    + intros k Hk. destruct (eqbk x k) eqn:E'; [|reflexivity].
      apply eqbk_eq in E'. subst k. contradiction.
  - destruct Hin as [->|Hin]; [rewrite eqbk_refl in E; discriminate|].
    rewrite (IH Hin). lia.
Qed.

(** Groups under distinct keys that cover the rows partition their sum. *)
Lemma partition_sum (ks : list K) (rows : list TokenUsage.t) :
  NoDup ks -> (forall r, In r rows -> In (key r) ks) ->
  zsum (map (fun k => tokens_of (group_rows key rows k)) ks) = tokens_of rows.
Proof.
  intros Hnd. induction rows as [|r rows IH]; intros Hcov.
  - apply zsum_map_zero.
  - rewrite (map_ext _ _ (tokens_of_group_cons r rows)).
    rewrite zsum_map_add, sum_indicator, IH.
    + reflexivity.
    + intros r' Hr'. apply Hcov. now right.
    + exact Hnd.
    + apply Hcov. now left.
Qed.
End PartitionSum.

(* ===================================================================== *)
(** * dict                                                                *)
(* ===================================================================== *)

Section DictFacts.
Context {V : Type}.

Lemma dict_get_set (k k' : string) (v : V) (d : dict V) :
  dict_get k (dict_set k' v d)
  = if String.eqb k k' then Some v else dict_get k d.
Proof.
  induction d as [|[k0 v0] d IH]; simpl.
  - destruct (String.eqb k k'); reflexivity.
  - destruct (String.eqb_spec k' k0) as [->|Hne]; simpl.
    + destruct (String.eqb k k0); reflexivity.
    + rewrite IH. destruct (String.eqb_spec k k0) as [->|Hne'].
      * apply String.eqb_neq in Hne. rewrite String.eqb_sym in Hne.
        now rewrite Hne.
      * reflexivity.
Qed.

Lemma dict_get_None (k : string) (d : dict V) :
  dict_get k d = None <-> ~ In k (dict_keys d).
Proof.
  induction d as [|[k0 v0] d IH]; simpl; [tauto|].
  destruct (String.eqb_spec k k0) as [->|Hne].
  - split; [discriminate|]. intros Hn. exfalso. apply Hn. now left.
  - rewrite IH. split; [intros Hn [E|Hi]; [congruence|auto] | tauto].
Qed.

Lemma dict_get_Some_In (k : string) (v : V) (d : dict V) :
  dict_get k d = Some v -> In (k, v) d.
Proof.
  induction d as [|[k0 v0] d IH]; simpl; [discriminate|].
  destruct (String.eqb_spec k k0) as [->|Hne].
  - intros [= ->]. now left.
  - intros Hg. right. auto.
Qed.

Lemma dict_keys_In_get (k : string) (d : dict V) :
  In k (dict_keys d) <-> exists v, dict_get k d = Some v.
Proof.
  destruct (dict_get k d) as [v|] eqn:E.
  - split; [eauto|]. intros _. apply dict_get_Some_In in E.
    unfold dict_keys. apply in_map_iff. now exists (k, v).
  - apply dict_get_None in E. split; [tauto|]. intros [v Hv]. discriminate.
Qed.

(** A key that is not in the dict goes to its end. *)
Lemma dict_set_fresh (k : string) (v : V) (d : dict V) :
  ~ In k (dict_keys d) -> dict_set k v d = d ++ [(k, v)].
Proof.
  induction d as [|[k0 v0] d IH]; simpl; intros Hn; [reflexivity|].
  destruct (String.eqb_spec k k0) as [->|Hne]; [tauto|].
  rewrite IH; [reflexivity | tauto].
Qed.
End DictFacts.

(* ===================================================================== *)
(** * The loop that fills [breakdowns]                                    *)
(* ===================================================================== *)

Lemma breakdown_step_get (s : string) (D : dict (dict Z))
      (row : (datetime * string) * Z) :
  dict_get s (breakdown_step D row) = bucket_step s (dict_get s D) row.
Proof.
  unfold breakdown_step, bucket_step, dict_contains.
  set (p := strftime_ymd (fst (fst row))).
  destruct (dict_get p D) as [inner|] eqn:E.
  - rewrite dict_get_set. destruct (String.eqb_spec s p) as [->|Hne].
    + now rewrite E.
    + reflexivity.
  - rewrite !dict_get_set, String.eqb_refl.
    destruct (String.eqb_spec s p) as [->|Hne].
    + now rewrite E.
    + reflexivity.
Qed.

Lemma breakdown_fold_get (s : string) (rows : list ((datetime * string) * Z))
      (D : dict (dict Z)) :
  dict_get s (fold_left breakdown_step rows D)
  = fold_left (bucket_step s) rows (dict_get s D).
Proof.
  revert D. induction rows as [|row rows IH]; intros D; simpl; [reflexivity|].
  now rewrite IH, breakdown_step_get.
Qed.

Lemma bucket_fold_some (s : string) (rows : list ((datetime * string) * Z))
      (o : option (dict Z)) :
  (exists d, fold_left (bucket_step s) rows o = Some d)
  <-> (exists d, o = Some d)
      \/ (exists row, In row rows /\ s = strftime_ymd (fst (fst row))).
Proof.
  revert o. induction rows as [|row rows IH]; intros o; simpl.
  - split; [auto|]. intros [Ho|(row & [] & _)]. exact Ho.
  - rewrite IH. unfold bucket_step at 1.
    destruct (String.eqb_spec s (strftime_ymd (fst (fst row)))) as [E|E].
    + split; [intros _; right; exists row; auto|]. intros _. left. eauto.
    + split.
      * intros [Ho|(row' & Hin & E')]; [auto|]. right. exists row'. auto.
      * intros [Ho|(row' & [<-|Hin] & E')]; [auto|contradiction|].
        right. exists row'. auto.
Qed.

(** When no activity repeats under a bucket key, the loop lists the rows of
    the bucket in the order of the query. *)
Lemma bucket_fold_fresh (s : string) (rows : list ((datetime * string) * Z))
      (o : option (dict Z)) :
  NoDup (dict_keys (or_default o []) ++ map fst (map activity_entry (rows_under s rows))) ->
  fold_left (bucket_step s) rows o
  = match rows_under s rows with
    | [] => o
    | _ => Some (or_default o [] ++ map activity_entry (rows_under s rows))
    end.
Proof.
  revert o. induction rows as [|row rows IH]; intros o Hnd; [reflexivity|].
  cbn [fold_left]. unfold rows_under in *. cbn [filter] in *.
  unfold bucket_step at 2.
  destruct (String.eqb s (strftime_ymd (fst (fst row)))) eqn:E.
  - cbn [map] in Hnd.
    assert (Hfresh : ~ In (snd (fst row)) (dict_keys (or_default o []))).
    { intros Hin. apply NoDup_remove_2 in Hnd. apply Hnd.
      apply in_or_app. now left. }
    rewrite IH; cbn [or_default]; rewrite (dict_set_fresh _ _ _ Hfresh).
    + destruct (filter _ rows); cbn [map].
      * reflexivity.
      * rewrite <- app_assoc. reflexivity.
    + unfold dict_keys in *. rewrite map_app, <- app_assoc. exact Hnd.
  - apply IH. exact Hnd.
Qed.

(* ===================================================================== *)
(** * Bucket starts and their keys                                        *)
(* ===================================================================== *)

Lemma days_in_month_bounds (y m : Z) : 28 <= days_in_month y m <= 31.
Proof.
  unfold days_in_month.
  destruct (m =? 2); [destruct (is_leap y); lia|].
  destruct ((m =? 4) || (m =? 6) || (m =? 9) || (m =? 11)); lia.
Qed.

Lemma prev_day_bucket_start (d : datetime) :
  bucket_start d -> bucket_start (prev_day d).
Proof.
  unfold bucket_start, prev_day. intros (Hm & Hd & Hh & Hmi & Hs & Hus).
  destruct (1 <? day d) eqn:E1; [|destruct (1 <? month d) eqn:E2]; simpl.
  - apply Z.ltb_lt in E1. repeat split; auto; lia.
  - apply Z.ltb_lt in E2.
    pose proof (days_in_month_bounds (year d) (month d - 1)).
    repeat split; auto; lia.
  - repeat split; auto; lia.
Qed.

Lemma iter_prev_day_bucket_start (n : nat) (d : datetime) :
  bucket_start d -> bucket_start (Nat.iter n prev_day d).
Proof.
  intros Hd. induction n as [|n IH]; simpl; [exact Hd|].
  now apply prev_day_bucket_start.
Qed.

Lemma valid_datetime_day (t : datetime) :
  valid_datetime t = true -> 1 <= month t <= 12 /\ 1 <= day t <= 31.
Proof.
  unfold valid_datetime. rewrite !andb_true_iff, !Z.leb_le.
  pose proof (days_in_month_bounds (year t) (month t)). lia.
Qed.

Lemma trunc_unit_of_cases (timeframe : string) :
  trunc_unit_of timeframe = "day" \/ trunc_unit_of timeframe = "week"
  \/ trunc_unit_of timeframe = "month".
Proof.
  unfold trunc_unit_of.
  destruct (String.eqb timeframe "daily"); [auto|].
  destruct (String.eqb timeframe "weekly"); [auto|].
  destruct (String.eqb timeframe "monthly"); auto.
Qed.

(** Truncation to a day, a week or a month yields a bucket start. *)
Lemma date_trunc_bucket_start (timeframe : string) (t : datetime) :
  valid_datetime t = true ->
  bucket_start (date_trunc (trunc_unit_of timeframe) t).
Proof.
  intros Hv. apply valid_datetime_day in Hv.
  assert (Hmid : bucket_start (midnight (year t) (month t) (day t)))
    by (unfold bucket_start; simpl; repeat split; lia).
  destruct (trunc_unit_of_cases timeframe) as [E|[E|E]]; rewrite E;
    unfold date_trunc; simpl.
  - exact Hmid.
  - now apply iter_prev_day_bucket_start.
  - unfold bucket_start; simpl; repeat split; lia.
Qed.

Lemma string_length_append (s1 s2 : string) :
  String.length (s1 ++ s2) = (String.length s1 + String.length s2)%nat.
Proof. induction s1 as [|c s1 IH]; simpl; [reflexivity|]. now rewrite IH. Qed.

(** Two texts that end in parts of the same length agree part by part. *)
Lemma string_app_inj (s1 s2 t1 t2 : string) :
  String.length t1 = String.length t2 ->
  (s1 ++ t1 = s2 ++ t2)%string -> s1 = s2 /\ t1 = t2.
Proof.
  revert s2. induction s1 as [|c s1 IH]; intros [|c2 s2] Hlen Heq; simpl in *.
  - auto.
  - exfalso. apply (f_equal String.length) in Heq. simpl in Heq.
    rewrite string_length_append in Heq. lia.
  - exfalso. apply (f_equal String.length) in Heq. simpl in Heq.
    rewrite string_length_append in Heq. lia.
  - injection Heq as -> Heq. destruct (IH s2 Hlen Heq) as [-> ->]. auto.
Qed.

Lemma fmt_year_inj (y1 y2 : Z) : fmt_year y1 = fmt_year y2 -> y1 = y2.
Proof.
  unfold fmt_year. intros E.
  apply (f_equal NilEmpty.int_of_string) in E. rewrite !NilEmpty.isi in E.
  injection E as E. apply (f_equal Z.of_int) in E.
  now rewrite !DecimalZ.of_to in E.
Qed.

Lemma digit_char_inj (a b : Z) :
  digit_char a = digit_char b -> a mod 10 = b mod 10.
Proof.
  unfold digit_char. intros E.
  apply (f_equal N_of_ascii) in E.
  pose proof (Z.mod_pos_bound a 10 ltac:(lia)).
  pose proof (Z.mod_pos_bound b 10 ltac:(lia)).
  rewrite !N_ascii_embedding in E by lia. lia.
Qed.

Lemma pad2_inj (a b : Z) :
  0 <= a < 100 -> 0 <= b < 100 -> pad2 a = pad2 b -> a = b.
Proof.
  unfold pad2. intros Ha Hb E. injection E as E1 E2.
  apply digit_char_inj in E1, E2.
  rewrite (Z.mod_small (a / 10)), (Z.mod_small (b / 10)) in E1
    by (split; [apply Z.div_pos; lia | apply Z.div_lt_upper_bound; lia]).
  rewrite (Z.div_mod a 10), (Z.div_mod b 10) by lia. lia.
Qed.

Lemma ymd_text_inj (y1 y2 m1 m2 d1 d2 : string) :
  String.length m1 = String.length m2 ->
  String.length d1 = String.length d2 ->
  (y1 ++ "-" ++ m1 ++ "-" ++ d1 = y2 ++ "-" ++ m2 ++ "-" ++ d2)%string ->
  y1 = y2 /\ m1 = m2 /\ d1 = d2.
Proof.
  intros Hm Hd E.
  apply string_app_inj in E.
  - destruct E as [Ey E]. injection E as E.
    apply string_app_inj in E.
    + destruct E as [Em E]. injection E as E. auto.
    + simpl. now rewrite Hd.
  - simpl. rewrite !string_length_append. simpl. now rewrite Hm, Hd.
Qed.

(** The key of a bucket determines its start. *)
Lemma strftime_ymd_inj (a b : datetime) :
  bucket_start a -> bucket_start b ->
  strftime_ymd a = strftime_ymd b -> a = b.
Proof.
  intros (Hma & Hda & Ha) (Hmb & Hdb & Hb). unfold strftime_ymd. intros E.
  apply ymd_text_inj in E; [|reflexivity|reflexivity].
  destruct E as (Ey & Em & Ed).
  apply fmt_year_inj in Ey.
  apply pad2_inj in Em; [|lia|lia]. apply pad2_inj in Ed; [|lia|lia].
  destruct a, b; simpl in *. intuition congruence.
Qed.

(* ===================================================================== *)
(** * The breakdown query against the usage query                         *)
(* ===================================================================== *)

Lemma filter_map_swap {A B} (f : A -> B) (p : B -> bool) (l : list A) :
  filter p (map f l) = map f (filter (fun a => p (f a)) l).
Proof.
  induction l as [|a l IH]; simpl; [reflexivity|].
  destruct (p (f a)); simpl; now rewrite IH.
Qed.

Lemma NoDup_filter {A} (p : A -> bool) (l : list A) :
  NoDup l -> NoDup (filter p l).
Proof.
  induction 1 as [|a l Hn Hnd IH]; simpl; [constructor|].
  destruct (p a); [constructor|]; auto.
  intros Hin. apply filter_In in Hin. tauto.
Qed.

Lemma NoDup_map_inj_in {A B} (f : A -> B) (l : list A) :
  (forall x y, In x l -> In y l -> f x = f y -> x = y) ->
  NoDup l -> NoDup (map f l).
Proof.
  intros Hinj. induction 1 as [|a l Hn Hnd IH]; simpl; [constructor|].
  constructor.
  - intros Hin. apply in_map_iff in Hin. destruct Hin as (b & Hb & Hin).
    assert (b = a) by (apply Hinj; simpl; auto). subst. contradiction.
  - apply IH. intros x y Hx Hy. apply Hinj; simpl; auto.
Qed.

Section TwoLevels.
Context {P A : Type} {OP : Ord P} {LP : @OrdLaws P OP}
        {OA : Ord A} {LA : @OrdLaws A OA}.
Variable kp : TokenUsage.t -> P.
Variable ka : TokenUsage.t -> A.
Variable rows : list TokenUsage.t.

Let kpa (r : TokenUsage.t) : P * A := (kp r, ka r).

Lemma keys_under_In (p : P) (k : P * A) :
  In k (keys_under kp ka rows p) <-> fst k = p /\ exists r, In r rows /\ kpa r = k.
Proof.
  unfold keys_under. fold kpa. rewrite filter_In, group_keys_In, in_map_iff, eqbk_eq.
  split.
  - intros [(r & E & Hr) Hp]. eauto.
  - intros [Hp (r & Hr & E)]. eauto.
Qed.

Lemma keys_under_NoDup (p : P) : NoDup (keys_under kp ka rows p).
Proof. apply NoDup_filter, sorted_NoDup, group_keys_sorted. Qed.

Lemma keys_under_NoDup_snd (p : P) : NoDup (map snd (keys_under kp ka rows p)).
Proof.
  apply NoDup_map_inj_in; [|apply keys_under_NoDup].
  intros [p1 a1] [p2 a2] Hk1 Hk2. simpl. intros ->.
  apply keys_under_In in Hk1, Hk2. simpl in *.
  destruct Hk1 as [-> _], Hk2 as [-> _]. reflexivity.
Qed.

Lemma keys_under_sorted_snd (p : P) :
  StronglySorted ltk (map snd (keys_under kp ka rows p)).
Proof.
  unfold keys_under. fold kpa.
  assert (Hs : StronglySorted ltk (group_keys (map kpa rows)))
    by apply group_keys_sorted.
  induction Hs as [|k l Hs IH Hall]; simpl; [constructor|].
  destruct (eqbk (fst k) p) eqn:E; [|exact IH].
  simpl. constructor; [exact IH|].
  apply Forall_forall. intros a Ha.
  apply in_map_iff in Ha. destruct Ha as (k' & <- & Hk').
  apply filter_In in Hk'. destruct Hk' as [Hk' E'].
  rewrite Forall_forall in Hall. specialize (Hall k' Hk').
  apply eqbk_eq in E, E'. unfold ltk in *. simpl in Hall.
  rewrite E, E', cmp_refl in Hall. exact Hall.
Qed.

Lemma keys_under_nonempty (p : P) :
  In p (map kp rows) -> keys_under kp ka rows p <> [].
Proof.
  intros Hin. apply in_map_iff in Hin. destruct Hin as (r & <- & Hr).
  assert (Hk : In (kpa r) (keys_under kp ka rows (kp r)))
    by (apply keys_under_In; eauto).
  intros E. rewrite E in Hk. exact Hk.
Qed.

(** The finer groups inside one coarser group add up to it. *)
Lemma keys_under_total (p : P) :
  zsum (map (fun k => tokens_of (group_rows kpa rows k)) (keys_under kp ka rows p))
  = tokens_of (group_rows kp rows p).
Proof.
  rewrite <- (partition_sum kpa (keys_under kp ka rows p) (group_rows kp rows p)).
  - f_equal. apply map_ext_in. intros k Hk. f_equal.
    apply keys_under_In in Hk. destruct Hk as [Hp _].
    unfold group_rows. clear - Hp LP LA.
    induction rows as [|r l IH]; simpl; [reflexivity|].
    destruct (eqbk (kpa r) k) eqn:E.
    + apply eqbk_eq in E. subst k. simpl in Hp. subst p.
      rewrite eqbk_refl. simpl. rewrite eqbk_refl. now rewrite IH.
    + destruct (eqbk (kp r) p); simpl; [rewrite E|]; exact IH.
  - apply keys_under_NoDup.
  - intros r Hr. unfold group_rows in Hr. apply filter_In in Hr.
    destruct Hr as [Hr E]. apply eqbk_eq in E.
    apply keys_under_In. split; [exact E|]. eauto.
Qed.
End TwoLevels.

(* ===================================================================== *)
(** * get_token_usage_aggregated                                          *)
(* ===================================================================== *)

Section ServiceFacts.
Variable table : list TokenUsage.t.
Variable user_id : string.
Variables start_date end_date : datetime.
Variable timeframe : string.

Let matching := matching_rows table user_id start_date end_date.
Let P := period_of (trunc_unit_of timeframe).
Let PA := fun r : TokenUsage.t => (P r, TokenUsage.activity r).

Let result :=
  get_token_usage_aggregated table user_id start_date end_date timeframe.

Lemma usage_data_eq :
  fst result
  = map (fun p => mk_entry (strftime_ymd p)
                           (tokens_of (group_rows P matching p)))
        (group_keys (map P matching)).
Proof.
  unfold result, get_token_usage_aggregated, usage_query, group_sum. simpl.
  rewrite map_map. reflexivity.
Qed.

Lemma breakdowns_eq :
  snd result
  = fold_left breakdown_step
      (map (fun k => (k, tokens_of (group_rows PA matching k)))
           (group_keys (map PA matching))) [].
Proof. reflexivity. Qed.

Hypothesis table_valid :
  forall r, In r table -> valid_datetime (TokenUsage.usage_time r) = true.

Lemma period_bucket_start (r : TokenUsage.t) :
  In r matching -> bucket_start (P r).
Proof.
  intros Hr. apply filter_In in Hr. destruct Hr as [Hr _].
  apply date_trunc_bucket_start. auto.
Qed.

Lemma group_key_bucket_start (p : datetime) :
  In p (group_keys (map P matching)) -> bucket_start p.
Proof.
  rewrite group_keys_In, in_map_iff. intros (r & <- & Hr).
  now apply period_bucket_start.
Qed.

Lemma rows_under_eq (p : datetime) :
  bucket_start p ->
  rows_under (strftime_ymd p)
    (map (fun k => (k, tokens_of (group_rows PA matching k)))
         (group_keys (map PA matching)))
  = map (fun k => (k, tokens_of (group_rows PA matching k)))
        (keys_under P TokenUsage.activity matching p).
Proof.
  intros Hp. unfold rows_under, keys_under. rewrite filter_map_swap.
  f_equal. apply filter_ext_in. intros k Hk. simpl.
  apply group_keys_In, in_map_iff in Hk. destruct Hk as (r & <- & Hr).
  simpl. apply period_bucket_start in Hr.
  destruct (String.eqb_spec (strftime_ymd p) (strftime_ymd (P r))) as [E|E].
  - apply strftime_ymd_inj in E; auto. subst p. symmetry. apply eqbk_refl.
  - symmetry. apply eqbk_neq. congruence.
Qed.

(** The entry of a bucket in [breakdowns]: its activities in ascending
    order, each with the sum of its rows. *)
Lemma breakdowns_get (p : datetime) :
  In p (group_keys (map P matching)) ->
  dict_get (strftime_ymd p) (snd result)
  = Some (map (fun k => (snd k, tokens_of (group_rows PA matching k)))
              (keys_under P TokenUsage.activity matching p)).
Proof.
  intros Hin. pose proof (group_key_bucket_start p Hin) as Hp.
  rewrite breakdowns_eq, breakdown_fold_get. simpl dict_get.
  rewrite bucket_fold_fresh; rewrite (rows_under_eq p Hp).
  - destruct (keys_under P TokenUsage.activity matching p) eqn:E.
    + exfalso. apply (proj1 (group_keys_In _ _)) in Hin.
      exact (keys_under_nonempty P TokenUsage.activity matching p Hin E).
    + simpl. rewrite map_map. reflexivity.
  - simpl. rewrite !map_map. simpl. apply keys_under_NoDup_snd.
Qed.

Lemma breakdowns_keys (s : string) :
  In s (dict_keys (snd result))
  <-> exists r, In r matching /\ strftime_ymd (P r) = s.
Proof.
  rewrite dict_keys_In_get, breakdowns_eq, breakdown_fold_get.
  rewrite bucket_fold_some. simpl dict_get. split.
  - intros [[d Hd]|(row & Hrow & ->)]; [discriminate|].
    apply in_map_iff in Hrow. destruct Hrow as (k & <- & Hk).
    apply (proj1 (group_keys_In _ _)), in_map_iff in Hk.
    destruct Hk as (r & <- & Hr). simpl. eauto.
  - intros (r & Hr & <-). right.
    exists (PA r, tokens_of (group_rows PA matching (PA r))).
    split; [|reflexivity].
    apply in_map_iff. exists (PA r). split; [reflexivity|].
    apply group_keys_In, in_map_iff. eauto.
Qed.
End ServiceFacts.

Lemma valid_table_In (table : list TokenUsage.t) :
  valid_table table = true ->
  forall r, In r table -> valid_datetime (TokenUsage.usage_time r) = true.
Proof. unfold valid_table. rewrite forallb_forall. auto. Qed.

Lemma usage_data_periods (table : list TokenUsage.t) (user_id : string)
      (start_date end_date : datetime) (timeframe : string) :
  map period (fst (get_token_usage_aggregated table user_id start_date
                                              end_date timeframe))
  = map strftime_ymd
        (group_keys (map (period_of (trunc_unit_of timeframe))
                         (matching_rows table user_id start_date end_date))).
Proof. rewrite usage_data_eq, map_map. reflexivity. Qed.

Lemma dict_keys_set {V} (k : string) (v : V) (d : dict V) :
  dict_keys (dict_set k v d)
  = if dict_contains k d then dict_keys d else dict_keys d ++ [k].
Proof.
  unfold dict_contains. induction d as [|[k0 v0] d IH]; simpl; [reflexivity|].
  destruct (String.eqb k k0); simpl; [reflexivity|].
  rewrite IH. destruct (dict_get k d); reflexivity.
Qed.

Lemma dict_contains_In {V} (k : string) (d : dict V) :
  dict_contains k d = true <-> In k (dict_keys d).
Proof.
  unfold dict_contains. rewrite dict_keys_In_get.
  destruct (dict_get k d) as [v|]; split; eauto; try discriminate.
  intros [v Hv]. discriminate.
Qed.

Lemma breakdown_step_keys (D : dict (dict Z)) (row : (datetime * string) * Z) :
  dict_keys (breakdown_step D row)
  = if dict_contains (strftime_ymd (fst (fst row))) D then dict_keys D
    else dict_keys D ++ [strftime_ymd (fst (fst row))].
Proof.
  unfold breakdown_step. cbv zeta.
  set (s := strftime_ymd (fst (fst row))).
  destruct (dict_contains s D) eqn:E.
  - now rewrite dict_keys_set, E.
  - rewrite dict_keys_set. unfold dict_contains at 1.
    rewrite dict_get_set, String.eqb_refl. now rewrite dict_keys_set, E.
Qed.

Lemma sorted_split {A} (R : A -> A -> Prop) (l1 l2 : list A) (x : A) :
  StronglySorted R (l1 ++ x :: l2) -> forall y, In y l1 -> R y x.
Proof.
  induction l1 as [|a l1 IH]; simpl; intros Hs y Hy; [destruct Hy|].
  inversion Hs as [|? ? Hs' Hall]; subst. destruct Hy as [<-|Hy].
  - rewrite Forall_forall in Hall. apply Hall. apply in_or_app. right. now left.
  - now apply IH.
Qed.

Lemma sorted_snoc {A} (R : A -> A -> Prop) (l : list A) (x : A) :
  StronglySorted R l -> (forall y, In y l -> R y x) ->
  StronglySorted R (l ++ [x]).
Proof.
  induction 1 as [|a l Hs IH Hall]; simpl; intros Hx.
  - repeat constructor.
  - constructor; [apply IH; auto|].
    rewrite Forall_forall in *. intros y Hy. apply in_app_or in Hy.
    destruct Hy as [Hy|[<-|[]]]; auto.
Qed.

(** The keys of [breakdowns] come in the order in which the rows of the
    breakdown query first show each period. *)
Lemma breakdown_keys_of_rows (l : list (datetime * string))
      (g : datetime * string -> Z) :
  (forall k, In k l -> bucket_start (fst k)) ->
  (forall l1 x l2, l = l1 ++ x :: l2 ->
                   forall y, In y l1 -> cmp (fst y) (fst x) <> Gt) ->
  dict_keys (fold_left breakdown_step (map (fun k => (k, g k)) l) [])
  = map strftime_ymd (group_keys (map fst l)).
Proof.
  induction l as [|x l IH] using rev_ind; intros Hb Hs; [reflexivity|].
  rewrite map_app, fold_left_app. cbn [map fold_left].
  rewrite breakdown_step_keys. cbn [fst].
  assert (IH' : dict_keys (fold_left breakdown_step
                                     (map (fun k => (k, g k)) l) [])
                = map strftime_ymd (group_keys (map fst l))).
  { apply IH.
    - intros k Hk. apply Hb. apply in_or_app. now left.
    - intros l1 y l2 E z Hz. apply (Hs l1 y (l2 ++ [x])); [|exact Hz].
      rewrite E, <- app_assoc. reflexivity. }
  assert (Hle : forall y, In y l -> cmp (fst y) (fst x) <> Gt)
    by (apply (Hs l x []); reflexivity).
  assert (Hin : dict_contains (strftime_ymd (fst x))
                  (fold_left breakdown_step (map (fun k => (k, g k)) l) [])
                = true <-> In (fst x) (map fst l)).
  { rewrite dict_contains_In, IH', in_map_iff. split.
    - intros (p & E & Hp). apply (proj1 (group_keys_In _ _)) in Hp.
      apply strftime_ymd_inj in E.
      + now subst.
      + apply in_map_iff in Hp. destruct Hp as (k & <- & Hk).
        apply Hb, in_or_app. now left.
      + apply Hb, in_or_app. right. now left.
    - intros Hp. exists (fst x). split; [reflexivity|]. now apply group_keys_In. }
  destruct (dict_contains _ _) eqn:E.
  - rewrite IH'. f_equal. apply group_keys_ext. intros p.
    rewrite map_app, in_app_iff. simpl. split; [auto|].
    intros [Hp|[<-|[]]]; [exact Hp|]. now apply Hin.
  - rewrite IH', <- (map_app strftime_ymd _ [fst x]). f_equal.
    apply sorted_ext.
    + apply sorted_snoc; [apply group_keys_sorted|].
      intros p Hp. apply (proj1 (group_keys_In _ _)) in Hp.
      apply in_map_iff in Hp as Hp'. destruct Hp' as (k & <- & Hk).
      specialize (Hle k Hk). unfold ltk.
      destruct (cmp (fst k) (fst x)) eqn:Ec; [|reflexivity|congruence].
      apply cmp_eq in Ec. rewrite Ec in Hp.
      apply Hin in Hp. congruence.
    + apply group_keys_sorted.
    + intros p. rewrite in_app_iff, !group_keys_In, map_app, in_app_iff.
      simpl. tauto.
Qed.

Lemma breakdowns_keys_order (table : list TokenUsage.t) (user_id : string)
      (start_date end_date : datetime) (timeframe : string) :
  valid_table table = true ->
  dict_keys (snd (get_token_usage_aggregated table user_id start_date
                                             end_date timeframe))
  = map period (fst (get_token_usage_aggregated table user_id start_date
                                                end_date timeframe)).
Proof.
  intros Hv. pose proof (valid_table_In table Hv) as Hvalid.
  rewrite usage_data_periods, breakdowns_eq.
  set (P := period_of (trunc_unit_of timeframe)).
  set (rows := matching_rows table user_id start_date end_date).
  set (PA := fun r : TokenUsage.t => (P r, TokenUsage.activity r)).
  rewrite (breakdown_keys_of_rows (group_keys (map PA rows))).
  - f_equal. apply group_keys_ext. intros p.
    rewrite !in_map_iff. split.
    + intros (k & <- & Hk). apply (proj1 (group_keys_In _ _)), in_map_iff in Hk.
      destruct Hk as (r & <- & Hr). exists r. split; [reflexivity|exact Hr].
    + intros (r & <- & Hr). exists (PA r). split; [reflexivity|].
      apply group_keys_In. now apply in_map.
  - intros k Hk. apply (proj1 (group_keys_In _ _)), in_map_iff in Hk.
    destruct Hk as (r & <- & Hr). simpl.
    apply (period_bucket_start table user_id start_date end_date timeframe
                               Hvalid r Hr).
  - intros l1 x l2 E y Hy.
    pose proof (group_keys_sorted (map PA rows)) as Hs. rewrite E in Hs.
    pose proof (sorted_split _ _ _ _ Hs y Hy) as Hlt.
    unfold ltk in Hlt. cbn [cmp Ord_pair] in Hlt.
    destruct (cmp (fst y) (fst x)); congruence.
Qed.

(** C2. The breakdown of every bucket of the series adds up to the total of
    the bucket, the series has one entry per bucket key, and the breakdowns
    and the series have the same bucket keys, in the same order. *)
Theorem breakdown_sums_match_series (table : list TokenUsage.t)
        (user_id : string) (start_date end_date : datetime)
        (timeframe : string) :
  valid_table table = true ->
  let result :=
    get_token_usage_aggregated table user_id start_date end_date timeframe in
  (forall entry, In entry (fst result) ->
     exists inner, dict_get (period entry) (snd result) = Some inner
                   /\ zsum (dict_values inner) = total_tokens entry)
  /\ (forall s, In s (dict_keys (snd result)) <-> In s (map period (fst result)))
  /\ NoDup (map period (fst result))
  /\ dict_keys (snd result) = map period (fst result).
Proof.
  intros Hv result. pose proof (valid_table_In table Hv) as Hvalid.
  set (P := period_of (trunc_unit_of timeframe)).
  set (rows := matching_rows table user_id start_date end_date).
  split; [|split; [split|split]]; [| | | |now apply breakdowns_keys_order].
  - intros entry Hin. unfold result in Hin. rewrite usage_data_eq in Hin.
    apply in_map_iff in Hin. destruct Hin as (p & <- & Hp).
    cbn [period total_tokens].
    unfold result. rewrite (breakdowns_get _ _ _ _ _ Hvalid p Hp).
    eexists. split; [reflexivity|].
    unfold dict_values. rewrite map_map. cbn [snd].
    apply (keys_under_total P TokenUsage.activity rows p).
  - unfold result. rewrite breakdowns_keys, usage_data_periods.
    intros (r & Hr & <-). apply in_map. apply group_keys_In. now apply in_map.
  - unfold result. rewrite breakdowns_keys, usage_data_periods.
    intros Hin. apply in_map_iff in Hin. destruct Hin as (p & <- & Hp).
    apply (proj1 (group_keys_In _ _)), in_map_iff in Hp.
    destruct Hp as (r & <- & Hr). eauto.
  - unfold result. rewrite usage_data_periods.
    apply NoDup_map_inj_in.
    + intros x y Hx Hy. apply strftime_ymd_inj;
        eapply group_key_bucket_start; eauto.
    + apply sorted_NoDup, group_keys_sorted.
Qed.

Lemma breakdown_sums_match_series_witness :
  valid_table sample_table = true
  /\ let result :=
       get_token_usage_aggregated sample_table "testuser" (midnight 2024 6 1)
                                  (midnight 2024 6 11) "weekly" in
     (forall entry, In entry (fst result) ->
        exists inner, dict_get (period entry) (snd result) = Some inner
                      /\ zsum (dict_values inner) = total_tokens entry)
     /\ (forall s, In s (dict_keys (snd result))
                   <-> In s (map period (fst result)))
     /\ NoDup (map period (fst result))
     /\ dict_keys (snd result) = map period (fst result).
Proof.
  split; [reflexivity|].
  apply (breakdown_sums_match_series sample_table "testuser"
           (midnight 2024 6 1) (midnight 2024 6 11) "weekly").
  reflexivity.
Defined.

(* ===================================================================== *)
(** * The result does not depend on the order of the rows                 *)
(* ===================================================================== *)

Lemma filter_perm {A} (p : A -> bool) (l l' : list A) :
  Permutation l l' -> Permutation (filter p l) (filter p l').
Proof.
  induction 1 as [|x l l' _ IH|x y l|l1 l2 l3 _ IH1 _ IH2]; simpl.
  - constructor.
  - destruct (p x); [constructor|]; exact IH.
  - destruct (p x), (p y); try apply Permutation_refl. apply perm_swap.
  - eapply Permutation_trans; eauto.
Qed.

Lemma group_sum_perm {K : Type} `{OrdLaws K} (key : TokenUsage.t -> K)
      (rows rows' : list TokenUsage.t) :
  Permutation rows rows' -> group_sum key rows = group_sum key rows'.
Proof.
  intros Hp. unfold group_sum.
  rewrite (group_keys_ext (map key rows) (map key rows')).
  - apply map_ext. intros k. f_equal. apply tokens_of_perm.
    unfold group_rows. now apply filter_perm.
  - intros x. split; apply Permutation_in; [|symmetry];
      now apply Permutation_map.
Qed.

Lemma aggregated_perm (table table' : list TokenUsage.t) (user_id : string)
      (start_date end_date : datetime) (timeframe : string) :
  Permutation table table' ->
  get_token_usage_aggregated table user_id start_date end_date timeframe
  = get_token_usage_aggregated table' user_id start_date end_date timeframe.
Proof.
  intros Hp. unfold get_token_usage_aggregated, usage_query, breakdown_query.
  pose proof (filter_perm (where_clause user_id start_date end_date) _ _ Hp)
    as Hf.
  rewrite (group_sum_perm (period_of (trunc_unit_of timeframe)) _ _ Hf).
  rewrite (group_sum_perm
             (fun r => (period_of (trunc_unit_of timeframe) r,
                        TokenUsage.activity r)) _ _ Hf).
  reflexivity.
Qed.

Lemma breakdowns_inner_sorted (table : list TokenUsage.t) (user_id : string)
      (start_date end_date : datetime) (timeframe : string) :
  valid_table table = true ->
  forall s inner,
    dict_get s (snd (get_token_usage_aggregated table user_id start_date
                                                end_date timeframe))
    = Some inner ->
    StronglySorted ltk (dict_keys inner).
Proof.
  intros Hv s inner Hg. pose proof (valid_table_In table Hv) as Hvalid.
  assert (Hin : In s (dict_keys (snd (get_token_usage_aggregated
                        table user_id start_date end_date timeframe))))
    by (apply dict_keys_In_get; eauto).
  apply breakdowns_keys in Hin. destruct Hin as (r & Hr & <-).
  set (P := period_of (trunc_unit_of timeframe)) in *.
  assert (Hp : In (P r) (group_keys (map P (matching_rows table user_id
                                              start_date end_date))))
    by (apply group_keys_In; now apply in_map).
  rewrite (breakdowns_get _ _ _ _ _ Hvalid (P r) Hp) in Hg.
  injection Hg as <-. unfold dict_keys. rewrite map_map. cbn [fst].
  apply keys_under_sorted_snd.
Qed.

(* ===================================================================== *)
(** * Bucket keys in the order of their buckets                           *)
(* ===================================================================== *)

Lemma fmt_year_pad4 (y : Z) : 1000 <= y <= 9999 -> fmt_year y = pad4 y.
Proof.
  intros Hy.
  assert (Hall : forallb (fun k => String.eqb (fmt_year (1000 + Z.of_nat k))
                                              (pad4 (1000 + Z.of_nat k)))
                         (seq 0 (Z.to_nat 9000)) = true)
    by (vm_compute; reflexivity).
  rewrite forallb_forall in Hall.
  specialize (Hall (Z.to_nat (y - 1000))).
  replace (1000 + Z.of_nat (Z.to_nat (y - 1000))) with y in Hall by lia.
  apply String.eqb_eq, Hall, in_seq. lia.
Qed.

Lemma ascii_compare_digit (a b : Z) :
  Ascii.compare (digit_char a) (digit_char b) = (a mod 10 ?= b mod 10).
Proof.
  unfold Ascii.compare, digit_char.
  pose proof (Z.mod_pos_bound a 10 ltac:(lia)).
  pose proof (Z.mod_pos_bound b 10 ltac:(lia)).
  rewrite !N_ascii_embedding by lia.
  rewrite Z2N.inj_compare by lia. apply Z.add_compare_mono_l.
Qed.

Lemma string_compare_app (p p' s s' : string) :
  String.length p = String.length p' ->
  String.compare (p ++ s) (p' ++ s')
  = match String.compare p p' with
    | Eq => String.compare s s'
    | c => c
    end.
Proof.
  revert p'. induction p as [|c p IH]; intros [|c' p']; simpl;
    try discriminate; [reflexivity|].
  intros [= Hlen]. destruct (Ascii.compare c c'); auto.
Qed.

Lemma pad2_compare (a b : Z) :
  0 <= a < 100 -> 0 <= b < 100 ->
  String.compare (pad2 a) (pad2 b) = (a ?= b).
Proof.
  intros Ha Hb. unfold pad2. cbn [String.compare].
  rewrite !ascii_compare_digit. symmetry.
  assert (Hd : forall n, 0 <= n < 100 ->
             n = 10 * ((n / 10) mod 10) + n mod 10
             /\ 0 <= (n / 10) mod 10 < 10 /\ 0 <= n mod 10 < 10).
  { intros n Hn. repeat split; try (apply Z.mod_pos_bound; lia).
    Z.div_mod_to_equations. lia. }
  destruct (Hd a Ha) as (Ea & ?), (Hd b Hb) as (Eb & ?).
  set (a1 := (a / 10) mod 10) in *. set (a0 := a mod 10) in *.
  set (b1 := (b / 10) mod 10) in *. set (b0 := b mod 10) in *.
  destruct (Z.compare_spec a1 b1);
    [|apply Z.compare_lt_iff; lia|apply Z.compare_gt_iff; lia].
  destruct (Z.compare_spec a0 b0);
    [apply Z.compare_eq_iff|apply Z.compare_lt_iff|apply Z.compare_gt_iff]; lia.
Qed.

Lemma pad4_compare (a b : Z) :
  0 <= a < 10000 -> 0 <= b < 10000 ->
  String.compare (pad4 a) (pad4 b) = (a ?= b).
Proof.
  intros Ha Hb. unfold pad4, pad2. cbn [String.compare].
  rewrite !ascii_compare_digit. symmetry.
  assert (Hd : forall n, 0 <= n < 10000 ->
             n = 1000 * ((n / 1000) mod 10) + 100 * ((n / 100) mod 10)
                 + 10 * ((n / 10) mod 10) + n mod 10
             /\ 0 <= (n / 1000) mod 10 < 10 /\ 0 <= (n / 100) mod 10 < 10
             /\ 0 <= (n / 10) mod 10 < 10 /\ 0 <= n mod 10 < 10).
  { intros n Hn. repeat split; try (apply Z.mod_pos_bound; lia).
    Z.div_mod_to_equations. lia. }
  destruct (Hd a Ha) as (Ea & ?), (Hd b Hb) as (Eb & ?).
  set (a3 := (a / 1000) mod 10) in *. set (a2 := (a / 100) mod 10) in *.
  set (a1 := (a / 10) mod 10) in *. set (a0 := a mod 10) in *.
  set (b3 := (b / 1000) mod 10) in *. set (b2 := (b / 100) mod 10) in *.
  set (b1 := (b / 10) mod 10) in *. set (b0 := b mod 10) in *.
  destruct (Z.compare_spec a3 b3);
    [|apply Z.compare_lt_iff; lia|apply Z.compare_gt_iff; lia].
  destruct (Z.compare_spec a2 b2);
    [|apply Z.compare_lt_iff; lia|apply Z.compare_gt_iff; lia].
  destruct (Z.compare_spec a1 b1);
    [|apply Z.compare_lt_iff; lia|apply Z.compare_gt_iff; lia].
  destruct (Z.compare_spec a0 b0);
    [apply Z.compare_eq_iff|apply Z.compare_lt_iff|apply Z.compare_gt_iff]; lia.
Qed.

Lemma iter_prev_day_year (n : nat) (d : datetime) :
  (n <= 6)%nat ->
  year (Nat.iter n prev_day d) = year d
  \/ (year (Nat.iter n prev_day d) = year d - 1
      /\ month (Nat.iter n prev_day d) = 12
      /\ 32 - Z.of_nat n <= day (Nat.iter n prev_day d)).
Proof.
  induction n as [|n IH]; intros Hn; [now left|].
  rewrite !Nat.iter_succ. specialize (IH ltac:(lia)).
  remember (Nat.iter n prev_day d) as x eqn:Ex. clear Ex.
  unfold prev_day. destruct IH as [E|(Ey & Em & Ed)].
  - destruct (1 <? day x); [|destruct (1 <? month x)];
      cbn [year month day]; auto.
    right. repeat split; lia.
  - destruct (Z.ltb_spec 1 (day x)); [|lia].
    cbn [year month day]. right. repeat split; lia.
Qed.

Lemma date_trunc_year (timeframe : string) (t : datetime) :
  year t - 1 <= year (date_trunc (trunc_unit_of timeframe) t) <= year t.
Proof.
  destruct (trunc_unit_of_cases timeframe) as [E|[E|E]]; rewrite E;
    unfold date_trunc; simpl; try lia.
  assert (Hw : (Z.to_nat (weekday t) <= 6)%nat).
  { unfold weekday.
    pose proof (Z.mod_pos_bound (toordinal t + 6) 7 ltac:(lia)). lia. }
  destruct (iter_prev_day_year _ (midnight (year t) (month t) (day t)) Hw)
    as [Ey|(Ey & _)]; rewrite Ey; simpl; lia.
Qed.

Lemma strftime_ymd_compare (a b : datetime) :
  bucket_start a -> bucket_start b ->
  1000 <= year a <= 9999 -> 1000 <= year b <= 9999 ->
  String.compare (strftime_ymd a) (strftime_ymd b) = cmp a b.
Proof.
  intros (Hma & Hda & Hha & Hmia & Hsa & Hua) (Hmb & Hdb & Hhb & Hmib & Hsb & Hub)
         Hya Hyb.
  unfold strftime_ymd. rewrite !fmt_year_pad4 by assumption.
  rewrite string_compare_app by reflexivity.
  rewrite pad4_compare by lia.
  change (String.compare ("-" ++ pad2 (month a) ++ "-" ++ pad2 (day a))
                         ("-" ++ pad2 (month b) ++ "-" ++ pad2 (day b)))
    with (String.compare (pad2 (month a) ++ "-" ++ pad2 (day a))
                         (pad2 (month b) ++ "-" ++ pad2 (day b))).
  rewrite string_compare_app by reflexivity.
  rewrite pad2_compare by lia.
  change (String.compare ("-" ++ pad2 (day a)) ("-" ++ pad2 (day b)))
    with (String.compare (pad2 (day a)) (pad2 (day b))).
  rewrite pad2_compare by lia.
  unfold cmp, Ord_datetime, dt_tuple. cbn [list_compare].
  rewrite Hha, Hhb, Hmia, Hmib, Hsa, Hsb, Hua, Hub.
  destruct (year a ?= year b), (month a ?= month b), (day a ?= day b);
    reflexivity.
Qed.

Lemma StronglySorted_map_in {A B} (R : A -> A -> Prop) (R' : B -> B -> Prop)
      (f : A -> B) (l : list A) :
  (forall x y, In x l -> In y l -> R x y -> R' (f x) (f y)) ->
  StronglySorted R l -> StronglySorted R' (map f l).
Proof.
  intros Hmono Hs. induction Hs as [|a l Hs IH Hall]; simpl; constructor.
  - apply IH. intros x y Hx Hy. apply Hmono; now right.
  - rewrite Forall_forall in *. intros b Hb.
    apply in_map_iff in Hb. destruct Hb as (y & <- & Hy).
    apply Hmono; [now left | now right | auto].
Qed.

(** With years of four digits the keys of the series ascend as texts. *)
Lemma usage_data_keys_sorted (table : list TokenUsage.t) (user_id : string)
      (start_date end_date : datetime) (timeframe : string) :
  valid_table table = true ->
  four_digit_years table = true ->
  StronglySorted ltk
    (map period (fst (get_token_usage_aggregated table user_id start_date
                                                 end_date timeframe))).
Proof.
  intros Hv Hy. rewrite usage_data_periods.
  assert (Hkey : forall p,
             In p (group_keys (map (period_of (trunc_unit_of timeframe))
                                   (matching_rows table user_id start_date
                                                  end_date))) ->
             bucket_start p /\ 1000 <= year p <= 9999).
  { intros p Hp. apply (proj1 (group_keys_In _ _)), in_map_iff in Hp.
    destruct Hp as (r & <- & Hr). apply filter_In in Hr. destruct Hr as [Hr _].
    pose proof (valid_table_In table Hv r Hr) as Hvr.
    unfold four_digit_years in Hy. rewrite forallb_forall in Hy.
    specialize (Hy r Hr). apply Z.leb_le in Hy.
    split; [now apply date_trunc_bucket_start|].
    pose proof (date_trunc_year timeframe (TokenUsage.usage_time r)).
    unfold valid_datetime in Hvr. rewrite !andb_true_iff, !Z.leb_le in Hvr.
    unfold period_of. lia. }
  apply (StronglySorted_map_in ltk); [|apply group_keys_sorted].
  intros x y Hx Hy' Hlt. unfold ltk. cbn [cmp Ord_string].
  destruct (Hkey x Hx), (Hkey y Hy').
  rewrite strftime_ymd_compare; auto.
Qed.

(** C9. The result is a function of the set of rows: listing the rows of the
    table in another order gives the same series and the same breakdowns,
    in the same order. The series is ascending in the start of the bucket,
    and so in the bucket key when the years have four digits; the
    activities of every bucket are ascending. *)
Theorem aggregation_deterministic (table table' : list TokenUsage.t)
        (user_id : string) (start_date end_date : datetime)
        (timeframe : string) :
  Permutation table table' ->
  valid_table table = true ->
  let result :=
    get_token_usage_aggregated table user_id start_date end_date timeframe in
  result
  = get_token_usage_aggregated table' user_id start_date end_date timeframe
  /\ (exists starts, StronglySorted ltk starts
                     /\ map period (fst result) = map strftime_ymd starts)
  /\ (four_digit_years table = true ->
      StronglySorted ltk (map period (fst result)))
  /\ (forall s inner, dict_get s (snd result) = Some inner ->
                      StronglySorted ltk (dict_keys inner)).
Proof.
  intros Hp Hv result. split; [|split; [|split]].
  - now apply aggregated_perm.
  - eexists. split; [|apply usage_data_periods]. apply group_keys_sorted.
  - intros Hy. now apply usage_data_keys_sorted.
  - now apply breakdowns_inner_sorted.
Qed.

Lemma aggregation_deterministic_witness :
  Permutation sample_table (rev sample_table)
  /\ valid_table sample_table = true
  /\ let result :=
       get_token_usage_aggregated sample_table "testuser" (midnight 2024 6 1)
                                  (midnight 2024 6 11) "daily" in
     result
     = get_token_usage_aggregated (rev sample_table) "testuser"
                                  (midnight 2024 6 1) (midnight 2024 6 11)
                                  "daily"
     /\ (exists starts, StronglySorted ltk starts
                        /\ map period (fst result) = map strftime_ymd starts)
     /\ (four_digit_years sample_table = true ->
         StronglySorted ltk (map period (fst result)))
     /\ (forall s inner, dict_get s (snd result) = Some inner ->
                         StronglySorted ltk (dict_keys inner)).
Proof.
  split; [apply Permutation_rev|]. split; [reflexivity|].
  apply (aggregation_deterministic sample_table (rev sample_table) "testuser"
           (midnight 2024 6 1) (midnight 2024 6 11) "daily").
  - apply Permutation_rev.
  - reflexivity.
Defined.

(* ===================================================================== *)
(** * The middleware                                                      *)
(* ===================================================================== *)

Lemma bearer_has_space (s : string) :
  startswith "Bearer " s = true -> exists token, split_space_snd s = Some token.
Proof.
  intros Hs.
  destruct s as [|c1 [|c2 [|c3 [|c4 [|c5 [|c6 [|c7 s]]]]]]];
    cbn [startswith] in Hs; rewrite ?andb_false_r in Hs; try discriminate Hs.
  repeat (apply andb_true_iff in Hs; destruct Hs as [?E Hs]).
  repeat match goal with
         | E : Ascii.eqb _ _ = true |- _ => apply Ascii.eqb_eq in E; subst
         end.
  cbn. eauto.
Qed.

Section MiddlewareFacts.
Variable environ : dict string.
Variable jwt_decode : string -> string -> list string -> option payload.
Variable call_next : request -> response * list event.

Let key := JWT_SECRET_KEY environ.
Let algorithm := JWT_ALGORITHM environ.

(** A request the middleware admits goes on with the admitted user attached. *)
Lemma dispatch_admitted (req : request) (user : User.t) :
  is_open_path (path req) = false ->
  verified_identity environ jwt_decode req = Some user ->
  exists token pl,
    bearer_token req = Some token
    /\ jwt_decode token key [algorithm] = Some pl
    /\ sub pl = Some (User.id user)
    /\ username_claim pl = Some (User.username user)
    /\ has_permitted_role (or_default (roles_claim pl) (JList []))
       = Some true
    /\ dispatch environ jwt_decode req call_next
       = (fst (call_next (with_user req user)),
          JwtDecode token key [algorithm]
            :: snd (call_next (with_user req user))).
Proof.
  unfold verified_identity, bearer_token, dispatch, with_user. intros Ho.
  rewrite Ho. fold key algorithm.
  destruct (authorization req) as [h|] eqn:Eh; [|discriminate].
  destruct (startswith "Bearer " h) eqn:Es; [|discriminate].
  destruct (split_space_snd h) as [token|] eqn:Et; [|discriminate].
  destruct (jwt_decode token key [algorithm]) as [pl|] eqn:Ed; [|discriminate].
  cbv zeta.
  destruct (sub pl) as [u|] eqn:Eu; [|discriminate].
  destruct (username_claim pl) as [n|] eqn:En; [|discriminate].
  destruct (String.eqb u "") eqn:Eu0; [discriminate|].
  destruct (json_falsy n) eqn:En0; [discriminate|].
  cbn [negb andb].
  destruct (has_permitted_role (or_default (roles_claim pl) (JList [])))
    as [[|]|] eqn:Er; try discriminate.
  intros [= <-]. exists token, pl. cbn [User.id User.username].
  repeat split; auto.
  assert (Hh : String.eqb h "" = false)
    by (destruct h; [discriminate Es | reflexivity]).
  rewrite Hh. cbn [negb orb falsy claim_falsy or_default].
  rewrite Eu0, En0. cbn [orb].
  destruct (call_next _) as [resp t]. reflexivity.
Qed.

Local Ltac refuse_with st :=
  intros _; exists st; do 2 eexists; split; [reflexivity|];
  split; [auto|]; split; [discriminate|reflexivity].

(** A request the middleware does not admit is answered by the middleware
    itself, with 401 or 403, or with 500 when the test of the roles raises,
    and never goes on. *)
Lemma dispatch_denied (req : request) :
  is_open_path (path req) = false ->
  verified_identity environ jwt_decode req = None ->
  exists status detail t,
    dispatch environ jwt_decode req call_next
    = (mk_response status (Detail detail), t)
    /\ (status = 401 \/ status = 403 \/ status = 500)
    /\ (status = 500 ->
        exists token pl,
          bearer_token req = Some token
          /\ jwt_decode token key [algorithm] = Some pl
          /\ has_permitted_role (or_default (roles_claim pl) (JList []))
             = None)
    /\ forallb (fun e => negb (is_aggregate e)) t = true.
Proof.
  unfold verified_identity, bearer_token, dispatch. intros Ho.
  rewrite Ho. fold key algorithm.
  destruct (authorization req) as [h|] eqn:Eh;
    [|refuse_with 401].
  destruct (String.eqb h "") eqn:Hh;
    [refuse_with 401|].
  destruct (startswith "Bearer " h) eqn:Es;
    [|refuse_with 401].
  destruct (bearer_has_space h Es) as [token Et]. rewrite Et.
  cbn [negb orb]. cbv zeta.
  destruct (jwt_decode token key [algorithm]) as [pl|] eqn:Ed;
    [|refuse_with 401].
  unfold falsy, claim_falsy.
  destruct (sub pl) as [u|] eqn:Eu;
    [|refuse_with 401].
  destruct (String.eqb u "") eqn:Eu0;
    [refuse_with 401|].
  destruct (username_claim pl) as [n|] eqn:En;
    [|refuse_with 401].
  destruct (json_falsy n) eqn:En0;
    [refuse_with 401|].
  cbn [negb andb orb].
  destruct (has_permitted_role (or_default (roles_claim pl) (JList [])))
    as [[|]|] eqn:Er; [discriminate| |]; intros _.
  - exists 403. do 2 eexists. split; [reflexivity|].
    split; [auto|]. split; [discriminate|reflexivity].
  - exists 500. do 2 eexists. split; [reflexivity|].
    split; [auto|]. split; [|reflexivity].
    intros _. exists token, pl. auto.
Qed.
End MiddlewareFacts.

(* ===================================================================== *)
(** * The routes                                                          *)
(* ===================================================================== *)

Lemma open_path_not_endpoint (p : string) :
  is_open_path p = true -> String.eqb p "/api/token-usage" = false.
Proof.
  intros Ho. destruct (String.eqb_spec p "/api/token-usage") as [->|]; auto.
Qed.

Section RouteFacts.
Variable table : list TokenUsage.t.

(** The endpoint, case by case. *)
Lemma endpoint_cases (req : request) :
  endpoint table req
  = match state_user req with
    | None => (HTTPException 401 "Not authenticated", [])
    | Some user =>
        match query_get "start_date" (query_params req),
              query_get "end_date" (query_params req) with
        | Some start_date, Some end_date =>
            match requested_timeframe req with
            | None => (HTTPException 422 "string does not match regex", [])
            | Some timeframe =>
                match strptime_ymd start_date, strptime_ymd end_date with
                | Some start_dt, Some end_dt =>
                    if lebk start_dt end_dt then
                      let r := get_token_usage_aggregated
                                 table (User.id user) start_dt end_dt
                                 timeframe in
                      (Return (Usage (fst r) (snd r)),
                       [Aggregate (User.id user) start_dt end_dt timeframe])
                    else
                      (HTTPException 422
                         "Start date must be before or equal to end date.",
                       [])
                | _, _ =>
                    (HTTPException 422 "Invalid date format. Use YYYY-MM-DD.",
                     [])
                end
            end
        | _, _ => (HTTPException 422 "field required", [])
        end
    end.
Proof.
  unfold endpoint, get_current_user, requested_timeframe.
  destruct (state_user req) as [user|]; [|reflexivity].
  cbn [bind ret app].
  destruct (query_get "start_date" (query_params req)) as [sd|];
    [|reflexivity].
  destruct (query_get "end_date" (query_params req)) as [ed|];
    [|reflexivity].
  assert (Hg : forall tf,
             get_token_usage table sd ed tf user
             = match strptime_ymd sd, strptime_ymd ed with
               | Some start_dt, Some end_dt =>
                   if lebk start_dt end_dt then
                     let r := get_token_usage_aggregated
                                table (User.id user) start_dt end_dt tf in
                     (Return (Usage (fst r) (snd r)),
                      [Aggregate (User.id user) start_dt end_dt tf])
                   else
                     (HTTPException 422
                        "Start date must be before or equal to end date.",
                      [])
               | _, _ =>
                   (HTTPException 422 "Invalid date format. Use YYYY-MM-DD.",
                    [])
               end).
  { intros tf. unfold get_token_usage.
    destruct (strptime_ymd sd) as [s|]; [|reflexivity].
    destruct (strptime_ymd ed) as [e|]; [|reflexivity].
    destruct (lebk s e); reflexivity. }
  destruct (query_get "timeframe" (query_params req)) as [tf|].
  - destruct (re_match timeframe_regex tf).
    + rewrite (Hg tf).
      destruct (strptime_ymd sd) as [s|]; [|reflexivity].
      destruct (strptime_ymd ed) as [e|]; [|reflexivity].
      destruct (lebk s e); reflexivity.
    + reflexivity.
  - rewrite (Hg "daily").
    destruct (strptime_ymd sd) as [s|]; [|reflexivity].
    destruct (strptime_ymd ed) as [e|]; [|reflexivity].
    destruct (lebk s e); reflexivity.
Qed.
End RouteFacts.

Section RouterFacts.
Variable table : list TokenUsage.t.

Lemma router_bound (req : request) (user : User.t)
      (start_dt end_dt : datetime) (timeframe : string) :
  state_user req = Some user ->
  bound_parameters req = Some (start_dt, end_dt, timeframe) ->
  router table req
  = (mk_response 200
       (Usage (fst (get_token_usage_aggregated table (User.id user)
                                               start_dt end_dt timeframe))
              (snd (get_token_usage_aggregated table (User.id user)
                                               start_dt end_dt timeframe))),
     [Aggregate (User.id user) start_dt end_dt timeframe]).
Proof.
  unfold bound_parameters, router, requested_date. intros Hu.
  destruct (String.eqb (path req) "/api/token-usage"); [|discriminate].
  rewrite endpoint_cases, Hu.
  destruct (query_get "start_date" (query_params req)) as [sd|];
    [|discriminate].
  destruct (strptime_ymd sd) as [s|]; [|discriminate].
  destruct (query_get "end_date" (query_params req)) as [ed|];
    [|discriminate].
  destruct (strptime_ymd ed) as [e|]; [|discriminate].
  destruct (requested_timeframe req) as [tf|]; [|discriminate].
  destruct (lebk s e); [|discriminate].
  intros [= <- <- <-]. reflexivity.
Qed.

Lemma router_unbound (req : request) :
  state_user req = None \/ bound_parameters req = None ->
  exists status b,
    router table req = (mk_response status b, []) /\ is_usage b = false.
Proof.
  unfold bound_parameters, router, requested_date, JSONResponse. intros Hc.
  destruct (String.eqb (path req) "/api/token-usage").
  - rewrite endpoint_cases.
    destruct (state_user req) as [user|];
      [|do 2 eexists; split; reflexivity].
    destruct Hc as [Hc|Hc]; [discriminate|].
    destruct (query_get "start_date" (query_params req)) as [sd|];
      [|do 2 eexists; split; reflexivity].
    destruct (query_get "end_date" (query_params req)) as [ed|];
      [|do 2 eexists; split; reflexivity].
    destruct (requested_timeframe req) as [tf|];
      [|do 2 eexists; split; reflexivity].
    destruct (strptime_ymd sd) as [s|];
      [|do 2 eexists; split; reflexivity].
    destruct (strptime_ymd ed) as [e|];
      [|do 2 eexists; split; reflexivity].
    destruct (lebk s e); [discriminate|].
    do 2 eexists; split; reflexivity.
  - destruct (String.eqb (path req) "/docs");
      [do 2 eexists; split; reflexivity|].
    destruct (String.eqb (path req) "/redoc");
      [do 2 eexists; split; reflexivity|].
    destruct (String.eqb (path req) "/openapi.json");
      do 2 eexists; split; reflexivity.
Qed.
End RouterFacts.

Lemma bound_parameters_path (req : request) (b : datetime * datetime * string) :
  bound_parameters req = Some b -> path req = "/api/token-usage".
Proof.
  unfold bound_parameters.
  destruct (String.eqb_spec (path req) "/api/token-usage"); [auto|discriminate].
Qed.

Lemma bound_parameters_with_user (req : request) (user : User.t) :
  bound_parameters (with_user req user) = bound_parameters req.
Proof. reflexivity. Qed.

Section AppFacts.
Variable environ : dict string.
Variable jwt_decode : string -> string -> list string -> option payload.
Variable table : list TokenUsage.t.

Let key := JWT_SECRET_KEY environ.
Let algorithm := JWT_ALGORITHM environ.

(** An admitted request with bound parameters is served: the token is
    decoded once, the service is called once, for the admitted user. *)
Lemma app_served (req : request) (user : User.t)
      (start_dt end_dt : datetime) (timeframe : string) :
  verified_identity environ jwt_decode req = Some user ->
  bound_parameters req = Some (start_dt, end_dt, timeframe) ->
  exists token pl,
    bearer_token req = Some token
    /\ jwt_decode token key [algorithm] = Some pl
    /\ sub pl = Some (User.id user)
    /\ app environ jwt_decode table req
       = (mk_response 200
            (Usage (fst (get_token_usage_aggregated
                           table (User.id user) start_dt end_dt timeframe))
                   (snd (get_token_usage_aggregated
                           table (User.id user) start_dt end_dt timeframe))),
          [JwtDecode token key [algorithm];
           Aggregate (User.id user) start_dt end_dt timeframe]).
Proof.
  intros Hv Hb.
  assert (Ho : is_open_path (path req) = false)
    by (rewrite (bound_parameters_path req _ Hb); reflexivity).
  destruct (dispatch_admitted environ jwt_decode (router table) req user Ho Hv)
    as (token & pl & Ht & Hd & Hs & _ & _ & Happ).
  exists token, pl. repeat split; auto.
  unfold app. rewrite Happ.
  rewrite (router_bound table (with_user req user) user start_dt end_dt
                        timeframe eq_refl Hb).
  reflexivity.
Qed.

(** Any other request is not served: the service is not called and the
    response carries no usage data. *)
Lemma app_not_served (req : request) :
  verified_identity environ jwt_decode req = None
  \/ bound_parameters req = None ->
  forallb (fun e => negb (is_aggregate e))
          (snd (app environ jwt_decode table req)) = true
  /\ is_usage (content (fst (app environ jwt_decode table req))) = false.
Proof.
  intros Hc. destruct (is_open_path (path req)) eqn:Ho.
  - assert (Hb : bound_parameters req = None).
    { unfold bound_parameters.
      now rewrite (open_path_not_endpoint _ Ho). }
    unfold app, dispatch. rewrite Ho.
    destruct (router_unbound table req (or_intror Hb))
      as (st & b & -> & Hu). auto.
  - destruct (verified_identity environ jwt_decode req) as [user|] eqn:Hv.
    + destruct Hc as [Hc|Hc]; [discriminate|].
      destruct (dispatch_admitted environ jwt_decode (router table) req user
                                  Ho Hv)
        as (token & pl & _ & _ & _ & _ & _ & Happ).
      unfold app. rewrite Happ.
      destruct (router_unbound table (with_user req user) (or_intror Hc))
        as (st & b & -> & Hu). auto.
    + destruct (dispatch_denied environ jwt_decode (router table) req Ho Hv)
        as (st & d & t & Happ & _ & _ & Ht).
      unfold app. rewrite Happ. auto.
Qed.
End AppFacts.

(* ===================================================================== *)
(** * What a response depends on                                          *)
(* ===================================================================== *)

Lemma endpoint_ext (table : list TokenUsage.t) (req req' : request) :
  state_user req' = state_user req ->
  query_get "start_date" (query_params req')
  = query_get "start_date" (query_params req) ->
  query_get "end_date" (query_params req')
  = query_get "end_date" (query_params req) ->
  requested_timeframe req' = requested_timeframe req ->
  endpoint table req' = endpoint table req.
Proof.
  intros Hu Hs He Ht. rewrite !endpoint_cases, Hu, Hs, He, Ht. reflexivity.
Qed.

Lemma router_ext (table : list TokenUsage.t) (req req' : request) :
  path req' = path req ->
  state_user req' = state_user req ->
  query_get "start_date" (query_params req')
  = query_get "start_date" (query_params req) ->
  query_get "end_date" (query_params req')
  = query_get "end_date" (query_params req) ->
  requested_timeframe req' = requested_timeframe req ->
  router table req' = router table req.
Proof.
  intros Hp Hu Hs He Ht. unfold router.
  rewrite Hp, (endpoint_ext table req req' Hu Hs He Ht). reflexivity.
Qed.

Lemma router_open_path (table : list TokenUsage.t) (req req' : request) :
  path req' = path req ->
  is_open_path (path req) = true ->
  router table req' = router table req.
Proof.
  intros Hp Ho. unfold router.
  rewrite Hp, (open_path_not_endpoint _ Ho). reflexivity.
Qed.

(** The response of the application is determined by the path, by the
    Authorization header, by the two date parameters and by the granularity
    asked for. *)
Lemma app_ext (environ : dict string)
      (jwt_decode : string -> string -> list string -> option payload)
      (table : list TokenUsage.t) (req req' : request) :
  path req' = path req ->
  authorization req' = authorization req ->
  query_get "start_date" (query_params req')
  = query_get "start_date" (query_params req) ->
  query_get "end_date" (query_params req')
  = query_get "end_date" (query_params req) ->
  requested_timeframe req' = requested_timeframe req ->
  app environ jwt_decode table req' = app environ jwt_decode table req.
Proof.
  intros Hp Ha Hs He Ht. unfold app, dispatch. rewrite Hp, Ha.
  destruct (is_open_path (path req)) eqn:Ho.
  - now apply router_open_path.
  - destruct (authorization req) as [h|]; [|reflexivity].
    destruct (String.eqb h "" || negb (startswith "Bearer " h)); [reflexivity|].
    destruct (split_space_snd h) as [token|]; [|reflexivity].
    destruct (jwt_decode token _ _) as [pl|]; [|reflexivity].
    cbv zeta.
    destruct (falsy (sub pl) || claim_falsy (username_claim pl));
      [reflexivity|].
    destruct (has_permitted_role (or_default (roles_claim pl) (JList [])))
      as [[|]|]; [|reflexivity|reflexivity].
    match goal with
    | |- (let (_, _) := router table ?a in _) = (let (_, _) := router table ?b in _) =>
        rewrite (router_ext table b a) by (simpl; auto)
    end.
    reflexivity.
Qed.

Lemma where_clause_user (user_id : string) (start_date end_date : datetime)
      (r : TokenUsage.t) :
  where_clause user_id start_date end_date r = true ->
  TokenUsage.user_id r = user_id.
Proof.
  unfold where_clause. rewrite !andb_true_iff. intros [[E _] _].
  now apply String.eqb_eq.
Qed.

Lemma matching_rows_own (table : list TokenUsage.t) (user_id : string)
      (start_date end_date : datetime) :
  matching_rows
    (filter (fun r => String.eqb (TokenUsage.user_id r) user_id) table)
    user_id start_date end_date
  = matching_rows table user_id start_date end_date.
Proof.
  unfold matching_rows. induction table as [|r table IH]; simpl; [reflexivity|].
  destruct (String.eqb (TokenUsage.user_id r) user_id) eqn:E; simpl.
  - now rewrite IH.
  - unfold where_clause at 2. rewrite E. simpl. exact IH.
Qed.

(** The rows of other users have no part in the result. *)
Lemma aggregated_own_rows (table : list TokenUsage.t) (user_id : string)
      (start_date end_date : datetime) (timeframe : string) :
  get_token_usage_aggregated table user_id start_date end_date timeframe
  = get_token_usage_aggregated
      (filter (fun r => String.eqb (TokenUsage.user_id r) user_id) table)
      user_id start_date end_date timeframe.
Proof.
  unfold get_token_usage_aggregated, usage_query, breakdown_query.
  fold (matching_rows table user_id start_date end_date).
  fold (matching_rows
          (filter (fun r => String.eqb (TokenUsage.user_id r) user_id) table)
          user_id start_date end_date).
  now rewrite matching_rows_own.
Qed.

(* ===================================================================== *)
(** * Tenant isolation                                                    *)
(* ===================================================================== *)

Lemma no_aggregate_In (t : list event) (u : string) (s e : datetime)
      (tf : string) :
  forallb (fun ev => negb (is_aggregate ev)) t = true ->
  ~ In (Aggregate u s e tf) t.
Proof.
  rewrite forallb_forall. intros Hall Hin. specialize (Hall _ Hin).
  discriminate.
Qed.

(** C1. Whatever the request, the service is only ever called for the
    subject of the decoded token, usage data in a response is the
    aggregation of the rows of that subject alone, and no query parameter
    other than the two dates and the timeframe has any effect on the
    response: a user identifier sent by the caller is not read. *)
Theorem scope_is_token_subject (environ : dict string)
        (jwt_decode : string -> string -> list string -> option payload)
        (table : list TokenUsage.t) (req : request) :
  (forall u s e tf,
      In (Aggregate u s e tf) (snd (app environ jwt_decode table req)) ->
      exists token pl,
        bearer_token req = Some token
        /\ jwt_decode token (JWT_SECRET_KEY environ) [JWT_ALGORITHM environ]
           = Some pl
        /\ sub pl = Some u)
  /\ (forall data brk,
         content (fst (app environ jwt_decode table req)) = Usage data brk ->
         exists token pl u s e tf,
           bearer_token req = Some token
           /\ jwt_decode token (JWT_SECRET_KEY environ) [JWT_ALGORITHM environ]
              = Some pl
           /\ sub pl = Some u
           /\ In (Aggregate u s e tf) (snd (app environ jwt_decode table req))
           /\ (data, brk)
              = get_token_usage_aggregated
                  (filter (fun r => String.eqb (TokenUsage.user_id r) u) table)
                  u s e tf)
  /\ (forall q',
         query_get "start_date" q' = query_get "start_date" (query_params req) ->
         query_get "end_date" q' = query_get "end_date" (query_params req) ->
         query_get "timeframe" q' = query_get "timeframe" (query_params req) ->
         app environ jwt_decode table (set_query req q')
         = app environ jwt_decode table req).
Proof.
  split; [|split].
  - intros u s e tf Hin.
    destruct (verified_identity environ jwt_decode req) as [user|] eqn:Hv;
      [destruct (bound_parameters req) as [[[s' e'] tf']|] eqn:Hb|].
    + destruct (app_served environ jwt_decode table req user s' e' tf' Hv Hb)
        as (token & pl & Ht & Hd & Hs & Happ).
      rewrite Happ in Hin. simpl in Hin.
      destruct Hin as [Hin|[Hin|[]]]; [discriminate|].
      injection Hin as <- _ _ _. eauto.
    + exfalso. eapply no_aggregate_In; [|exact Hin].
      apply app_not_served. now right.
    + exfalso. eapply no_aggregate_In; [|exact Hin].
      apply app_not_served. now left.
  - intros data brk Hc.
    destruct (verified_identity environ jwt_decode req) as [user|] eqn:Hv;
      [destruct (bound_parameters req) as [[[s' e'] tf']|] eqn:Hb|].
    + destruct (app_served environ jwt_decode table req user s' e' tf' Hv Hb)
        as (token & pl & Ht & Hd & Hs & Happ).
      exists token, pl, (User.id user), s', e', tf'.
      rewrite Happ in *. simpl in Hc. injection Hc as <- <-.
      repeat split; auto.
      * simpl. auto.
      * rewrite <- aggregated_own_rows. apply surjective_pairing.
    + exfalso.
      destruct (app_not_served environ jwt_decode table req (or_intror Hb))
        as [_ Hu].
      rewrite Hc in Hu. discriminate.
    + exfalso.
      destruct (app_not_served environ jwt_decode table req (or_introl Hv))
        as [_ Hu].
      rewrite Hc in Hu. discriminate.
  - intros q' Hs He Ht. apply app_ext; simpl; auto.
    unfold requested_timeframe. simpl. now rewrite Ht.
Qed.

Lemma scope_is_token_subject_witness :
  app [] sample_jwt_decode sample_table
      (set_query
         (sample_request (Some "Bearer user-token")
            [("start_date", "2024-06-08"); ("end_date", "2024-06-10")])
         [("user_id", "otheruser"); ("start_date", "2024-06-08");
          ("end_date", "2024-06-10"); ("user_id", "otheruser")])
  = app [] sample_jwt_decode sample_table
        (sample_request (Some "Bearer user-token")
           [("start_date", "2024-06-08"); ("end_date", "2024-06-10")]).
Proof.
  apply (proj2 (proj2 (scope_is_token_subject [] sample_jwt_decode sample_table
           (sample_request (Some "Bearer user-token")
              [("start_date", "2024-06-08"); ("end_date", "2024-06-10")]))));
    reflexivity.
Defined.

(* ===================================================================== *)
(** * The result is sparse                                                *)
(* ===================================================================== *)

Lemma dict_set_In {V} (k a : string) (x v : V) (d : dict V) :
  In (a, v) (dict_set k x d) -> (a = k /\ v = x) \/ In (a, v) d.
Proof.
  induction d as [|[k0 v0] d IH]; simpl.
  - intros [[= <- <-]|[]]. auto.
  - destruct (String.eqb_spec k k0) as [->|Hne]; simpl.
    + intros [[= <- <-]|Hin]; auto.
    + intros [Hin|Hin]; [auto|]. destruct (IH Hin); auto.
Qed.

(** Every activity the loop records under a bucket key comes from a row of
    the breakdown query under that key. *)
Lemma bucket_fold_entries (s : string)
      (rows : list ((datetime * string) * Z)) (o : option (dict Z))
      (d : dict Z) (a : string) (v : Z) :
  fold_left (bucket_step s) rows o = Some d ->
  In (a, v) d ->
  In (a, v) (or_default o [])
  \/ exists row, In row rows /\ s = strftime_ymd (fst (fst row))
                 /\ snd (fst row) = a /\ snd row = v.
Proof.
  revert o. induction rows as [|row rows IH]; intros o Hf Hin.
  - simpl in Hf. subst o. now left.
  - cbn [fold_left] in Hf. destruct (IH _ Hf Hin) as [Ho|(row' & Hr & E)].
    + unfold bucket_step in Ho.
      destruct (String.eqb_spec s (strftime_ymd (fst (fst row)))) as [E|E].
      * cbn [or_default] in Ho. apply dict_set_In in Ho.
        destruct Ho as [[-> ->]|Ho]; [|now left].
        right. exists row. simpl. auto.
      * now left.
    + right. exists row'. simpl. tauto.
Qed.

Lemma no_synthetic_entries (table : list TokenUsage.t) (user_id : string)
      (start_date end_date : datetime) (timeframe : string) :
  let result :=
    get_token_usage_aggregated table user_id start_date end_date timeframe in
  let rows := matching_rows table user_id start_date end_date in
  let P := period_of (trunc_unit_of timeframe) in
  (forall entry, In entry (fst result) ->
     exists r, In r rows /\ strftime_ymd (P r) = period entry)
  /\ (forall k inner a v,
         dict_get k (snd result) = Some inner -> In (a, v) inner ->
         exists r, In r rows /\ strftime_ymd (P r) = k
                   /\ TokenUsage.activity r = a)
  /\ (forall k, In k (dict_keys (snd result)) ->
         exists r, In r rows /\ strftime_ymd (P r) = k).
Proof.
  intros result rows P. split; [|split].
  - intros entry Hin. apply (in_map period) in Hin.
    unfold result in Hin. rewrite usage_data_periods in Hin.
    apply in_map_iff in Hin. destruct Hin as (p & <- & Hp).
    apply (proj1 (group_keys_In _ _)), in_map_iff in Hp.
    destruct Hp as (r & <- & Hr). eauto.
  - intros k inner a v Hg Hin. unfold result in Hg.
    rewrite breakdowns_eq, breakdown_fold_get in Hg. simpl dict_get in Hg.
    destruct (bucket_fold_entries _ _ _ _ _ _ Hg Hin)
      as [[]|(row & Hrow & -> & <- & _)].
    apply in_map_iff in Hrow. destruct Hrow as (key & <- & Hk).
    apply (proj1 (group_keys_In _ _)), in_map_iff in Hk.
    destruct Hk as (r & <- & Hr). simpl. eauto.
  - intros k Hk. now apply breakdowns_keys in Hk.
Qed.

Lemma aggregated_no_rows (table : list TokenUsage.t) (user_id : string)
      (start_date end_date : datetime) (timeframe : string) :
  matching_rows table user_id start_date end_date = [] ->
  get_token_usage_aggregated table user_id start_date end_date timeframe
  = ([], []).
Proof.
  unfold get_token_usage_aggregated, usage_query, breakdown_query.
  fold (matching_rows table user_id start_date end_date).
  intros ->. reflexivity.
Qed.

Lemma lebk_date_tuple (a b : datetime) :
  lebk a b = true ->
  list_compare Z.compare (date_tuple a) (date_tuple b) <> Gt.
Proof.
  unfold lebk, cmp, Ord_datetime, dt_tuple, date_tuple.
  cbn [list_compare].
  destruct (year a ?= year b); try discriminate;
    destruct (month a ?= month b); try discriminate;
    destruct (day a ?= day b); discriminate.
Qed.

(** The rows the queries read lie on the days of the range. *)
Lemma matching_rows_on_days (table : list TokenUsage.t) (user_id : string)
      (start_date end_date : datetime) (r : TokenUsage.t) :
  In r (matching_rows table user_id start_date end_date) ->
  In r table /\ TokenUsage.user_id r = user_id
  /\ on_days_between start_date end_date (TokenUsage.usage_time r) = true.
Proof.
  unfold matching_rows, where_clause.
  rewrite filter_In, !andb_true_iff, String.eqb_eq.
  intros (Hin & (Hu & Hs) & He). repeat split; auto.
  apply lebk_date_tuple in Hs, He. unfold on_days_between.
  destruct (list_compare Z.compare (date_tuple start_date) _); try congruence;
    destruct (list_compare Z.compare _ (date_tuple end_date));
    congruence.
Qed.

Lemma no_rows_on_days (table : list TokenUsage.t) (user_id : string)
      (start_date end_date : datetime) :
  (forall r, In r table -> TokenUsage.user_id r = user_id ->
             on_days_between start_date end_date (TokenUsage.usage_time r)
             = false) ->
  matching_rows table user_id start_date end_date = [].
Proof.
  intros Hnone.
  destruct (matching_rows table user_id start_date end_date) as [|r l] eqn:E;
    [reflexivity|].
  assert (Hr : In r (matching_rows table user_id start_date end_date))
    by (rewrite E; now left).
  apply matching_rows_on_days in Hr. destruct Hr as (Hin & Hu & Hd).
  rewrite (Hnone r Hin Hu) in Hd. discriminate.
Qed.

(** C6. A valid request such that the caller has no row on any day from the
    start date through the end date is answered 200 with an empty series
    and empty breakdowns; and in any response every entry of the series,
    every bucket of the breakdowns and every activity of a bucket comes from
    a row of the caller that the queries read: no entry is made up for a
    bucket without rows. *)
Theorem empty_range_empty_result (environ : dict string)
        (jwt_decode : string -> string -> list string -> option payload)
        (table : list TokenUsage.t) (req : request) :
  (forall user s e tf,
      verified_identity environ jwt_decode req = Some user ->
      bound_parameters req = Some (s, e, tf) ->
      (forall r, In r table -> TokenUsage.user_id r = User.id user ->
                 on_days_between s e (TokenUsage.usage_time r) = false) ->
      fst (app environ jwt_decode table req) = mk_response 200 (Usage [] []))
  /\ (forall data brk,
         content (fst (app environ jwt_decode table req)) = Usage data brk ->
         exists u s e tf,
           In (Aggregate u s e tf) (snd (app environ jwt_decode table req))
           /\ (forall entry, In entry data ->
                 exists r, In r (matching_rows table u s e)
                           /\ strftime_ymd (period_of (trunc_unit_of tf) r)
                              = period entry)
           /\ (forall k inner a v,
                 dict_get k brk = Some inner -> In (a, v) inner ->
                 exists r, In r (matching_rows table u s e)
                           /\ strftime_ymd (period_of (trunc_unit_of tf) r) = k
                           /\ TokenUsage.activity r = a)
           /\ (forall k, In k (dict_keys brk) ->
                 exists r, In r (matching_rows table u s e)
                           /\ strftime_ymd (period_of (trunc_unit_of tf) r) = k)).
Proof.
  split.
  - intros user s e tf Hv Hb Hnone.
    destruct (app_served environ jwt_decode table req user s e tf Hv Hb)
      as (token & pl & _ & _ & _ & ->).
    now rewrite (aggregated_no_rows _ _ _ _ tf (no_rows_on_days _ _ _ _ Hnone)).
  - intros data brk Hc.
    destruct (verified_identity environ jwt_decode req) as [user|] eqn:Hv;
      [destruct (bound_parameters req) as [[[s e] tf]|] eqn:Hb|].
    + destruct (app_served environ jwt_decode table req user s e tf Hv Hb)
        as (token & pl & _ & _ & _ & Happ).
      rewrite Happ in *. simpl in Hc. injection Hc as <- <-.
      exists (User.id user), s, e, tf. split; [simpl; auto|].
      apply no_synthetic_entries.
    + exfalso.
      destruct (app_not_served environ jwt_decode table req (or_intror Hb))
        as [_ Hu].
      rewrite Hc in Hu. discriminate.
    + exfalso.
      destruct (app_not_served environ jwt_decode table req (or_introl Hv))
        as [_ Hu].
      rewrite Hc in Hu. discriminate.
Qed.

Lemma empty_range_empty_result_witness :
  fst (app [] sample_jwt_decode sample_table
           (sample_request (Some "Bearer user-token")
              [("start_date", "2024-07-01"); ("end_date", "2024-07-31");
               ("timeframe", "weekly")]))
  = mk_response 200 (Usage [] []).
Proof.
  apply (proj1 (empty_range_empty_result [] sample_jwt_decode sample_table
                  (sample_request (Some "Bearer user-token")
                     [("start_date", "2024-07-01"); ("end_date", "2024-07-31");
                      ("timeframe", "weekly")]))
               (User.mk "testuser" (JStr "testuser") (JList [JStr "user"]))
               (midnight 2024 7 1) (midnight 2024 7 31) "weekly");
    try reflexivity.
  intros r Hr _. simpl in Hr.
  repeat (destruct Hr as [<-|Hr]; [reflexivity|]). destruct Hr.
Defined.

(* ===================================================================== *)
(** * Denied requests                                                     *)
(* ===================================================================== *)

Lemma credential_refused_iff (environ : dict string)
      (jwt_decode : string -> string -> list string -> option payload)
      (req : request) :
  credential_refused environ jwt_decode req
  <-> verified_identity environ jwt_decode req = None.
Proof.
  unfold credential_refused, verified_identity, falsy, claim_falsy.
  destruct (bearer_token req) as [token|]; [|tauto].
  destruct (jwt_decode token _ _) as [pl|]; [|tauto].
  cbv zeta.
  destruct (sub pl) as [u|]; [|tauto].
  destruct (username_claim pl) as [n|]; [|tauto].
  destruct (String.eqb u ""), (json_falsy n),
    (has_permitted_role (or_default (roles_claim pl) (JList [])))
    as [[|]|]; cbn [negb andb];
    intuition (discriminate || congruence).
Qed.

(** Reached without a user on the request, the endpoint answers 401 itself
    and does not call the service. *)
Lemma endpoint_requires_user (table : list TokenUsage.t) (req : request) :
  state_user req = None ->
  endpoint table req = (HTTPException 401 "Not authenticated", []).
Proof. intros Hu. now rewrite endpoint_cases, Hu. Qed.

(** What holds of every request whose credential the middleware refuses:
    it is answered without any call of the service and without usage data;
    unless its path is one of the documentation paths, which are served to
    everyone, the answer is 401 or 403, or 500 when the test of the roles
    raises, which it does for a roles claim that is null, a number or a
    truth value. *)
Lemma refused_never_served (environ : dict string)
      (jwt_decode : string -> string -> list string -> option payload)
      (table : list TokenUsage.t) (req : request) :
  credential_refused environ jwt_decode req ->
  forallb (fun e => negb (is_aggregate e))
          (snd (app environ jwt_decode table req)) = true
  /\ is_usage (content (fst (app environ jwt_decode table req))) = false
  /\ (is_open_path (path req) = false ->
      let status := status_code (fst (app environ jwt_decode table req)) in
      (status = 401 \/ status = 403 \/ status = 500)
      /\ (status = 500 ->
          exists token pl,
            bearer_token req = Some token
            /\ jwt_decode token (JWT_SECRET_KEY environ)
                          [JWT_ALGORITHM environ] = Some pl
            /\ has_permitted_role (or_default (roles_claim pl) (JList []))
               = None)).
Proof.
  intros Hr. apply credential_refused_iff in Hr.
  destruct (app_not_served environ jwt_decode table req (or_introl Hr))
    as [Ht Hu].
  repeat split; auto.
  - destruct (dispatch_denied environ jwt_decode (router table) req H Hr)
      as (st & d & t & Happ & Hst & _).
    unfold app. rewrite Happ. exact Hst.
  - destruct (dispatch_denied environ jwt_decode (router table) req H Hr)
      as (st & d & t & Happ & _ & H500 & _).
    unfold app. rewrite Happ. exact H500.
Qed.

(** The test of the roles on a list: a member that is the text. *)
Lemma py_in_list (role : string) (l : list json) :
  py_in role (JList l) = Some true <-> In (JStr role) l.
Proof.
  cbn [py_in]. split.
  - intros [= E]. apply existsb_exists in E. destruct E as (v & Hv & E).
    destruct v; try discriminate. apply String.eqb_eq in E. now subst.
  - intros Hin. f_equal. apply existsb_exists. exists (JStr role).
    split; [exact Hin|]. apply String.eqb_refl.
Qed.

Lemma has_permitted_role_false (l : list json) :
  ~ In (JStr "user") l -> ~ In (JStr "admin") l ->
  has_permitted_role (JList l) = Some false.
Proof.
  intros Hu Ha. unfold has_permitted_role.
  destruct (py_in "user" (JList l)) as [[|]|] eqn:E1.
  - apply py_in_list in E1. contradiction.
  - destruct (py_in "admin" (JList l)) as [[|]|] eqn:E2; try reflexivity.
    + apply py_in_list in E2. contradiction.
    + discriminate.
  - discriminate.
Qed.

(** Where the roles are a list the refusal is the one specified: a
    credential that decodes and names its subject, and whose roles are a
    list without the texts [user] and [admin], or are not there, is
    answered 403 by the middleware. *)
Lemma no_permitted_role_forbidden (environ : dict string)
      (jwt_decode : string -> string -> list string -> option payload)
      (table : list TokenUsage.t) (req : request) (token : string)
      (pl : payload) (l : list json) :
  is_open_path (path req) = false ->
  bearer_token req = Some token ->
  jwt_decode token (JWT_SECRET_KEY environ) [JWT_ALGORITHM environ] = Some pl ->
  falsy (sub pl) = false ->
  claim_falsy (username_claim pl) = false ->
  or_default (roles_claim pl) (JList []) = JList l ->
  ~ In (JStr "user") l ->
  ~ In (JStr "admin") l ->
  app environ jwt_decode table req
  = (mk_response 403 (Detail "Insufficient permissions."),
     [JwtDecode token (JWT_SECRET_KEY environ) [JWT_ALGORITHM environ]]).
Proof.
  unfold bearer_token, app, dispatch. intros Ho Hb Hd Hs Hn Hl Hu Ha.
  rewrite Ho.
  destruct (authorization req) as [h|]; [|discriminate].
  destruct (startswith "Bearer " h) eqn:Es; [|discriminate].
  assert (Hh : String.eqb h "" = false)
    by (destruct h; [discriminate Es | reflexivity]).
  rewrite Hh, Hb, Hd. cbv zeta.
  rewrite Hs, Hn, Hl, (has_permitted_role_false _ Hu Ha).
  reflexivity.
Qed.

(** C4, where the code departs from it. The token [superuser-token] is
    correctly signed and names its subject; its roles claim is the text
    "superuser", so it holds neither the role [user] nor the role [admin].
    The middleware tests ["user" in roles], which on a text is a search:
    the request is admitted, the service is called and the usage data of
    the subject are served. *)
Theorem text_roles_claim_is_served :
  sample_jwt_decode "superuser-token" "supersecretkey" ["HS256"]
  = Some (mk_payload (Some "testuser") (Some (JStr "testuser"))
                     (Some (JStr "superuser")))
  /\ JStr "superuser" <> JStr "user"
  /\ JStr "superuser" <> JStr "admin"
  /\ app [] sample_jwt_decode sample_table
         (sample_request (Some "Bearer superuser-token")
            [("start_date", "2024-06-08"); ("end_date", "2024-06-11")])
     = (mk_response 200
          (Usage [mk_entry "2024-06-08" 100; mk_entry "2024-06-09" 200;
                  mk_entry "2024-06-10" 150]
                 [("2024-06-08", [("chat", 100)]);
                  ("2024-06-09", [("api", 200)]);
                  ("2024-06-10", [("chat", 150)])]),
        [JwtDecode "superuser-token" "supersecretkey" ["HS256"];
         Aggregate "testuser" (midnight 2024 6 8) (midnight 2024 6 11)
                   "daily"]).
Proof.
  split; [reflexivity|]. split; [discriminate|]. split; [discriminate|].
  vm_compute. reflexivity.
Qed.

(** C7, where the code departs from it. The token [null-roles-token] is
    correctly signed and names its subject; its roles claim is null, so it
    holds no role at all. The test of the roles raises a TypeError, which
    the last handler of the middleware answers with 500, not with 403. A
    roles claim that is a text without the words is answered 403, one that
    is the text "superuser" is answered 200. *)
Theorem null_roles_claim_is_internal_error :
  sample_jwt_decode "null-roles-token" "supersecretkey" ["HS256"]
  = Some (mk_payload (Some "testuser") (Some (JStr "testuser")) (Some JNull))
  /\ app [] sample_jwt_decode sample_table
         (sample_request (Some "Bearer null-roles-token")
            [("start_date", "2024-06-08"); ("end_date", "2024-06-11")])
     = (mk_response 500 (Detail "Authentication system error."),
        [JwtDecode "null-roles-token" "supersecretkey" ["HS256"]])
  /\ has_permitted_role (JStr "guest") = Some false
  /\ has_permitted_role (JStr "superuser") = Some true
  /\ status_code
       (fst (app [] sample_jwt_decode sample_table
                 (sample_request (Some "Bearer superuser-token")
                    [("start_date", "2024-06-08");
                     ("end_date", "2024-06-11")]))) = 200.
Proof.
  split; [reflexivity|]. split; [vm_compute; reflexivity|].
  split; [reflexivity|]. split; [reflexivity|]. vm_compute. reflexivity.
Qed.

(** The credentials of the examples that the middleware does refuse. *)
Lemma refused_examples :
  app [] sample_jwt_decode sample_table
      (sample_request (Some "Bearer expired-token")
         [("start_date", "2024-06-08"); ("end_date", "2024-06-10")])
  = (mk_response 401 (Detail "Invalid or expired authentication token."),
     [JwtDecode "expired-token" "supersecretkey" ["HS256"]])
  /\ app [] sample_jwt_decode sample_table
         (sample_request (Some "Bearer guest-token")
            [("start_date", "2024-06-08"); ("end_date", "2024-06-10")])
     = (mk_response 403 (Detail "Insufficient permissions."),
        [JwtDecode "guest-token" "supersecretkey" ["HS256"]]).
Proof.
  split.
  - reflexivity.
  - apply (no_permitted_role_forbidden [] sample_jwt_decode sample_table
             (sample_request (Some "Bearer guest-token")
                [("start_date", "2024-06-08"); ("end_date", "2024-06-10")])
             "guest-token"
             (mk_payload (Some "testuser") (Some (JStr "testuser"))
                         (Some (JList [JStr "guest"])))
             [JStr "guest"]);
      try reflexivity.
    + cbn [In]. intros [H|[]]. discriminate H.
    + cbn [In]. intros [H|[]]. discriminate H.
Qed.

(* ===================================================================== *)
(** * The key the tokens are checked with                                 *)
(* ===================================================================== *)

Lemma router_trace (table : list TokenUsage.t) (req : request) (ev : event) :
  In ev (snd (router table req)) -> is_aggregate ev = true.
Proof.
  destruct (state_user req) as [user|] eqn:Hu.
  - destruct (bound_parameters req) as [[[s e] tf]|] eqn:Hb.
    + rewrite (router_bound table req user s e tf Hu Hb). simpl.
      intros [<-|[]]. reflexivity.
    + destruct (router_unbound table req (or_intror Hb)) as (st & b & -> & _).
      intros [].
  - destruct (router_unbound table req (or_introl Hu)) as (st & b & -> & _).
    intros [].
Qed.

Lemma app_decode_events (environ : dict string)
      (jwt_decode : string -> string -> list string -> option payload)
      (table : list TokenUsage.t) (req : request)
      (token key : string) (algorithms : list string) :
  In (JwtDecode token key algorithms) (snd (app environ jwt_decode table req)) ->
  bearer_token req = Some token
  /\ key = JWT_SECRET_KEY environ /\ algorithms = [JWT_ALGORITHM environ].
Proof.
  unfold app, dispatch, bearer_token.
  destruct (is_open_path (path req)).
  { intros Hin. apply router_trace in Hin. discriminate. }
  destruct (authorization req) as [h|]; [|simpl; intros []].
  destruct (String.eqb h ""); [simpl; intros []|].
  destruct (startswith "Bearer " h); [|simpl; intros []].
  cbn [orb negb].
  destruct (split_space_snd h) as [tok|]; [|simpl; intros []].
  assert (Hhead : forall t,
             In (JwtDecode token key algorithms)
                (JwtDecode tok (JWT_SECRET_KEY environ) [JWT_ALGORITHM environ]
                   :: t) ->
             (forall ev, In ev t -> is_aggregate ev = true) ->
             Some tok = Some token
             /\ key = JWT_SECRET_KEY environ
             /\ algorithms = [JWT_ALGORITHM environ]).
  { intros t [[= -> -> ->]|Hin] Hall; [auto|].
    apply Hall in Hin. discriminate. }
  destruct (jwt_decode tok _ _) as [pl|];
    [|intros Hin; apply (Hhead [] Hin); intros ev []].
  cbv zeta.
  destruct (falsy (sub pl) || claim_falsy (username_claim pl));
    [intros Hin; apply (Hhead [] Hin); intros ev []|].
  destruct (has_permitted_role (or_default (roles_claim pl) (JList [])))
    as [[|]|];
    [|intros Hin; apply (Hhead [] Hin); intros ev []
     |intros Hin; apply (Hhead [] Hin); intros ev []].
  match goal with
  | |- context [router table ?r] =>
      pose proof (router_trace table r) as Hall;
      destruct (router table r) as [resp t]
  end.
  simpl. intros Hin. apply (Hhead t Hin). exact Hall.
Qed.

(** C8 as the code has it. Every token is checked with the key and the
    algorithm named by the environment variables JWT_SECRET_KEY and
    JWT_ALGORITHM when they are set, and with the values "supersecretkey"
    and "HS256" written in the module when they are not. *)
Theorem secret_from_environment_or_default (environ : dict string)
        (jwt_decode : string -> string -> list string -> option payload)
        (table : list TokenUsage.t) (req : request)
        (token key : string) (algorithms : list string) :
  In (JwtDecode token key algorithms) (snd (app environ jwt_decode table req)) ->
  key = match dict_get "JWT_SECRET_KEY" environ with
        | Some configured => configured
        | None => "supersecretkey"
        end
  /\ algorithms = [match dict_get "JWT_ALGORITHM" environ with
                   | Some configured => configured
                   | None => "HS256"
                   end].
Proof.
  intros Hin. apply app_decode_events in Hin.
  destruct Hin as (_ & -> & ->). split; reflexivity.
Qed.

Lemma secret_from_environment_or_default_witness :
  In (JwtDecode "user-token" "supersecretkey" ["HS256"])
     (snd (app [("JWT_ALGORITHM", "HS256")] sample_jwt_decode sample_table
               (sample_request (Some "Bearer user-token") [])))
  /\ "supersecretkey"
     = match dict_get "JWT_SECRET_KEY" [("JWT_ALGORITHM", "HS256")] with
       | Some configured => configured
       | None => "supersecretkey"
       end.
Proof.
  split; [simpl; auto|].
  apply (secret_from_environment_or_default
           [("JWT_ALGORITHM", "HS256")] sample_jwt_decode sample_table
           (sample_request (Some "Bearer user-token") [])
           "user-token" "supersecretkey" ["HS256"]).
  simpl. auto.
Defined.

(** C8, refuted as stated: with neither variable set, the token of a request
    is checked with the key "supersecretkey" that is written in the module,
    and the request is served. *)
Lemma default_secret_in_use :
  dict_get "JWT_SECRET_KEY" ([] : dict string) = None
  /\ app [] sample_jwt_decode sample_table
         (sample_request (Some "Bearer user-token")
            [("start_date", "2024-06-08"); ("end_date", "2024-06-11")])
     = (mk_response 200
          (Usage [mk_entry "2024-06-08" 100; mk_entry "2024-06-09" 200;
                  mk_entry "2024-06-10" 150]
                 [("2024-06-08", [("chat", 100)]);
                  ("2024-06-09", [("api", 200)]);
                  ("2024-06-10", [("chat", 150)])]),
        [JwtDecode "user-token" "supersecretkey" ["HS256"];
         Aggregate "testuser" (midnight 2024 6 8) (midnight 2024 6 11) "daily"]).
Proof. split; reflexivity. Qed.

(* ===================================================================== *)
(** * The timeframe parameter                                             *)
(* ===================================================================== *)

Lemma strip_prefix_Some (p : string) (s s' : list ascii) :
  strip_prefix p s = Some s' -> s = list_ascii_of_string p ++ s'.
Proof.
  revert s. induction p as [|a p IH]; intros s; simpl.
  - intros [= ->]. reflexivity.
  - destruct s as [|b s]; [discriminate|].
    destruct (Ascii.eqb_spec a b) as [->|]; [|discriminate].
    intros Hs. now rewrite (IH _ Hs).
Qed.

Lemma list_ascii_of_string_app (p q : string) :
  list_ascii_of_string (p ++ q)
  = list_ascii_of_string p ++ list_ascii_of_string q.
Proof. induction p as [|a p IH]; simpl; [reflexivity|]. now rewrite IH. Qed.

Lemma list_ascii_of_string_inj (s1 s2 : string) :
  list_ascii_of_string s1 = list_ascii_of_string s2 -> s1 = s2.
Proof.
  intros E. apply (f_equal string_of_list_ascii) in E.
  now rewrite !string_of_list_ascii_of_string in E.
Qed.

(** A word followed by [$]: the text is the word, or the word and one
    newline. *)
Lemma word_then_eol (p tf : string) :
  match strip_prefix p (list_ascii_of_string tf) with
  | Some [] => true
  | Some [c] => Ascii.eqb c "010" && true
  | Some (_ :: _ :: _) => false
  | None => false
  end = true ->
  tf = p \/ tf = (p ++ String "010" EmptyString)%string.
Proof.
  destruct (strip_prefix p (list_ascii_of_string tf)) as [[|c [|c' r]]|] eqn:E;
    try discriminate; apply strip_prefix_Some in E.
  - intros _. left. apply list_ascii_of_string_inj.
    now rewrite E, app_nil_r.
  - rewrite andb_true_r. intros Hc. apply Ascii.eqb_eq in Hc. subst c.
    right. apply list_ascii_of_string_inj.
    now rewrite E, list_ascii_of_string_app.
Qed.

(** What the pattern of the endpoint accepts under [re.match]. *)
Lemma timeframe_regex_accepts (tf : string) :
  re_match timeframe_regex tf = true <->
  In tf ["daily"; "weekly"; "monthly";
         ("daily" ++ String "010" EmptyString)%string;
         ("weekly" ++ String "010" EmptyString)%string;
         ("monthly" ++ String "010" EmptyString)%string].
Proof.
  split.
  - unfold re_match, timeframe_regex. cbn [re_run andb].
    rewrite !orb_true_iff.
    intros [H|[H|H]]; apply word_then_eol in H; destruct H as [-> | ->];
      simpl; auto 10.
  - simpl. intros H.
    repeat (destruct H as [<-|H]; [reflexivity|]). destruct H.
Qed.

Lemma trunc_unit_of_unrecognised (tf : string) :
  tf <> "daily" -> tf <> "weekly" -> tf <> "monthly" ->
  trunc_unit_of tf = "day".
Proof.
  intros Hd Hw Hm. unfold trunc_unit_of.
  apply String.eqb_neq in Hd, Hw, Hm. now rewrite Hd, Hw, Hm.
Qed.

Lemma query_get_app_last (k k' v : string) (q : list (string * string)) :
  query_get k (q ++ [(k', v)])
  = if String.eqb k k' then Some v
    else query_get k q.
Proof.
  induction q as [|[k0 v0] q IH]; simpl.
  - destruct (String.eqb k k'); reflexivity.
  - rewrite IH. destruct (String.eqb k k'); [reflexivity|].
    destruct (query_get k q); reflexivity.
Qed.

(** C10. A request without the parameter [timeframe] is handled exactly as
    the same request with [timeframe=daily]; when its credential is admitted
    and its dates are in order, the answer is 200 with the aggregation by
    day. *)
Theorem timeframe_omitted_is_daily (environ : dict string)
        (jwt_decode : string -> string -> list string -> option payload)
        (table : list TokenUsage.t) (req : request) :
  query_get "timeframe" (query_params req) = None ->
  app environ jwt_decode table req
  = app environ jwt_decode table
        (set_query req (query_params req ++ [("timeframe", "daily")]))
  /\ (forall user s e,
         verified_identity environ jwt_decode req = Some user ->
         path req = "/api/token-usage" ->
         requested_date "start_date" req = Some s ->
         requested_date "end_date" req = Some e ->
         lebk s e = true ->
         fst (app environ jwt_decode table req)
         = mk_response 200
             (Usage (fst (get_token_usage_aggregated table (User.id user)
                                                     s e "daily"))
                    (snd (get_token_usage_aggregated table (User.id user)
                                                     s e "daily")))
         /\ In (Aggregate (User.id user) s e "daily")
               (snd (app environ jwt_decode table req))).
Proof.
  intros Hq. split.
  - symmetry. apply app_ext; simpl; auto.
    + now rewrite query_get_app_last.
    + now rewrite query_get_app_last.
    + unfold requested_timeframe. simpl.
      rewrite query_get_app_last, Hq. reflexivity.
  - intros user s e Hv Hp Hs He Hle.
    assert (Hb : bound_parameters req = Some (s, e, "daily")).
    { unfold bound_parameters, requested_timeframe.
      rewrite Hp, Hs, He, Hq, Hle. reflexivity. }
    destruct (app_served environ jwt_decode table req user s e "daily" Hv Hb)
      as (token & pl & _ & _ & _ & ->).
    split; [reflexivity|]. simpl. auto.
Qed.

Lemma timeframe_omitted_is_daily_witness :
  query_get "timeframe" [("start_date", "2024-06-08"); ("end_date", "2024-06-11")]
  = None
  /\ app [] sample_jwt_decode sample_table
         (sample_request (Some "Bearer user-token")
            [("start_date", "2024-06-08"); ("end_date", "2024-06-11")])
     = app [] sample_jwt_decode sample_table
           (sample_request (Some "Bearer user-token")
              [("start_date", "2024-06-08"); ("end_date", "2024-06-11");
               ("timeframe", "daily")]).
Proof.
  split; [reflexivity|].
  apply (proj1 (timeframe_omitted_is_daily [] sample_jwt_decode sample_table
                  (sample_request (Some "Bearer user-token")
                     [("start_date", "2024-06-08"); ("end_date", "2024-06-11")])
                  eq_refl)).
Defined.

Lemma aggregated_unrecognised (table : list TokenUsage.t) (user_id : string)
      (start_date end_date : datetime) (tf : string) :
  tf <> "daily" -> tf <> "weekly" -> tf <> "monthly" ->
  get_token_usage_aggregated table user_id start_date end_date tf
  = get_token_usage_aggregated table user_id start_date end_date "daily".
Proof.
  intros Hd Hw Hm. unfold get_token_usage_aggregated.
  now rewrite (trunc_unit_of_unrecognised tf Hd Hw Hm).
Qed.

(** C5 as the code has it. A request whose [timeframe] the pattern of the
    endpoint does not accept never reaches the service, and once its
    credential is admitted it is answered 422. The service itself rejects
    nothing: every timeframe other than the three words is aggregated by
    day. *)
Theorem unmatched_timeframe_rejected (environ : dict string)
        (jwt_decode : string -> string -> list string -> option payload)
        (table : list TokenUsage.t) (req : request) (tf : string) :
  query_get "timeframe" (query_params req) = Some tf ->
  re_match timeframe_regex tf = false ->
  forallb (fun e => negb (is_aggregate e))
          (snd (app environ jwt_decode table req)) = true
  /\ (forall user,
         verified_identity environ jwt_decode req = Some user ->
         path req = "/api/token-usage" ->
         status_code (fst (app environ jwt_decode table req)) = 422)
  /\ (forall tf' user_id start_date end_date,
         tf' <> "daily" -> tf' <> "weekly" -> tf' <> "monthly" ->
         get_token_usage_aggregated table user_id start_date end_date tf'
         = get_token_usage_aggregated table user_id start_date end_date
                                      "daily").
Proof.
  intros Hq Hm.
  assert (Ht : requested_timeframe req = None)
    by (unfold requested_timeframe; now rewrite Hq, Hm).
  assert (Hb : bound_parameters req = None).
  { unfold bound_parameters. rewrite Ht.
    destruct (String.eqb (path req) "/api/token-usage"); [|reflexivity].
    destruct (requested_date "start_date" req); [|reflexivity].
    destruct (requested_date "end_date" req); reflexivity. }
  split; [|split].
  - apply app_not_served. now right.
  - intros user Hv Hp.
    assert (Ho : is_open_path (path req) = false) by now rewrite Hp.
    destruct (dispatch_admitted environ jwt_decode (router table) req user Ho Hv)
      as (token & pl & _ & _ & _ & _ & _ & Happ).
    unfold app. rewrite Happ. cbn [fst].
    unfold router. cbn [path with_user]. rewrite Hp. cbn [String.eqb].
    change (String.eqb "/api/token-usage" "/api/token-usage") with true.
    cbv iota. rewrite endpoint_cases. cbn [state_user with_user query_params].
    change (requested_timeframe (with_user req user))
      with (requested_timeframe req).
    rewrite Ht.
    destruct (query_get "start_date" (query_params req)); [|reflexivity].
    destruct (query_get "end_date" (query_params req)); reflexivity.
  - intros tf' u s e. apply aggregated_unrecognised.
Qed.

Lemma unmatched_timeframe_rejected_witness :
  query_get "timeframe"
            [("start_date", "2024-06-08"); ("end_date", "2024-06-11");
             ("timeframe", "hourly")] = Some "hourly"
  /\ re_match timeframe_regex "hourly" = false
  /\ status_code
       (fst (app [] sample_jwt_decode sample_table
                 (sample_request (Some "Bearer user-token")
                    [("start_date", "2024-06-08"); ("end_date", "2024-06-11");
                     ("timeframe", "hourly")]))) = 422.
Proof.
  split; [reflexivity|]. split; [reflexivity|].
  apply (proj1 (proj2 (unmatched_timeframe_rejected
                         [] sample_jwt_decode sample_table
                         (sample_request (Some "Bearer user-token")
                            [("start_date", "2024-06-08");
                             ("end_date", "2024-06-11");
                             ("timeframe", "hourly")])
                         "hourly" eq_refl eq_refl))
               (User.mk "testuser" (JStr "testuser") (JList [JStr "user"])));
    reflexivity.
Defined.

(** C5, refuted as stated: handed the timeframe "hourly", which is none of
    the three words, the service raises no error; it takes the [else]
    branch and answers with the buckets of the aggregation by day. *)
Lemma service_defaults_unrecognised_timeframe :
  trunc_unit_of "hourly" = "day"
  /\ get_token_usage_aggregated sample_table "testuser" (midnight 2024 6 1)
                                (midnight 2024 6 30) "hourly"
     = ([mk_entry "2024-06-08" 100; mk_entry "2024-06-09" 200;
         mk_entry "2024-06-10" 150],
        [("2024-06-08", [("chat", 100)]); ("2024-06-09", [("api", 200)]);
         ("2024-06-10", [("chat", 150)])])
  /\ get_token_usage_aggregated sample_table "testuser" (midnight 2024 6 1)
                                (midnight 2024 6 30) "hourly"
     = get_token_usage_aggregated sample_table "testuser" (midnight 2024 6 1)
                                  (midnight 2024 6 30) "daily".
Proof. repeat split; reflexivity. Qed.

(** The pattern is applied with [re.match], whose [$] also holds before a
    newline that ends the text: the timeframe made of "daily" and a newline
    is accepted by the endpoint and aggregated by day by the service. *)
Lemma trailing_newline_is_served :
  app [] sample_jwt_decode sample_table
      (sample_request (Some "Bearer user-token")
         [("start_date", "2024-06-08"); ("end_date", "2024-06-11");
          ("timeframe", ("daily" ++ String "010" EmptyString)%string)])
  = (mk_response 200
       (Usage [mk_entry "2024-06-08" 100; mk_entry "2024-06-09" 200;
               mk_entry "2024-06-10" 150]
              [("2024-06-08", [("chat", 100)]);
               ("2024-06-09", [("api", 200)]);
               ("2024-06-10", [("chat", 150)])]),
     [JwtDecode "user-token" "supersecretkey" ["HS256"];
      Aggregate "testuser" (midnight 2024 6 8) (midnight 2024 6 11)
                ("daily" ++ String "010" EmptyString)%string]).
Proof. reflexivity. Qed.

(* ===================================================================== *)
(** * The range of dates                                                  *)
(* ===================================================================== *)

(** The rows that count are the rows of the user between the two instants
    the endpoint passes, bounds included. *)
Lemma matching_rows_In (table : list TokenUsage.t) (user_id : string)
      (start_date end_date : datetime) (r : TokenUsage.t) :
  In r (matching_rows table user_id start_date end_date)
  <-> In r table /\ TokenUsage.user_id r = user_id
      /\ lebk start_date (TokenUsage.usage_time r) = true
      /\ lebk (TokenUsage.usage_time r) end_date = true.
Proof.
  unfold matching_rows, where_clause.
  rewrite filter_In, !andb_true_iff, String.eqb_eq. tauto.
Qed.

(** A date parameter is read as the first instant of its day. *)
Lemma strptime_ymd_midnight (text : string) (t : datetime) :
  strptime_ymd text = Some t -> t = midnight (year t) (month t) (day t).
Proof.
  unfold strptime_ymd.
  destruct (parse_Y _) as [[y s1]|]; [|discriminate].
  destruct (expect _ s1) as [s2|]; [|discriminate].
  destruct (parse_m s2) as [[m s3]|]; [|discriminate].
  destruct (expect _ s3) as [s4|]; [|discriminate].
  destruct (parse_d s4) as [[d [|c s5]]|]; try discriminate.
  destruct ((1 <=? y) && (d <=? days_in_month y m)); [|discriminate].
  intros [= <-]. reflexivity.
Qed.

(** After the first instant of a day, an instant of that day is later than
    the day's midnight. *)
Lemma after_midnight_is_later (t : datetime) :
  0 <= hour t -> 0 <= minute t -> 0 <= second t -> 0 <= microsecond t ->
  t <> midnight (year t) (month t) (day t) ->
  lebk t (midnight (year t) (month t) (day t)) = false.
Proof.
  intros Hh Hm Hs Hu Hne. unfold lebk, cmp, Ord_datetime, dt_tuple, midnight.
  cbn [list_compare year month day hour minute second microsecond].
  rewrite !Z.compare_refl.
  destruct (hour t ?= 0) eqn:E1;
    [|rewrite Z.compare_lt_iff in E1; lia|reflexivity].
  destruct (minute t ?= 0) eqn:E2;
    [|rewrite Z.compare_lt_iff in E2; lia|reflexivity].
  destruct (second t ?= 0) eqn:E3;
    [|rewrite Z.compare_lt_iff in E3; lia|reflexivity].
  destruct (microsecond t ?= 0) eqn:E4;
    [|rewrite Z.compare_lt_iff in E4; lia|reflexivity].
  apply Z.compare_eq_iff in E1, E2, E3, E4.
  exfalso. apply Hne. destruct t; simpl in *. unfold midnight. congruence.
Qed.

Lemma cmp_datetime_split (a b : datetime) :
  cmp a b
  = match list_compare Z.compare (date_tuple a) (date_tuple b) with
    | Eq => list_compare Z.compare (time_tuple a) (time_tuple b)
    | c => c
    end.
Proof.
  unfold cmp, Ord_datetime, dt_tuple, date_tuple, time_tuple.
  cbn [list_compare].
  destruct (year a ?= year b), (month a ?= month b), (day a ?= day b);
    reflexivity.
Qed.

Lemma midnight_time_first (t : datetime) :
  0 <= hour t -> 0 <= minute t -> 0 <= second t -> 0 <= microsecond t ->
  list_compare Z.compare [0; 0; 0; 0] (time_tuple t) <> Gt.
Proof.
  intros Hh Hm Hs Hu. unfold time_tuple. cbn [list_compare].
  destruct (Z.compare_spec 0 (hour t)); try discriminate; try lia.
  destruct (Z.compare_spec 0 (minute t)); try discriminate; try lia.
  destruct (Z.compare_spec 0 (second t)); try discriminate; try lia.
  destruct (Z.compare_spec 0 (microsecond t)); try discriminate; lia.
Qed.

Lemma midnight_time_last (t : datetime) :
  0 <= hour t -> 0 <= minute t -> 0 <= second t -> 0 <= microsecond t ->
  list_compare Z.compare (time_tuple t) [0; 0; 0; 0] <> Gt
  <-> time_tuple t = [0; 0; 0; 0].
Proof.
  intros Hh Hm Hs Hu. unfold time_tuple. cbn [list_compare].
  destruct (Z.compare_spec (hour t) 0) as [->| |];
    [|lia|split; [congruence|intros [= E]; lia]].
  destruct (Z.compare_spec (minute t) 0) as [->| |];
    [|lia|split; [congruence|intros [= E]; lia]].
  destruct (Z.compare_spec (second t) 0) as [->| |];
    [|lia|split; [congruence|intros [= E]; lia]].
  destruct (Z.compare_spec (microsecond t) 0) as [->| |];
    [|lia|split; [congruence|intros [= E]; lia]].
  split; [reflexivity|discriminate].
Qed.

Lemma same_day_compare (a b : datetime) :
  same_day a b = true
  <-> list_compare Z.compare (date_tuple a) (date_tuple b) = Eq.
Proof.
  rewrite (list_compare_refl Z.compare Z.compare_eq_iff).
  unfold same_day, date_tuple. rewrite !andb_true_iff, !Z.eqb_eq.
  split; [intros [[-> ->] ->]; reflexivity | intros [= -> -> ->]; auto].
Qed.

(** The range the queries keep, in days: from the day of the start date
    through the day before the end date, and the first instant of the end
    date. *)
Lemma range_as_implemented (start_date end_date t : datetime) :
  time_tuple start_date = [0; 0; 0; 0] ->
  time_tuple end_date = [0; 0; 0; 0] ->
  valid_datetime t = true ->
  lebk start_date t && lebk t end_date = true
  <-> on_days_between start_date end_date t = true
      /\ (same_day t end_date = true -> time_tuple t = [0; 0; 0; 0]).
Proof.
  intros Hs He Hv. unfold valid_datetime in Hv.
  rewrite !andb_true_iff, !Z.leb_le in Hv.
  pose proof (midnight_time_first t ltac:(lia) ltac:(lia) ltac:(lia) ltac:(lia))
    as Hfirst.
  pose proof (midnight_time_last t ltac:(lia) ltac:(lia) ltac:(lia) ltac:(lia))
    as Hlast.
  rewrite same_day_compare. unfold on_days_between, lebk.
  rewrite !cmp_datetime_split, Hs, He.
  destruct (list_compare Z.compare (date_tuple start_date) (date_tuple t));
    destruct (list_compare Z.compare (date_tuple t) (date_tuple end_date));
    cbn [andb]; try (split; [discriminate | intros [? _]; discriminate]);
    try (split; [intros _; split; [reflexivity|discriminate] | reflexivity]).
  - destruct (list_compare Z.compare [0; 0; 0; 0] (time_tuple t));
      try congruence;
      destruct (list_compare Z.compare (time_tuple t) [0; 0; 0; 0]) eqn:E;
      cbn [andb]; intuition (try congruence; try discriminate).
  - destruct (list_compare Z.compare [0; 0; 0; 0] (time_tuple t));
      try congruence; cbn [andb];
      (split; [intros _; split; [reflexivity|discriminate] | reflexivity]).
  - destruct (list_compare Z.compare [0; 0; 0; 0] (time_tuple t));
      try congruence; cbn [andb];
      (split; [discriminate | intros [? _]; discriminate]).
  - destruct (list_compare Z.compare (time_tuple t) [0; 0; 0; 0]) eqn:E;
      cbn [andb]; intuition (try congruence; try discriminate).
Qed.

(** The rows a request counts: those of the user from the day of the start
    date through the day before the end date, and those stamped at the very
    first instant of the end date. *)
Lemma matching_rows_as_implemented (table : list TokenUsage.t)
      (user_id start_text end_text : string) (start_dt end_dt : datetime)
      (r : TokenUsage.t) :
  strptime_ymd start_text = Some start_dt ->
  strptime_ymd end_text = Some end_dt ->
  valid_datetime (TokenUsage.usage_time r) = true ->
  In r (matching_rows table user_id start_dt end_dt)
  <-> In r table /\ TokenUsage.user_id r = user_id
      /\ on_days_between start_dt end_dt (TokenUsage.usage_time r) = true
      /\ (same_day (TokenUsage.usage_time r) end_dt = true ->
          time_tuple (TokenUsage.usage_time r) = [0; 0; 0; 0]).
Proof.
  intros Hs He Hv.
  apply strptime_ymd_midnight in Hs, He.
  assert (Hs0 : time_tuple start_dt = [0; 0; 0; 0]) by (now rewrite Hs).
  assert (He0 : time_tuple end_dt = [0; 0; 0; 0]) by (now rewrite He).
  rewrite matching_rows_In.
  rewrite <- (range_as_implemented start_dt end_dt _ Hs0 He0 Hv).
  rewrite andb_true_iff. tauto.
Qed.

(** The end date of a request is read as midnight at the start of that day,
    so a row stamped later on the end date is outside the range the query
    keeps: it contributes to no bucket, whatever the table and the user. *)
Lemma rows_later_on_end_date_left_out (table : list TokenUsage.t)
      (user_id : string) (start_date : datetime) (end_text : string)
      (end_dt : datetime) (r : TokenUsage.t) :
  strptime_ymd end_text = Some end_dt ->
  valid_datetime (TokenUsage.usage_time r) = true ->
  same_day (TokenUsage.usage_time r) end_dt = true ->
  TokenUsage.usage_time r <> end_dt ->
  ~ In r (matching_rows table user_id start_date end_dt).
Proof.
  intros Hp Hv Hd Hne Hin.
  apply matching_rows_In in Hin. destruct Hin as (_ & _ & _ & Hle).
  apply strptime_ymd_midnight in Hp.
  unfold same_day in Hd. rewrite !andb_true_iff, !Z.eqb_eq in Hd.
  destruct Hd as [[Hy Hm] Hd]. rewrite <- Hy, <- Hm, <- Hd in Hp.
  rewrite Hp in Hle, Hne.
  unfold valid_datetime in Hv. rewrite !andb_true_iff, !Z.leb_le in Hv.
  rewrite after_midnight_is_later in Hle; [discriminate|lia|lia|lia|lia|auto].
Qed.

(** C3, where the code departs from it. On the sample table the caller has a
    row of 150 tokens at noon of 2024-06-10, a day of the range 2024-06-08
    to 2024-06-10; asked for that range, the endpoint answers with the
    buckets of the 8th and the 9th only: the row of the end date does not
    contribute. *)
Theorem end_date_noon_row_missing :
  In (TokenUsage.mk 3 "testuser" (mkdatetime 2024 6 10 12 0 0 0) 150 "chat")
     sample_table
  /\ on_days_between (midnight 2024 6 8) (midnight 2024 6 10)
                     (mkdatetime 2024 6 10 12 0 0 0) = true
  /\ app [] sample_jwt_decode sample_table
         (sample_request (Some "Bearer user-token")
            [("start_date", "2024-06-08"); ("end_date", "2024-06-10")])
     = (mk_response 200
          (Usage [mk_entry "2024-06-08" 100; mk_entry "2024-06-09" 200]
                 [("2024-06-08", [("chat", 100)]);
                  ("2024-06-09", [("api", 200)])]),
        [JwtDecode "user-token" "supersecretkey" ["HS256"];
         Aggregate "testuser" (midnight 2024 6 8) (midnight 2024 6 10)
                   "daily"]).
Proof. split; [simpl; auto|]. split; reflexivity. Qed.
(* ===================================================================== *)
(** * What the totals are                                                 *)
(* ===================================================================== *)

Lemma group_rows_bucket_rows (table : list TokenUsage.t) (user_id : string)
      (start_date end_date : datetime) (timeframe : string) (p : datetime) :
  valid_table table = true ->
  bucket_start p ->
  group_rows (period_of (trunc_unit_of timeframe))
             (matching_rows table user_id start_date end_date) p
  = bucket_rows table user_id start_date end_date timeframe (strftime_ymd p).
Proof.
  intros Hv Hp. unfold group_rows, bucket_rows. apply filter_ext_in.
  intros r Hr.
  assert (Hb : bucket_start (period_of (trunc_unit_of timeframe) r)).
  { apply date_trunc_bucket_start. apply (valid_table_In table Hv).
    apply filter_In in Hr. tauto. }
  destruct (String.eqb_spec
              (strftime_ymd (period_of (trunc_unit_of timeframe) r))
              (strftime_ymd p)) as [E|E].
  - apply strftime_ymd_inj in E; auto. now apply eqbk_eq.
  - apply eqbk_neq. congruence.
Qed.

(** X1. The total of a bucket is the sum of the tokens of the rows of the
    caller in the range whose period has the key of the bucket, and every
    such row has its bucket in the series. *)
Theorem series_totals_exact (table : list TokenUsage.t) (user_id : string)
        (start_date end_date : datetime) (timeframe : string) :
  valid_table table = true ->
  let result :=
    get_token_usage_aggregated table user_id start_date end_date timeframe in
  (forall entry, In entry (fst result) ->
     total_tokens entry
     = tokens_of (bucket_rows table user_id start_date end_date timeframe
                              (period entry)))
  /\ (forall r, In r (matching_rows table user_id start_date end_date) ->
        In (strftime_ymd (period_of (trunc_unit_of timeframe) r))
           (map period (fst result))).
Proof.
  intros Hv result. split.
  - intros entry Hin. unfold result in Hin. rewrite usage_data_eq in Hin.
    apply in_map_iff in Hin. destruct Hin as (p & <- & Hp).
    cbn [period total_tokens].
    rewrite group_rows_bucket_rows; auto.
    eapply group_key_bucket_start; eauto. now apply valid_table_In.
  - intros r Hr. unfold result. rewrite usage_data_periods.
    apply in_map. apply group_keys_In. now apply in_map.
Qed.

Lemma series_totals_exact_witness :
  valid_table sample_table = true
  /\ forall entry,
       In entry (fst (get_token_usage_aggregated
                        sample_table "testuser" (midnight 2024 6 1)
                        (midnight 2024 6 30) "monthly")) ->
       total_tokens entry
       = tokens_of (bucket_rows sample_table "testuser" (midnight 2024 6 1)
                                (midnight 2024 6 30) "monthly" (period entry)).
Proof.
  split; [reflexivity|].
  apply (series_totals_exact sample_table "testuser" (midnight 2024 6 1)
           (midnight 2024 6 30) "monthly").
  reflexivity.
Defined.

Lemma dict_get_of_In {V} (k : string) (v : V) (d : dict V) :
  NoDup (dict_keys d) -> In (k, v) d -> dict_get k d = Some v.
Proof.
  induction d as [|[k0 v0] d IH]; simpl; intros Hnd Hin; [destruct Hin|].
  inversion Hnd as [|? ? Hnotin Hnd']; subst.
  destruct (String.eqb_spec k k0) as [->|Hne].
  - destruct Hin as [[= ->]|Hin]; [reflexivity|].
    exfalso. apply Hnotin. unfold dict_keys. apply in_map_iff.
    now exists (k0, v).
  - destruct Hin as [[= -> ->]|Hin]; [congruence|]. auto.
Qed.

Lemma group_rows_bucket_activity_rows (table : list TokenUsage.t)
      (user_id : string) (start_date end_date : datetime)
      (timeframe : string) (p : datetime) (a : string) :
  valid_table table = true ->
  bucket_start p ->
  group_rows (fun r => (period_of (trunc_unit_of timeframe) r,
                        TokenUsage.activity r))
             (matching_rows table user_id start_date end_date) (p, a)
  = bucket_activity_rows table user_id start_date end_date timeframe
                         (strftime_ymd p) a.
Proof.
  intros Hv Hp. unfold bucket_activity_rows.
  rewrite <- (group_rows_bucket_rows _ _ _ _ _ p Hv Hp).
  unfold group_rows.
  induction (matching_rows table user_id start_date end_date) as [|r l IH];
    [reflexivity|].
  assert (E : eqbk (period_of (trunc_unit_of timeframe) r,
                    TokenUsage.activity r) (p, a)
              = eqbk (period_of (trunc_unit_of timeframe) r) p
                && String.eqb (TokenUsage.activity r) a).
  { unfold eqbk. cbn [cmp Ord_pair fst snd].
    destruct (cmp (period_of (trunc_unit_of timeframe) r) p);
      try reflexivity.
    cbn [andb]. fold (eqbk (TokenUsage.activity r) a).
    destruct (String.eqb_spec (TokenUsage.activity r) a) as [->|Hne].
    - apply eqbk_refl.
    - now apply eqbk_neq. }
  cbn [filter]. rewrite E.
  destruct (eqbk (period_of (trunc_unit_of timeframe) r) p);
    cbn [andb filter]; [|exact IH].
  destruct (String.eqb (TokenUsage.activity r) a); now rewrite IH.
Qed.

(** X2. The breakdown of a bucket has one item per activity seen in the
    bucket; its value is the sum of the tokens of the rows of that bucket
    and activity. No other item is there, and no breakdown is empty. *)
Theorem breakdown_values_exact (table : list TokenUsage.t) (user_id : string)
        (start_date end_date : datetime) (timeframe : string) :
  valid_table table = true ->
  let result :=
    get_token_usage_aggregated table user_id start_date end_date timeframe in
  (forall r, In r (matching_rows table user_id start_date end_date) ->
     exists inner,
       dict_get (strftime_ymd (period_of (trunc_unit_of timeframe) r))
                (snd result) = Some inner
       /\ dict_get (TokenUsage.activity r) inner
          = Some (tokens_of (bucket_activity_rows
                               table user_id start_date end_date timeframe
                               (strftime_ymd
                                  (period_of (trunc_unit_of timeframe) r))
                               (TokenUsage.activity r))))
  /\ (forall key inner a v,
        dict_get key (snd result) = Some inner ->
        dict_get a inner = Some v ->
        v = tokens_of (bucket_activity_rows table user_id start_date end_date
                                            timeframe key a)
        /\ bucket_activity_rows table user_id start_date end_date
                                timeframe key a <> []).
Proof.
  intros Hv result. pose proof (valid_table_In table Hv) as Hvalid.
  set (P := period_of (trunc_unit_of timeframe)).
  set (rows := matching_rows table user_id start_date end_date).
  set (PA := fun r : TokenUsage.t => (P r, TokenUsage.activity r)).
  assert (Hget : forall r, In r rows ->
            dict_get (strftime_ymd (P r)) (snd result)
            = Some (map (fun k => (snd k, tokens_of (group_rows PA rows k)))
                        (keys_under P TokenUsage.activity rows (P r)))).
  { intros r Hr. apply (breakdowns_get _ _ _ _ _ Hvalid).
    apply group_keys_In. now apply in_map. }
  assert (Hbs : forall r, In r rows -> bucket_start (P r)).
  { intros r Hr. apply (period_bucket_start _ _ _ _ _ Hvalid r Hr). }
  split.
  - intros r Hr. eexists. split; [apply (Hget r Hr)|].
    apply dict_get_of_In.
    + unfold dict_keys. rewrite map_map. cbn [fst].
      apply keys_under_NoDup_snd.
    + apply in_map_iff. exists (PA r). split.
      * cbn [PA snd]. f_equal. f_equal.
        change (PA r) with (P r, TokenUsage.activity r).
        apply (group_rows_bucket_activity_rows _ _ _ _ _ (P r) _ Hv (Hbs r Hr)).
      * apply keys_under_In. split; [reflexivity|]. now exists r.
  - intros key inner a v Hk Ha.
    assert (Hin : In key (dict_keys (snd result)))
      by (apply dict_keys_In_get; eauto).
    apply breakdowns_keys in Hin. destruct Hin as (r & Hr & <-).
    fold P rows in Hr, Hk |- *. rewrite (Hget r Hr) in Hk. injection Hk as <-.
    apply dict_get_Some_In, in_map_iff in Ha.
    destruct Ha as ([p a'] & [= <- <-] & Hk).
    apply keys_under_In in Hk. cbn [fst] in Hk.
    destruct Hk as (-> & r' & Hr' & E). injection E as Ep Ea.
    rewrite <- (group_rows_bucket_activity_rows _ _ _ _ _ (P r) a' Hv (Hbs r Hr)).
    split; [reflexivity|].
    intros Hnil.
    assert (Hin : In r' (group_rows PA rows (P r, a'))).
    { unfold group_rows. apply filter_In. split; [exact Hr'|].
      apply eqbk_eq. unfold PA. congruence. }
    fold P rows PA in Hnil. rewrite Hnil in Hin. exact Hin.
Qed.

Lemma breakdown_values_exact_witness :
  valid_table sample_table = true
  /\ forall key inner a v,
       dict_get key (snd (get_token_usage_aggregated
                            sample_table "testuser" (midnight 2024 6 1)
                            (midnight 2024 6 30) "weekly")) = Some inner ->
       dict_get a inner = Some v ->
       v = tokens_of (bucket_activity_rows
                        sample_table "testuser" (midnight 2024 6 1)
                        (midnight 2024 6 30) "weekly" key a)
       /\ bucket_activity_rows sample_table "testuser" (midnight 2024 6 1)
                               (midnight 2024 6 30) "weekly" key a <> [].
Proof.
  split; [reflexivity|].
  apply (breakdown_values_exact sample_table "testuser" (midnight 2024 6 1)
           (midnight 2024 6 30) "weekly").
  reflexivity.
Defined.

(** X3. Grouping loses nothing and counts nothing twice: the totals of the
    series add up to the tokens of the rows of the caller in the range. *)
Theorem series_conserves_tokens (table : list TokenUsage.t) (user_id : string)
        (start_date end_date : datetime) (timeframe : string) :
  zsum (map total_tokens
            (fst (get_token_usage_aggregated table user_id start_date
                                             end_date timeframe)))
  = tokens_of (matching_rows table user_id start_date end_date).
Proof.
  rewrite usage_data_eq, map_map. cbn [total_tokens].
  apply (partition_sum (period_of (trunc_unit_of timeframe))).
  - apply sorted_NoDup, group_keys_sorted.
  - intros r Hr. apply group_keys_In. now apply in_map.
Qed.

Lemma tokens_of_nonneg (rows : list TokenUsage.t) :
  (forall r, In r rows -> 0 <= TokenUsage.tokens_used r) ->
  0 <= tokens_of rows.
Proof.
  unfold tokens_of. induction rows as [|r rows IH]; intros Hall; simpl; [lia|].
  pose proof (Hall r (or_introl eq_refl)).
  assert (0 <= zsum (map TokenUsage.tokens_used rows))
    by (apply IH; intros; apply Hall; now right).
  lia.
Qed.

Lemma tokens_nonnegative_group {K} `{Ord K} (table : list TokenUsage.t)
      (user_id : string) (start_date end_date : datetime)
      (key : TokenUsage.t -> K) (k : K) :
  tokens_nonnegative table = true ->
  0 <= tokens_of (group_rows key (matching_rows table user_id start_date
                                                end_date) k).
Proof.
  intros Hn. apply tokens_of_nonneg. intros r Hr.
  unfold group_rows, matching_rows in Hr. rewrite !filter_In in Hr.
  unfold tokens_nonnegative in Hn. rewrite forallb_forall in Hn.
  apply Z.leb_le, Hn. tauto.
Qed.

(** X4. When no row counts a negative number of tokens, no total of the
    series and no value of a breakdown is negative. *)
Theorem totals_nonnegative (table : list TokenUsage.t) (user_id : string)
        (start_date end_date : datetime) (timeframe : string) :
  tokens_nonnegative table = true ->
  let result :=
    get_token_usage_aggregated table user_id start_date end_date timeframe in
  (forall entry, In entry (fst result) -> 0 <= total_tokens entry)
  /\ (forall key inner a v,
        dict_get key (snd result) = Some inner -> In (a, v) inner -> 0 <= v).
Proof.
  intros Hn result. split.
  - intros entry Hin. unfold result in Hin. rewrite usage_data_eq in Hin.
    apply in_map_iff in Hin. destruct Hin as (p & <- & _).
    cbn [total_tokens]. now apply tokens_nonnegative_group.
  - intros key inner a v Hg Hin. unfold result in Hg.
    rewrite breakdowns_eq, breakdown_fold_get in Hg. simpl dict_get in Hg.
    destruct (bucket_fold_entries _ _ _ _ _ _ Hg Hin)
      as [[]|(row & Hrow & _ & _ & <-)].
    apply in_map_iff in Hrow. destruct Hrow as (k & <- & _).
    cbn [snd]. now apply tokens_nonnegative_group.
Qed.

Lemma totals_nonnegative_witness :
  tokens_nonnegative sample_table = true
  /\ forall entry,
       In entry (fst (get_token_usage_aggregated
                        sample_table "testuser" (midnight 2024 6 1)
                        (midnight 2024 6 30) "daily")) ->
       0 <= total_tokens entry.
Proof.
  split; [reflexivity|].
  apply (totals_nonnegative sample_table "testuser" (midnight 2024 6 1)
           (midnight 2024 6 30) "daily").
  reflexivity.
Defined.

(* ===================================================================== *)
(** * Dates as text, there and back                                       *)
(* ===================================================================== *)

Lemma digit_val_digit_char (n : Z) : digit_val (digit_char n) = Some (n mod 10).
Proof.
  unfold digit_val, digit_char.
  pose proof (Z.mod_pos_bound n 10 ltac:(lia)).
  rewrite N_ascii_embedding by lia.
  cbv zeta. rewrite Z2N.id by lia.
  destruct (Z.leb_spec 48 (48 + n mod 10)); [|lia].
  destruct (Z.leb_spec (48 + n mod 10) 57); [|lia].
  cbn [andb]. f_equal. lia.
Qed.

Lemma in_range_digit_char (lo hi n : Z) :
  in_range lo hi (digit_char n) = (lo <=? n mod 10) && (n mod 10 <=? hi).
Proof. unfold in_range. now rewrite digit_val_digit_char. Qed.

Lemma dval_digit_char (n : Z) : dval (digit_char n) = n mod 10.
Proof. unfold dval. now rewrite digit_val_digit_char. Qed.

Lemma in_range_dval (lo hi : Z) (c : ascii) :
  in_range lo hi c = true -> lo <= dval c <= hi.
Proof.
  unfold in_range, dval. destruct (digit_val c); [|discriminate].
  rewrite andb_true_iff, !Z.leb_le. lia.
Qed.

Lemma decimal_value_bounds (cp v : Z) :
  decimal_value cp = Some v -> 0 <= v <= 9.
Proof.
  unfold decimal_value.
  destruct (find _ decimal_zeros) as [z|] eqn:E; [|discriminate].
  apply find_some in E. destruct E as [_ E].
  apply andb_true_iff in E. rewrite Z.leb_le, Z.ltb_lt in E.
  intros [= <-]. lia.
Qed.

Lemma read_digit_bounds (s rest : list ascii) (v : Z) :
  read_digit s = Some (v, rest) -> 0 <= v <= 9.
Proof.
  unfold read_digit. destruct (utf8_next s) as [[cp r]|]; [|discriminate].
  destruct (decimal_value cp) as [x|] eqn:E; [|discriminate].
  intros [= <- _]. now apply decimal_value_bounds in E.
Qed.

(** An ASCII digit is read as itself. *)
Lemma read_digit_digit_char (n : Z) (rest : list ascii) :
  read_digit (digit_char n :: rest) = Some (n mod 10, rest).
Proof.
  unfold read_digit, utf8_next, byte_of, digit_char.
  pose proof (Z.mod_pos_bound n 10 ltac:(lia)) as Hn.
  rewrite N_ascii_embedding by lia. rewrite Z2N.id by lia. cbv zeta.
  destruct (Z.ltb_spec (48 + n mod 10) 128); [|lia].
  unfold decimal_value, decimal_zeros. cbn [find].
  destruct (Z.leb_spec 48 (48 + n mod 10)); [|lia].
  destruct (Z.ltb_spec (48 + n mod 10) (48 + 10)); [|lia].
  cbn [andb]. do 2 f_equal. lia.
Qed.

Lemma parse_Y_pad4 (y : Z) (rest : list ascii) :
  0 <= y <= 9999 ->
  parse_Y (list_ascii_of_string (pad4 y) ++ rest) = Some (y, rest).
Proof.
  intros Hy. unfold pad4, pad2. cbn [list_ascii_of_string List.app].
  unfold parse_Y. rewrite !read_digit_digit_char.
  do 2 f_equal. clear -Hy.
  replace (y / 100) with (y / 10 / 10) by (rewrite Z.div_div by lia; reflexivity).
  replace (y / 1000) with (y / 10 / 10 / 10)
    by (rewrite !Z.div_div by lia; reflexivity).
  pose proof (Z.div_mod y 10 ltac:(lia)).
  pose proof (Z.div_mod (y / 10) 10 ltac:(lia)).
  pose proof (Z.div_mod (y / 10 / 10) 10 ltac:(lia)).
  assert (0 <= y / 10 / 10 / 10 < 10).
  { rewrite !Z.div_div by lia. cbn [Z.mul Pos.mul].
    split; [apply Z.div_pos; lia|apply Z.div_lt_upper_bound; lia]. }
  rewrite (Z.mod_small (y / 10 / 10 / 10) 10) by lia. lia.
Qed.

Lemma parse_m_pad2 (m : Z) (rest : list ascii) :
  1 <= m <= 12 ->
  parse_m (list_ascii_of_string (pad2 m) ++ rest) = Some (m, rest).
Proof.
  intros Hm.
  assert (Hc : In m [1; 2; 3; 4; 5; 6; 7; 8; 9; 10; 11; 12])
    by (cbn [In]; lia).
  cbn [In] in Hc.
  repeat (destruct Hc as [<-|Hc]; [reflexivity|]). destruct Hc.
Qed.

Lemma parse_d_pad2 (d : Z) :
  1 <= d <= 31 ->
  parse_d (list_ascii_of_string (pad2 d)) = Some (d, []).
Proof.
  intros Hd.
  assert (Hc : In (Z.to_nat d) (seq 1 31)) by (apply in_seq; lia).
  replace d with (Z.of_nat (Z.to_nat d)) by lia.
  revert Hc. generalize (Z.to_nat d). intros n Hc. cbn [seq In] in Hc.
  repeat (destruct Hc as [<-|Hc]; [vm_compute; reflexivity|]). destruct Hc.
Qed.

Lemma strftime_then_strptime (t : datetime) :
  valid_datetime t = true ->
  1000 <= year t ->
  strptime_ymd (strftime_ymd t)
  = Some (midnight (year t) (month t) (day t)).
Proof.
  intros Hv Hy. pose proof (valid_datetime_day t Hv) as [Hm Hd].
  unfold valid_datetime in Hv. rewrite !andb_true_iff, !Z.leb_le in Hv.
  unfold strftime_ymd. rewrite fmt_year_pad4 by lia.
  unfold strptime_ymd. rewrite list_ascii_of_string_app.
  rewrite parse_Y_pad4 by lia.
  change (list_ascii_of_string ("-" ++ pad2 (month t) ++ "-" ++ pad2 (day t)))
    with ("-"%char :: list_ascii_of_string
                        (pad2 (month t) ++ "-" ++ pad2 (day t))).
  cbn [expect Ascii.eqb Bool.eqb].
  rewrite list_ascii_of_string_app, parse_m_pad2 by lia.
  change (list_ascii_of_string ("-" ++ pad2 (day t)))
    with ("-"%char :: list_ascii_of_string (pad2 (day t))).
  cbn [expect Ascii.eqb Bool.eqb].
  rewrite parse_d_pad2 by lia.
  destruct (Z.leb_spec 1 (year t)); [|lia].
  destruct (Z.leb_spec (day t) (days_in_month (year t) (month t))); [|lia].
  reflexivity.
Qed.

(** X5. The text the client makes of a date is parsed back by the endpoint
    to midnight of the same day, for a date of a year of four digits. *)
Theorem strptime_strftime_round_trip (t : datetime) :
  valid_datetime t = true ->
  1000 <= year t ->
  strptime_ymd (strftime_ymd t)
  = Some (midnight (year t) (month t) (day t)).
Proof. exact (strftime_then_strptime t). Qed.

Lemma strptime_strftime_round_trip_witness :
  strptime_ymd (strftime_ymd (mkdatetime 2024 6 10 23 59 59 999999))
  = Some (midnight 2024 6 10).
Proof.
  apply (strptime_strftime_round_trip (mkdatetime 2024 6 10 23 59 59 999999));
    [reflexivity|cbn [year]; lia].
Defined.

Local Ltac parsed_value :=
  let E := fresh "E" in
  intros E;
  repeat match goal with
         | H : in_range _ _ _ = true |- _ => apply in_range_dval in H
         end;
  match type of E with
  | Some (?v, _) = Some (?m, _) =>
      assert (v = m) by congruence; clear E; subst m; lia
  end.

Lemma parse_Y_bounds (s rest : list ascii) (y : Z) :
  parse_Y s = Some (y, rest) -> 0 <= y <= 9999.
Proof.
  unfold parse_Y.
  destruct (read_digit s) as [[a s1]|] eqn:Ea; [|discriminate].
  destruct (read_digit s1) as [[b s2]|] eqn:Eb; [|discriminate].
  destruct (read_digit s2) as [[c s3]|] eqn:Ec; [|discriminate].
  destruct (read_digit s3) as [[d s4]|] eqn:Ed; [|discriminate].
  apply read_digit_bounds in Ea, Eb, Ec, Ed.
  intros E.
  assert (1000 * a + 100 * b + 10 * c + d = y) by congruence. lia.
Qed.

Lemma parse_m_bounds (s rest : list ascii) (m : Z) :
  parse_m s = Some (m, rest) -> 1 <= m <= 12.
Proof.
  unfold parse_m. destruct s as [|a [|b s]]; try discriminate.
  - destruct (in_range 1 9 a) eqn:Ea; [|discriminate].
    parsed_value.
  - destruct (Ascii.eqb a "1" && in_range 0 2 b) eqn:E1.
    { apply andb_true_iff in E1. destruct E1 as [_ Eb].
      parsed_value. }
    destruct (Ascii.eqb a "0" && in_range 1 9 b) eqn:E2.
    { apply andb_true_iff in E2. destruct E2 as [_ Eb].
      parsed_value. }
    destruct (in_range 1 9 a) eqn:Ea; [|discriminate].
    parsed_value.
Qed.

Lemma first_match_In {A} (alternatives : list (option A)) (a : A) :
  first_match alternatives = Some a -> In (Some a) alternatives.
Proof.
  induction alternatives as [|[x|] l IH]; cbn [first_match In].
  - discriminate.
  - intros [= ->]. now left.
  - intros E. right. now apply IH.
Qed.

Lemma parse_d_bounds (s rest : list ascii) (d : Z) :
  parse_d s = Some (d, rest) -> 1 <= d <= 31.
Proof.
  unfold parse_d. intros E. apply first_match_In in E. cbn [In] in E.
  destruct E as [E|[E|[E|[E|[E|[]]]]]]; revert E.
  - destruct s as [|a [|b s]]; try discriminate.
    destruct (Ascii.eqb a "3" && in_range 0 1 b) eqn:E1; [|discriminate].
    apply andb_true_iff in E1. destruct E1 as [_ Eb]. parsed_value.
  - destruct s as [|a s]; try discriminate.
    destruct (in_range 1 2 a) eqn:Ea; [|discriminate].
    destruct (read_digit s) as [[v r]|] eqn:Ev; [|discriminate].
    apply read_digit_bounds in Ev. apply in_range_dval in Ea.
    intros E. assert (10 * dval a + v = d) by congruence. lia.
  - destruct s as [|a [|b s]]; try discriminate.
    destruct (Ascii.eqb a "0" && in_range 1 9 b) eqn:E1; [|discriminate].
    apply andb_true_iff in E1. destruct E1 as [_ Eb]. parsed_value.
  - destruct s as [|a s]; try discriminate.
    destruct (in_range 1 9 a) eqn:Ea; [|discriminate]. parsed_value.
  - destruct s as [|a [|b s]]; try discriminate.
    destruct (Ascii.eqb a " " && in_range 1 9 b) eqn:E1; [|discriminate].
    apply andb_true_iff in E1. destruct E1 as [_ Eb]. parsed_value.
Qed.

(** Whatever text is parsed as a date, the result is a date of the
    calendar at midnight. *)
Lemma strptime_ymd_valid (text : string) (t : datetime) :
  strptime_ymd text = Some t ->
  valid_datetime t = true
  /\ hour t = 0 /\ minute t = 0 /\ second t = 0 /\ microsecond t = 0.
Proof.
  unfold strptime_ymd.
  destruct (parse_Y (list_ascii_of_string text)) as [[y s1]|] eqn:EY;
    [|discriminate].
  destruct (expect "-" s1) as [s2|]; [|discriminate].
  destruct (parse_m s2) as [[m s3]|] eqn:EM; [|discriminate].
  destruct (expect "-" s3) as [s4|]; [|discriminate].
  destruct (parse_d s4) as [[d [|c s5]]|] eqn:ED; try discriminate.
  destruct (Z.leb_spec 1 y); [|discriminate].
  destruct (Z.leb_spec d (days_in_month y m)); [|discriminate].
  cbn [andb]. intros [= <-].
  apply parse_Y_bounds in EY. apply parse_m_bounds in EM.
  apply parse_d_bounds in ED.
  unfold valid_datetime, midnight. cbn [year month day hour minute second
                                        microsecond].
  repeat split; try reflexivity.
  rewrite !andb_true_iff, !Z.leb_le. lia.
Qed.

(** A digit of another script is read where the format has [\d]: in the
    year and in the second place of a day from 10 to 29. The last text is
    "2024-06-1" and the fullwidth zero, U+FF10. *)
Lemma digits_of_other_scripts :
  strptime_ymd ("2024-06-1" ++ String "239" (String "188" (String "144" "")))
  = Some (midnight 2024 6 10)
  /\ strptime_ymd ("2024-06-3" ++ String "239" (String "188" (String "144" "")))
     = None
  /\ strptime_ymd ("2024-0" ++ String "239" (String "188" (String "150" ""))
                   ++ "-10")
     = None.
Proof. repeat split; vm_compute; reflexivity. Qed.

(* ===================================================================== *)
(** * Coarser buckets are sums of finer ones                              *)
(* ===================================================================== *)

Section Coarsening.
Context {F C : Type} {OF : Ord F} {LF : @OrdLaws F OF}
        {OC : Ord C} {LC : @OrdLaws C OC}.
Variable kf : TokenUsage.t -> F.
Variable kc : TokenUsage.t -> C.
Variable g : F -> C.
Variable rows : list TokenUsage.t.
Hypothesis coarsens : forall r, In r rows -> kc r = g (kf r).

Lemma group_rows_refine (c : C) (f : F) :
  g f = c ->
  group_rows kf (group_rows kc rows c) f = group_rows kf rows f.
Proof.
  intros Hg. unfold group_rows. revert coarsens.
  induction rows as [|r l IH]; intros Hc; [reflexivity|].
  assert (IH' := IH (fun r' Hr' => Hc r' (or_intror Hr'))).
  cbn [filter]. destruct (eqbk (kf r) f) eqn:E.
  - apply eqbk_eq in E.
    assert (Ec : eqbk (kc r) c = true).
    { apply eqbk_eq. rewrite (Hc r (or_introl eq_refl)). congruence. }
    rewrite Ec. cbn [filter]. apply eqbk_eq in E. rewrite E. now rewrite IH'.
  - destruct (eqbk (kc r) c); cbn [filter]; [rewrite E|]; exact IH'.
Qed.

(** The sum of a coarse group is the sum of the fine groups it holds. *)
Lemma coarse_group_total (c : C) :
  tokens_of (group_rows kc rows c)
  = zsum (map (fun f => tokens_of (group_rows kf rows f))
              (filter (fun f => eqbk (g f) c) (group_keys (map kf rows)))).
Proof.
  rewrite <- (partition_sum kf
                (filter (fun f => eqbk (g f) c) (group_keys (map kf rows)))
                (group_rows kc rows c)).
  - f_equal. apply map_ext_in. intros f Hf. f_equal.
    apply filter_In in Hf. destruct Hf as [_ Hf]. apply eqbk_eq in Hf.
    now apply group_rows_refine.
  - apply NoDup_filter, sorted_NoDup, group_keys_sorted.
  - intros r Hr. unfold group_rows in Hr. apply filter_In in Hr.
    destruct Hr as [Hr E]. apply eqbk_eq in E.
    apply filter_In. split.
    + apply group_keys_In. now apply in_map.
    + apply eqbk_eq. now rewrite <- coarsens.
Qed.
End Coarsening.

Lemma date_trunc_of_day (timeframe : string) (t : datetime) :
  date_trunc (trunc_unit_of timeframe) (date_trunc "day" t)
  = date_trunc (trunc_unit_of timeframe) t.
Proof.
  destruct (trunc_unit_of_cases timeframe) as [E|[E|E]]; rewrite E;
    reflexivity.
Qed.

Lemma valid_datetime_midnight (t : datetime) :
  valid_datetime t = true ->
  valid_datetime (midnight (year t) (month t) (day t)) = true.
Proof.
  unfold valid_datetime, midnight.
  cbn [year month day hour minute second microsecond].
  rewrite !andb_true_iff, !Z.leb_le. lia.
Qed.

(** X7. The weekly and the monthly series follow from the daily one: the
    total of a bucket is the sum of the totals of the days whose keys,
    parsed and truncated, give the key of the bucket. *)
Theorem coarse_totals_from_daily (table : list TokenUsage.t) (user_id : string)
        (start_date end_date : datetime) (timeframe : string) :
  valid_table table = true ->
  four_digit_years table = true ->
  forall entry,
    In entry (fst (get_token_usage_aggregated table user_id start_date
                                              end_date timeframe)) ->
    total_tokens entry
    = zsum (map total_tokens
                (filter (fun e => day_in_bucket timeframe (period entry)
                                                (period e))
                        (fst (get_token_usage_aggregated
                                table user_id start_date end_date "daily")))).
Proof.
  intros Hv Hy entry Hin.
  pose proof (valid_table_In table Hv) as Hvalid.
  set (rows := matching_rows table user_id start_date end_date).
  set (P := period_of (trunc_unit_of timeframe)).
  set (Pd := period_of "day").
  rewrite usage_data_eq in Hin. apply in_map_iff in Hin.
  destruct Hin as (p & <- & Hp). cbn [period total_tokens].
  fold rows P in Hp |- *.
  assert (Hbp : bucket_start p).
  { eapply group_key_bucket_start; eauto. }
  rewrite (usage_data_eq table user_id start_date end_date "daily").
  change (period_of (trunc_unit_of "daily")) with Pd. fold rows.
  rewrite filter_map_swap, map_map. cbn [period total_tokens].
  rewrite (coarse_group_total Pd P (date_trunc (trunc_unit_of timeframe)) rows).
  2:{ intros r _. unfold P, Pd, period_of. symmetry.
      apply date_trunc_of_day. }
  f_equal. f_equal. apply filter_ext_in. intros d Hd.
  apply (proj1 (group_keys_In _ _)), in_map_iff in Hd.
  destruct Hd as (r & <- & Hr).
  assert (Hrt : In r table).
  { unfold rows, matching_rows in Hr. apply filter_In in Hr. tauto. }
  pose proof (Hvalid r Hrt) as Hvr.
  assert (Hyr : 1001 <= year (TokenUsage.usage_time r)).
  { unfold four_digit_years in Hy. rewrite forallb_forall in Hy.
    apply Z.leb_le, (Hy r Hrt). }
  unfold day_in_bucket, bucket_of_day, Pd, period_of.
  change (date_trunc "day" (TokenUsage.usage_time r))
    with (midnight (year (TokenUsage.usage_time r))
                   (month (TokenUsage.usage_time r))
                   (day (TokenUsage.usage_time r))).
  rewrite strftime_then_strptime;
    [|now apply valid_datetime_midnight|cbn [year midnight]; lia].
  cbn [year month day midnight].
  set (d := midnight _ _ _).
  assert (Hbd : bucket_start (date_trunc (trunc_unit_of timeframe) d)).
  { apply date_trunc_bucket_start. now apply valid_datetime_midnight. }
  destruct (String.eqb_spec
              (strftime_ymd (date_trunc (trunc_unit_of timeframe) d))
              (strftime_ymd p)) as [E|E].
  - apply strftime_ymd_inj in E; auto. now apply eqbk_eq.
  - apply eqbk_neq. congruence.
Qed.

Lemma coarse_totals_from_daily_witness :
  valid_table sample_table = true
  /\ four_digit_years sample_table = true
  /\ forall entry,
       In entry (fst (get_token_usage_aggregated
                        sample_table "testuser" (midnight 2024 6 1)
                        (midnight 2024 6 30) "weekly")) ->
       total_tokens entry
       = zsum (map total_tokens
                   (filter (fun e => day_in_bucket "weekly" (period entry)
                                                   (period e))
                           (fst (get_token_usage_aggregated
                                   sample_table "testuser" (midnight 2024 6 1)
                                   (midnight 2024 6 30) "daily")))).
Proof.
  split; [reflexivity|]. split; [reflexivity|].
  apply (coarse_totals_from_daily sample_table "testuser" (midnight 2024 6 1)
           (midnight 2024 6 30) "weekly"); reflexivity.
Defined.

(* ===================================================================== *)
(** * The calendar behind the buckets                                     *)
(* ===================================================================== *)

Lemma days_before_year_succ (y : Z) :
  days_before_year (y + 1)
  = days_before_year y + 365 + (if is_leap y then 1 else 0).
Proof.
  unfold days_before_year, is_leap. cbv zeta.
  replace (y + 1 - 1) with y by lia.
  destruct (Z.eqb_spec (y mod 4) 0) as [E4|E4];
    destruct (Z.eqb_spec (y mod 100) 0) as [E100|E100];
    destruct (Z.eqb_spec (y mod 400) 0) as [E400|E400];
    cbn [andb orb negb]; Z.div_mod_to_equations; lia.
Qed.

Lemma days_before_month_succ (y m : Z) :
  1 <= m ->
  days_before_month y (m + 1) = days_before_month y m + days_in_month y m.
Proof.
  intros Hm. unfold days_before_month.
  replace (Z.to_nat (m + 1 - 1)) with (S (Z.to_nat (m - 1))) by lia.
  cbn [days_before_month_aux]. do 2 f_equal. lia.
Qed.

Lemma days_before_month_december (y : Z) :
  days_before_month y 12 = 334 + (if is_leap y then 1 else 0).
Proof.
  unfold days_before_month. change (Z.to_nat (12 - 1)) with 11%nat.
  cbn [days_before_month_aux]. unfold days_in_month.
  cbn [Z.of_nat Pos.of_succ_nat Pos.succ Z.eqb Pos.eqb orb].
  destruct (is_leap y); reflexivity.
Qed.

(** [prev_day] is the day whose ordinal is one less. *)
Lemma toordinal_prev_day (d : datetime) :
  1 <= month d <= 12 -> 1 <= day d ->
  toordinal (prev_day d) = toordinal d - 1.
Proof.
  intros Hm Hd. unfold prev_day, toordinal.
  destruct (Z.ltb_spec 1 (day d)); [cbn [year month day]; lia|].
  destruct (Z.ltb_spec 1 (month d)); cbn [year month day].
  - pose proof (days_before_month_succ (year d) (month d - 1) ltac:(lia)) as E.
    replace (month d - 1 + 1) with (month d) in E by lia. lia.
  - pose proof (days_before_year_succ (year d - 1)) as E.
    replace (year d - 1 + 1) with (year d) in E by lia.
    rewrite days_before_month_december.
    replace (month d) with 1 by lia.
    change (days_before_month (year d) 1) with 0. lia.
Qed.

Lemma toordinal_iter_prev_day (n : nat) (d : datetime) :
  bucket_start d ->
  toordinal (Nat.iter n prev_day d) = toordinal d - Z.of_nat n.
Proof.
  intros Hd. induction n as [|n IH];
    [change (Nat.iter 0 prev_day d) with d; lia|].
  rewrite Nat.iter_succ.
  pose proof (iter_prev_day_bucket_start n d Hd) as (Hm & Hday & _).
  rewrite toordinal_prev_day by lia. lia.
Qed.

Lemma lebk_prev_day (d : datetime) :
  1 <= month d -> 1 <= day d -> lebk (prev_day d) d = true.
Proof.
  intros Hm Hd. unfold lebk, cmp, Ord_datetime, dt_tuple, prev_day.
  destruct (Z.ltb_spec 1 (day d)); [|destruct (Z.ltb_spec 1 (month d))];
    cbn [list_compare year month day hour minute second microsecond];
    rewrite ?Z.compare_refl.
  - destruct (Z.compare_spec (day d - 1) (day d)); try reflexivity; lia.
  - destruct (Z.compare_spec (month d - 1) (month d)); try reflexivity; lia.
  - destruct (Z.compare_spec (year d - 1) (year d)); try reflexivity; lia.
Qed.

Lemma lebk_iter_prev_day (n : nat) (d : datetime) :
  bucket_start d -> lebk (Nat.iter n prev_day d) d = true.
Proof.
  intros Hd. induction n as [|n IH].
  - change (Nat.iter 0 prev_day d) with d. unfold lebk. now rewrite cmp_refl.
  - rewrite Nat.iter_succ.
    pose proof (iter_prev_day_bucket_start n d Hd) as (Hm & Hday & _).
    eapply lebk_trans; [|exact IH]. apply lebk_prev_day; lia.
Qed.

Lemma lebk_midnight (t : datetime) (d : Z) :
  valid_datetime t = true -> d <= day t ->
  lebk (midnight (year t) (month t) d) t = true.
Proof.
  intros Hv Hd. unfold valid_datetime in Hv.
  rewrite !andb_true_iff, !Z.leb_le in Hv.
  unfold lebk, cmp, Ord_datetime, dt_tuple, midnight.
  cbn [list_compare year month day hour minute second microsecond].
  rewrite !Z.compare_refl.
  destruct (Z.compare_spec d (day t)); try reflexivity; try lia.
  destruct (Z.compare_spec 0 (hour t)); try reflexivity; try lia.
  destruct (Z.compare_spec 0 (minute t)); try reflexivity; try lia.
  destruct (Z.compare_spec 0 (second t)); try reflexivity; try lia.
  destruct (Z.compare_spec 0 (microsecond t)); try reflexivity; lia.
Qed.

Lemma weekday_bounds (t : datetime) : 0 <= weekday t <= 6.
Proof.
  unfold weekday. pose proof (Z.mod_pos_bound (toordinal t + 6) 7 ltac:(lia)).
  lia.
Qed.

(** X8. The bucket of the weekly series that holds an event starts on the
    Monday of the week of the event: a Monday, and the day of the event
    less the number of its weekday. *)
Theorem week_bucket_starts_monday (t : datetime) :
  valid_datetime t = true ->
  let b := date_trunc (trunc_unit_of "weekly") t in
  weekday b = 0
  /\ toordinal b = toordinal t - weekday t
  /\ toordinal t - 6 <= toordinal b <= toordinal t.
Proof.
  intros Hv b. pose proof (valid_datetime_day t Hv) as [Hm Hd].
  pose proof (weekday_bounds t) as Hw.
  assert (Hb : toordinal b = toordinal t - weekday t).
  { unfold b. change (trunc_unit_of "weekly") with "week".
    unfold date_trunc. cbn [String.eqb Ascii.eqb Bool.eqb].
    rewrite toordinal_iter_prev_day.
    - change (toordinal (midnight (year t) (month t) (day t)))
        with (toordinal t). lia.
    - unfold bucket_start, midnight.
      cbn [year month day hour minute second microsecond]. lia. }
  split; [|split; [exact Hb|lia]].
  unfold weekday at 1. rewrite Hb. unfold weekday.
  pose proof (Z.mod_pos_bound (toordinal t + 6) 7 ltac:(lia)).
  Z.div_mod_to_equations. lia.
Qed.

Lemma week_bucket_starts_monday_witness :
  weekday (date_trunc (trunc_unit_of "weekly")
                      (mkdatetime 2024 6 9 12 0 0 0)) = 0
  /\ date_trunc (trunc_unit_of "weekly") (mkdatetime 2024 6 9 12 0 0 0)
     = midnight 2024 6 3.
Proof.
  split; [|reflexivity].
  apply (week_bucket_starts_monday (mkdatetime 2024 6 9 12 0 0 0)).
  reflexivity.
Defined.

(** X9. Whatever the granularity, the bucket of an event starts at or
    before the event and at most thirty days before its day. *)
Theorem bucket_starts_before_event (timeframe : string) (t : datetime) :
  valid_datetime t = true ->
  let b := date_trunc (trunc_unit_of timeframe) t in
  lebk b t = true /\ toordinal t - 30 <= toordinal b <= toordinal t.
Proof.
  intros Hv b. pose proof (valid_datetime_day t Hv) as [Hm Hd].
  assert (Hmid : bucket_start (midnight (year t) (month t) (day t))).
  { unfold bucket_start, midnight.
    cbn [year month day hour minute second microsecond]. lia. }
  unfold b.
  destruct (trunc_unit_of_cases timeframe) as [E|[E|E]]; rewrite E;
    unfold date_trunc; cbn [String.eqb Ascii.eqb Bool.eqb].
  - split; [apply lebk_midnight; auto; lia|].
    change (toordinal (midnight (year t) (month t) (day t)))
      with (toordinal t). lia.
  - split.
    + eapply lebk_trans; [apply lebk_iter_prev_day; exact Hmid|].
      apply lebk_midnight; auto; lia.
    + rewrite toordinal_iter_prev_day by exact Hmid.
      change (toordinal (midnight (year t) (month t) (day t)))
        with (toordinal t).
      pose proof (weekday_bounds t). lia.
  - split; [apply lebk_midnight; auto; lia|].
    unfold toordinal, midnight. cbn [year month day]. lia.
Qed.

Lemma bucket_starts_before_event_witness :
  lebk (date_trunc (trunc_unit_of "monthly") (mkdatetime 2024 6 10 12 0 0 0))
       (mkdatetime 2024 6 10 12 0 0 0) = true
  /\ toordinal (mkdatetime 2024 6 10 12 0 0 0) - 30
     <= toordinal (date_trunc (trunc_unit_of "monthly")
                              (mkdatetime 2024 6 10 12 0 0 0))
     <= toordinal (mkdatetime 2024 6 10 12 0 0 0).
Proof.
  apply (bucket_starts_before_event "monthly" (mkdatetime 2024 6 10 12 0 0 0)).
  reflexivity.
Defined.

(* ===================================================================== *)
(** * The endpoint and the middleware, case by case                       *)
(* ===================================================================== *)

Lemma app_admitted (environ : dict string)
      (jwt_decode : string -> string -> list string -> option payload)
      (table : list TokenUsage.t) (req : request) (user : User.t) :
  is_open_path (path req) = false ->
  verified_identity environ jwt_decode req = Some user ->
  exists token,
    bearer_token req = Some token
    /\ app environ jwt_decode table req
       = (fst (router table (with_user req user)),
          JwtDecode token (JWT_SECRET_KEY environ) [JWT_ALGORITHM environ]
            :: snd (router table (with_user req user))).
Proof.
  intros Ho Hv.
  destruct (dispatch_admitted environ jwt_decode (router table) req user Ho Hv)
    as (token & pl & Hb & _ & _ & _ & _ & E).
  exists token. split; [exact Hb|exact E].
Qed.

Lemma endpoint_not_open (p : string) :
  p = "/api/token-usage" -> is_open_path p = false.
Proof. intros ->. reflexivity. Qed.

(** X10. An admitted request to the endpoint whose dates cannot be used is
    answered 422 and the service is not called: a date that is missing; a
    date that [strptime] does not read, with the detail "Invalid date
    format. Use YYYY-MM-DD."; a start date after the end date, with the
    detail "Start date must be before or equal to end date.". *)
Theorem unusable_dates_unprocessable (environ : dict string)
        (jwt_decode : string -> string -> list string -> option payload)
        (table : list TokenUsage.t) (req : request) (user : User.t)
        (timeframe : string) :
  verified_identity environ jwt_decode req = Some user ->
  path req = "/api/token-usage" ->
  requested_timeframe req = Some timeframe ->
  (query_get "start_date" (query_params req) = None
   \/ query_get "end_date" (query_params req) = None ->
   status_code (fst (app environ jwt_decode table req)) = 422)
  /\ (forall start_text end_text,
        query_get "start_date" (query_params req) = Some start_text ->
        query_get "end_date" (query_params req) = Some end_text ->
        strptime_ymd start_text = None \/ strptime_ymd end_text = None ->
        fst (app environ jwt_decode table req)
        = mk_response 422 (Detail "Invalid date format. Use YYYY-MM-DD."))
  /\ (forall start_dt end_dt,
        requested_date "start_date" req = Some start_dt ->
        requested_date "end_date" req = Some end_dt ->
        lebk start_dt end_dt = false ->
        fst (app environ jwt_decode table req)
        = mk_response 422
            (Detail "Start date must be before or equal to end date."))
  /\ (bound_parameters req = None ->
      status_code (fst (app environ jwt_decode table req)) = 422
      /\ forallb (fun e => negb (is_aggregate e))
                 (snd (app environ jwt_decode table req)) = true).
Proof.
  intros Hv Hp Htf.
  destruct (app_admitted environ jwt_decode table req user
              (endpoint_not_open _ Hp) Hv) as (token & _ & E).
  rewrite E. cbn [fst snd]. clear E.
  assert (Hr : router table (with_user req user)
               = to_response (endpoint table (with_user req user))).
  { unfold router, with_user. cbn [path]. now rewrite Hp. }
  rewrite Hr, endpoint_cases. clear Hr.
  assert (Htf' : requested_timeframe (with_user req user) = Some timeframe)
    by exact Htf.
  rewrite Htf'. clear Htf'. unfold with_user. cbn [state_user query_params].
  unfold bound_parameters, requested_date. rewrite Hp, Htf.
  cbn [String.eqb Ascii.eqb Bool.eqb].
  destruct (query_get "start_date" (query_params req)) as [sd|];
    destruct (query_get "end_date" (query_params req)) as [ed|].
  2-4: (split; [intros _; reflexivity|];
        split; [intros ? ? ? ?; discriminate|];
        split; [intros ? ? ? ?; discriminate|];
        intros _; split; reflexivity).
  split; [intros [?|?]; discriminate|].
  split.
  { intros st et Es Ee Hbad. injection Es as <-. injection Ee as <-.
    destruct Hbad as [Hb|Hb]; rewrite Hb; [reflexivity|].
    destruct (strptime_ymd sd); reflexivity. }
  split.
  { intros s e Es Ee Hle. rewrite Es, Ee, Hle. reflexivity. }
  destruct (strptime_ymd sd) as [s|]; [|intros _; split; reflexivity].
  destruct (strptime_ymd ed) as [e|]; [|intros _; split; reflexivity].
  destruct (lebk s e); [discriminate|intros _; split; reflexivity].
Qed.

Lemma unusable_dates_unprocessable_witness :
  fst (app [] sample_jwt_decode sample_table
           (sample_request (Some "Bearer user-token")
              [("start_date", "2024-06-10"); ("end_date", "2024-06-08")]))
  = mk_response 422
      (Detail "Start date must be before or equal to end date.").
Proof.
  refine (proj1 (proj2 (proj2
    (unusable_dates_unprocessable [] sample_jwt_decode sample_table
       (sample_request (Some "Bearer user-token")
          [("start_date", "2024-06-10"); ("end_date", "2024-06-08")])
       (User.mk "testuser" (JStr "testuser") (JList [JStr "user"]))
       "daily" _ _ _)))
    (midnight 2024 6 10) (midnight 2024 6 8) _ _ _); reflexivity.
Defined.

(** A date whose last digit is the fullwidth zero, U+FF10, is read by
    [strptime]: the request is served, up to midnight of 2024-06-10. *)
Lemma fullwidth_digit_date_is_served :
  app [] sample_jwt_decode sample_table
      (sample_request (Some "Bearer user-token")
         [("start_date", "2024-06-08");
          ("end_date",
           ("2024-06-1"
            ++ String "239" (String "188" (String "144" EmptyString)))%string)])
  = (mk_response 200
       (Usage [mk_entry "2024-06-08" 100; mk_entry "2024-06-09" 200]
              [("2024-06-08", [("chat", 100)]);
               ("2024-06-09", [("api", 200)])]),
     [JwtDecode "user-token" "supersecretkey" ["HS256"];
      Aggregate "testuser" (midnight 2024 6 8) (midnight 2024 6 10)
                "daily"]).
Proof. vm_compute. reflexivity. Qed.

Lemma router_subject_only (table : list TokenUsage.t) (r1 r2 : request)
      (u1 u2 : User.t) :
  path r2 = path r1 -> query_params r2 = query_params r1 ->
  state_user r1 = Some u1 -> state_user r2 = Some u2 ->
  User.id u1 = User.id u2 ->
  router table r1 = router table r2.
Proof.
  intros Hp Hq H1 H2 Hid. unfold router. rewrite Hp.
  destruct (String.eqb (path r1) "/api/token-usage"); [|reflexivity].
  rewrite !endpoint_cases. unfold requested_timeframe.
  rewrite H1, H2, Hq, Hid. reflexivity.
Qed.

(** X11. Of an admitted credential only the subject counts: two requests
    with the same path and query, admitted for the same subject, get the
    same response, whatever the name and the roles their tokens carry. An
    administrator is served the rows of the administrator, as any user. *)
Theorem response_depends_on_subject_only (environ : dict string)
        (jwt_decode : string -> string -> list string -> option payload)
        (table : list TokenUsage.t) (req1 req2 : request) (u1 u2 : User.t) :
  verified_identity environ jwt_decode req1 = Some u1 ->
  verified_identity environ jwt_decode req2 = Some u2 ->
  User.id u1 = User.id u2 ->
  path req2 = path req1 ->
  query_params req2 = query_params req1 ->
  fst (app environ jwt_decode table req1)
  = fst (app environ jwt_decode table req2).
Proof.
  intros H1 H2 Hid Hp Hq.
  destruct (is_open_path (path req1)) eqn:Ho.
  - unfold app, dispatch. rewrite Hp, Ho. f_equal.
    symmetry. now apply router_open_path.
  - destruct (app_admitted environ jwt_decode table req1 u1 Ho H1)
      as (t1 & _ & ->).
    rewrite <- Hp in Ho.
    destruct (app_admitted environ jwt_decode table req2 u2 Ho H2)
      as (t2 & _ & ->).
    cbn [fst]. f_equal.
    apply (router_subject_only table _ _ u1 u2); auto.
Qed.

Lemma response_depends_on_subject_only_witness :
  let decode := fun token key algorithms =>
    if String.eqb token "admin-token"
    then Some (mk_payload (Some "testuser") (Some (JStr "Test User"))
                          (Some (JList [JStr "admin"; JStr "auditor"])))
    else sample_jwt_decode token key algorithms in
  fst (app [] decode sample_table
           (sample_request (Some "Bearer user-token")
              [("start_date", "2024-06-08"); ("end_date", "2024-06-11")]))
  = fst (app [] decode sample_table
             (sample_request (Some "Bearer admin-token")
                [("start_date", "2024-06-08"); ("end_date", "2024-06-11")])).
Proof.
  intros decode.
  apply (response_depends_on_subject_only [] decode sample_table
           (sample_request (Some "Bearer user-token")
              [("start_date", "2024-06-08"); ("end_date", "2024-06-11")])
           (sample_request (Some "Bearer admin-token")
              [("start_date", "2024-06-08"); ("end_date", "2024-06-11")])
           (User.mk "testuser" (JStr "testuser") (JList [JStr "user"]))
           (User.mk "testuser" (JStr "Test User")
                    (JList [JStr "admin"; JStr "auditor"])));
    reflexivity.
Defined.

(** X12. A request without a Bearer credential is answered 401 before
    anything is looked at: no token is decoded and the store is not
    queried. The documentation paths are served without the credential
    being read at all. *)
Theorem no_credential_no_work (environ : dict string)
        (jwt_decode : string -> string -> list string -> option payload)
        (table : list TokenUsage.t) (req : request) :
  (bearer_token req = None -> is_open_path (path req) = false ->
   app environ jwt_decode table req
   = (mk_response 401 (Detail "Not authenticated"), []))
  /\ (is_open_path (path req) = true ->
      snd (app environ jwt_decode table req) = []
      /\ forall header,
           app environ jwt_decode table
               (mk_request (path req) header (query_params req)
                           (state_user req))
           = app environ jwt_decode table req).
Proof.
  split.
  - unfold app, dispatch, bearer_token. intros Hb Ho. rewrite Ho.
    destruct (authorization req) as [h|]; [|reflexivity].
    destruct (String.eqb h ""); [reflexivity|].
    destruct (startswith "Bearer " h) eqn:Hs; [|reflexivity].
    destruct (bearer_has_space h Hs) as (token & E). congruence.
  - intros Ho. unfold app, dispatch. cbn [path]. rewrite Ho. split.
    + unfold router. rewrite (open_path_not_endpoint _ Ho).
      destruct (String.eqb (path req) "/docs"); [reflexivity|].
      destruct (String.eqb (path req) "/redoc"); [reflexivity|].
      destruct (String.eqb (path req) "/openapi.json"); reflexivity.
    + intros header. now apply router_open_path.
Qed.

Lemma no_credential_no_work_witness :
  app [] sample_jwt_decode sample_table
      (sample_request (Some "Basic dXNlcjpwYXNz")
         [("start_date", "2024-06-08"); ("end_date", "2024-06-11")])
  = (mk_response 401 (Detail "Not authenticated"), []).
Proof.
  apply (proj1 (no_credential_no_work [] sample_jwt_decode sample_table
                  (sample_request (Some "Basic dXNlcjpwYXNz")
                     [("start_date", "2024-06-08");
                      ("end_date", "2024-06-11")])));
    reflexivity.
Defined.

Lemma router_trace_shape (table : list TokenUsage.t) (req : request) :
  snd (router table req) = []
  \/ exists u s e tf, snd (router table req) = [Aggregate u s e tf].
Proof.
  destruct (state_user req) as [user|] eqn:Hu.
  - destruct (bound_parameters req) as [[[s e] tf]|] eqn:Hb.
    + rewrite (router_bound table req user s e tf Hu Hb). right.
      cbn [snd]. eauto.
    + destruct (router_unbound table req (or_intror Hb)) as (st & b & -> & _).
      now left.
  - destruct (router_unbound table req (or_introl Hu)) as (st & b & -> & _).
    now left.
Qed.

(** X13. A request costs at most one decoding of a token and one call of
    the service, and the service is never called before a token has been
    decoded: the trace is empty, one decoding, or one decoding followed by
    one call. A request that arrives carries no user of its own. *)
Theorem one_decode_then_one_call (environ : dict string)
        (jwt_decode : string -> string -> list string -> option payload)
        (table : list TokenUsage.t) (req : request) :
  state_user req = None ->
  let trace := snd (app environ jwt_decode table req) in
  trace = []
  \/ (exists token,
        trace = [JwtDecode token (JWT_SECRET_KEY environ)
                           [JWT_ALGORITHM environ]])
  \/ (exists token u s e tf,
        trace = [JwtDecode token (JWT_SECRET_KEY environ)
                           [JWT_ALGORITHM environ];
                 Aggregate u s e tf]).
Proof.
  intros Hu trace. unfold trace, app, dispatch.
  destruct (is_open_path (path req)).
  { left. destruct (router_unbound table req (or_introl Hu))
      as (st & b & -> & _). reflexivity. }
  destruct (authorization req) as [h|]; [|now left].
  destruct (String.eqb h "" || negb (startswith "Bearer " h)); [now left|].
  destruct (split_space_snd h) as [token|]; [|now left].
  cbv zeta.
  destruct (jwt_decode token _ _) as [pl|]; [|right; left; eexists; reflexivity].
  destruct (falsy (sub pl) || claim_falsy (username_claim pl));
    [right; left; eexists; reflexivity|].
  destruct (has_permitted_role (or_default (roles_claim pl) (JList [])))
    as [[|]|];
    [|right; left; eexists; reflexivity|right; left; eexists; reflexivity].
  match goal with
  | |- context [router table ?r] =>
      destruct (router_trace_shape table r) as [E|(u & s & e & tf & E)];
      destruct (router table r) as [resp t]; cbn [snd] in E |- *; subst t
  end.
  - right; left; eexists; reflexivity.
  - right; right. exists token, u, s, e, tf. reflexivity.
Qed.

Lemma one_decode_then_one_call_witness :
  snd (app [] sample_jwt_decode sample_table
           (sample_request (Some "Bearer user-token")
              [("start_date", "2024-06-08"); ("end_date", "2024-06-11")]))
  = [JwtDecode "user-token" "supersecretkey" ["HS256"];
     Aggregate "testuser" (midnight 2024 6 8) (midnight 2024 6 11) "daily"]
  /\ (snd (app [] sample_jwt_decode sample_table
               (sample_request (Some "Bearer user-token")
                  [("start_date", "2024-06-08"); ("end_date", "2024-06-11")]))
      = []
      \/ (exists token,
            snd (app [] sample_jwt_decode sample_table
                     (sample_request (Some "Bearer user-token")
                        [("start_date", "2024-06-08");
                         ("end_date", "2024-06-11")]))
            = [JwtDecode token (JWT_SECRET_KEY []) [JWT_ALGORITHM []]])
      \/ (exists token u s e tf,
            snd (app [] sample_jwt_decode sample_table
                     (sample_request (Some "Bearer user-token")
                        [("start_date", "2024-06-08");
                         ("end_date", "2024-06-11")]))
            = [JwtDecode token (JWT_SECRET_KEY []) [JWT_ALGORITHM []];
               Aggregate u s e tf])).
Proof.
  split; [reflexivity|].
  apply (one_decode_then_one_call [] sample_jwt_decode sample_table
           (sample_request (Some "Bearer user-token")
              [("start_date", "2024-06-08"); ("end_date", "2024-06-11")])).
  reflexivity.
Defined.

Lemma bound_parameters_facts (req : request) (s e : datetime)
      (tf : string) :
  bound_parameters req = Some (s, e, tf) ->
  (exists text, query_get "start_date" (query_params req) = Some text
                /\ strptime_ymd text = Some s)
  /\ (exists text, query_get "end_date" (query_params req) = Some text
                   /\ strptime_ymd text = Some e)
  /\ lebk s e = true
  /\ re_match timeframe_regex tf = true.
Proof.
  unfold bound_parameters, requested_date, requested_timeframe.
  destruct (String.eqb (path req) "/api/token-usage"); [|discriminate].
  destruct (query_get "start_date" (query_params req)) as [st|];
    [|discriminate].
  destruct (strptime_ymd st) as [s'|] eqn:Es; [|discriminate].
  destruct (query_get "end_date" (query_params req)) as [et|];
    [|discriminate].
  destruct (strptime_ymd et) as [e'|] eqn:Ee; [|discriminate].
  destruct (query_get "timeframe" (query_params req)) as [t|].
  - destruct (re_match timeframe_regex t) eqn:Er; [|discriminate].
    destruct (lebk s' e') eqn:Hle; [|discriminate].
    intros [= <- <- <-]. eauto 10.
  - destruct (lebk s' e') eqn:Hle; [|discriminate].
    intros [= <- <- <-]. repeat split; eauto.
Qed.

Lemma router_aggregate (table : list TokenUsage.t) (req : request)
      (u : string) (s e : datetime) (tf : string) :
  In (Aggregate u s e tf) (snd (router table req)) ->
  exists user, state_user req = Some user /\ User.id user = u
               /\ bound_parameters req = Some (s, e, tf).
Proof.
  destruct (state_user req) as [user|] eqn:Hu.
  - destruct (bound_parameters req) as [[[s' e'] tf']|] eqn:Hb.
    + rewrite (router_bound table req user s' e' tf' Hu Hb). cbn [snd In].
      intros [[= <- <- <- <-]|[]]. eauto.
    + destruct (router_unbound table req (or_intror Hb)) as (st & b & -> & _).
      intros [].
  - destruct (router_unbound table req (or_introl Hu)) as (st & b & -> & _).
    intros [].
Qed.

Lemma app_aggregate (environ : dict string)
      (jwt_decode : string -> string -> list string -> option payload)
      (table : list TokenUsage.t) (req : request)
      (u : string) (s e : datetime) (tf : string) :
  In (Aggregate u s e tf) (snd (app environ jwt_decode table req)) ->
  exists r, path r = path req /\ query_params r = query_params req
            /\ In (Aggregate u s e tf) (snd (router table r)).
Proof.
  unfold app, dispatch.
  destruct (is_open_path (path req)); [intros Hin; exists req; auto|].
  destruct (authorization req) as [h|]; [|intros []].
  destruct (String.eqb h "" || negb (startswith "Bearer " h)); [intros []|].
  destruct (split_space_snd h) as [token|]; [|intros []].
  cbv zeta.
  destruct (jwt_decode token _ _) as [pl|];
    [|cbn [snd In]; intros [H|[]]; discriminate H].
  destruct (falsy (sub pl) || claim_falsy (username_claim pl));
    [cbn [snd In]; intros [H|[]]; discriminate H|].
  destruct (has_permitted_role (or_default (roles_claim pl) (JList [])))
    as [[|]|];
    [|cbn [snd In]; intros [H|[]]; discriminate H
     |cbn [snd In]; intros [H|[]]; discriminate H].
  match goal with
  | |- context [router table ?r] =>
      intros Hin; exists r; split; [reflexivity|]; split; [reflexivity|];
      destruct (router table r) as [resp t]
  end.
  cbn [snd List.app In] in Hin |- *.
  destruct Hin as [H|Hin]; [discriminate H|exact Hin].
Qed.

(** X6. Whenever the service is called, it is called with a range the
    endpoint has checked: both ends are dates of the calendar at midnight,
    read from the two date parameters, the start is not after the end, and
    the granularity is one the pattern accepts. *)
Theorem service_called_with_checked_range (environ : dict string)
        (jwt_decode : string -> string -> list string -> option payload)
        (table : list TokenUsage.t) (req : request)
        (u : string) (s e : datetime) (tf : string) :
  In (Aggregate u s e tf) (snd (app environ jwt_decode table req)) ->
  requested_date "start_date" req = Some s
  /\ requested_date "end_date" req = Some e
  /\ valid_datetime s = true /\ valid_datetime e = true
  /\ time_tuple s = [0; 0; 0; 0] /\ time_tuple e = [0; 0; 0; 0]
  /\ lebk s e = true
  /\ re_match timeframe_regex tf = true.
Proof.
  intros Hin.
  destruct (app_aggregate environ jwt_decode table req u s e tf Hin)
    as (r & Hp & Hq & Hr).
  destruct (router_aggregate table r u s e tf Hr) as (user & _ & _ & Hb).
  destruct (bound_parameters_facts r s e tf Hb)
    as ((st & Hst & Es) & (et & Het & Ee) & Hle & Hre).
  rewrite Hq in Hst, Het.
  destruct (strptime_ymd_valid st s Es) as (Hvs & Hs1 & Hs2 & Hs3 & Hs4).
  destruct (strptime_ymd_valid et e Ee) as (Hve & He1 & He2 & He3 & He4).
  unfold requested_date, time_tuple. rewrite Hst, Het.
  rewrite Hs1, Hs2, Hs3, Hs4, He1, He2, He3, He4.
  repeat split; auto.
Qed.

Lemma service_called_with_checked_range_witness :
  In (Aggregate "testuser" (midnight 2024 6 8) (midnight 2024 6 11) "daily")
     (snd (app [] sample_jwt_decode sample_table
               (sample_request (Some "Bearer user-token")
                  [("start_date", "2024-06-08");
                   ("end_date", "2024-06-11")])))
  /\ lebk (midnight 2024 6 8) (midnight 2024 6 11) = true.
Proof.
  assert (Hin : In (Aggregate "testuser" (midnight 2024 6 8)
                              (midnight 2024 6 11) "daily")
                   (snd (app [] sample_jwt_decode sample_table
                             (sample_request (Some "Bearer user-token")
                                [("start_date", "2024-06-08");
                                 ("end_date", "2024-06-11")]))))
    by (vm_compute; auto).
  split; [exact Hin|].
  apply (service_called_with_checked_range [] sample_jwt_decode sample_table
           (sample_request (Some "Bearer user-token")
              [("start_date", "2024-06-08"); ("end_date", "2024-06-11")])
           "testuser" (midnight 2024 6 8) (midnight 2024 6 11) "daily" Hin).
Defined.

(* ===================================================================== *)
(** * The default ranges of the date picker                               *)
(* ===================================================================== *)

Lemma prev_day_time (d : datetime) :
  time_tuple (prev_day d) = time_tuple d.
Proof.
  unfold prev_day, time_tuple.
  destruct (1 <? day d); [|destruct (1 <? month d)]; reflexivity.
Qed.

Lemma prev_day_date (d : datetime) :
  1 <= month d <= 12 /\ 1 <= day d <= days_in_month (year d) (month d) ->
  1 <= month (prev_day d) <= 12
  /\ 1 <= day (prev_day d)
     <= days_in_month (year (prev_day d)) (month (prev_day d)).
Proof.
  intros [Hm Hd]. unfold prev_day.
  destruct (Z.ltb_spec 1 (day d)); [|destruct (Z.ltb_spec 1 (month d))];
    cbn [year month day].
  - lia.
  - pose proof (days_in_month_bounds (year d) (month d - 1)). lia.
  - change (days_in_month (year d - 1) 12) with 31. lia.
Qed.

Lemma iter_prev_day_date (n : nat) (d : datetime) :
  1 <= month d <= 12 /\ 1 <= day d <= days_in_month (year d) (month d) ->
  let r := Nat.iter n prev_day d in
  (1 <= month r <= 12 /\ 1 <= day r <= days_in_month (year r) (month r))
  /\ time_tuple r = time_tuple d
  /\ toordinal r = toordinal d - Z.of_nat n
  /\ lebk r d = true.
Proof.
  intros Hd. induction n as [|n IH].
  - change (Nat.iter 0 prev_day d) with d. cbv zeta.
    repeat split; try lia. unfold lebk. now rewrite cmp_refl.
  - cbv zeta in *. rewrite Nat.iter_succ.
    destruct IH as (Hr & Ht & Ho & Hle).
    remember (Nat.iter n prev_day d) as r eqn:Er. clear Er.
    split; [now apply prev_day_date|].
    split; [now rewrite prev_day_time|].
    split; [rewrite toordinal_prev_day by lia; lia|].
    eapply lebk_trans; [|exact Hle]. apply lebk_prev_day; lia.
Qed.

Lemma days_before_year_mono (a b : Z) :
  a <= b -> days_before_year a <= days_before_year b.
Proof.
  intros Hab. unfold days_before_year. cbv zeta.
  Z.div_mod_to_equations. lia.
Qed.

Local Ltac month_case y :=
  unfold days_before_month;
  match goal with
  | |- context [Z.to_nat ?e] =>
      let n := eval vm_compute in (Z.to_nat e) in
      change (Z.to_nat e) with n
  end;
  cbn [days_before_month_aux]; unfold days_in_month;
  cbn [Z.of_nat Pos.of_succ_nat Pos.succ Z.eqb Pos.eqb orb];
  destruct (is_leap y); lia.

Lemma days_before_month_bounds (y m : Z) :
  1 <= m <= 12 ->
  0 <= days_before_month y m
  /\ days_before_month y m + days_in_month y m
     <= 365 + (if is_leap y then 1 else 0).
Proof.
  intros Hm.
  assert (Hc : In m [1; 2; 3; 4; 5; 6; 7; 8; 9; 10; 11; 12])
    by (cbn [In]; lia).
  cbn [In] in Hc.
  repeat (destruct Hc as [<-|Hc]; [month_case y|]).
  destruct Hc.
Qed.

Lemma toordinal_year_bounds (d : datetime) :
  1 <= month d <= 12 /\ 1 <= day d <= days_in_month (year d) (month d) ->
  days_before_year (year d) < toordinal d <= days_before_year (year d + 1).
Proof.
  intros [Hm Hd]. unfold toordinal.
  pose proof (days_before_month_bounds (year d) (month d) Hm).
  rewrite days_before_year_succ. lia.
Qed.

Lemma year_of_ordinal (d : datetime) (y : Z) :
  1 <= month d <= 12 /\ 1 <= day d <= days_in_month (year d) (month d) ->
  days_before_year y < toordinal d -> y <= year d.
Proof.
  intros Hd Ho. pose proof (toordinal_year_bounds d Hd) as [_ Hup].
  destruct (Z.le_gt_cases y (year d)) as [|Hlt]; [assumption|].
  pose proof (days_before_year_mono (year d + 1) y ltac:(lia)). lia.
Qed.

(** Up to a year back from a date the subtraction does not overflow. *)
Lemma minus_days_some (d : datetime) (n : nat) :
  1 <= month d <= 12 /\ 1 <= day d <= days_in_month (year d) (month d) ->
  2 <= year d -> (n <= 365)%nat ->
  minus_days d n = Some (Nat.iter n prev_day d)
  /\ year d - 1 <= year (Nat.iter n prev_day d).
Proof.
  intros Hd Hy Hn.
  destruct (iter_prev_day_date n d Hd) as (Hr & _ & Ho & _).
  assert (Hyr : year d - 1 <= year (Nat.iter n prev_day d)).
  { apply year_of_ordinal; [exact Hr|].
    pose proof (toordinal_year_bounds d Hd) as [Hlo _].
    pose proof (days_before_year_succ (year d - 1)) as E.
    replace (year d - 1 + 1) with (year d) in E by lia.
    destruct (is_leap (year d - 1)); lia. }
  split; [|exact Hyr]. unfold minus_days. cbv zeta.
  destruct (Z.leb_spec 1 (year (Nat.iter n prev_day d))); [reflexivity|lia].
Qed.

Lemma valid_datetime_date (t : datetime) :
  valid_datetime t = true ->
  1 <= month t <= 12 /\ 1 <= day t <= days_in_month (year t) (month t).
Proof.
  unfold valid_datetime. rewrite !andb_true_iff, !Z.leb_le. lia.
Qed.

Lemma lebk_same_day_times (a b : datetime) (h mi s us h' mi' s' us' : Z) :
  lebk a b = true ->
  list_compare Z.compare [h; mi; s; us] [h'; mi'; s'; us'] <> Gt ->
  lebk (replace_time a h mi s us) (replace_time b h' mi' s' us') = true.
Proof.
  intros Hab Ht. apply lebk_date_tuple in Hab.
  unfold lebk. rewrite cmp_datetime_split.
  change (date_tuple (replace_time a h mi s us)) with (date_tuple a).
  change (date_tuple (replace_time b h' mi' s' us')) with (date_tuple b).
  change (time_tuple (replace_time a h mi s us)) with [h; mi; s; us].
  change (time_tuple (replace_time b h' mi' s' us')) with [h'; mi'; s'; us'].
  destruct (list_compare Z.compare (date_tuple a) (date_tuple b));
    try reflexivity; try congruence.
  destruct (list_compare Z.compare [h; mi; s; us] [h'; mi'; s'; us']);
    try reflexivity; congruence.
Qed.

Lemma lebk_year (a b : datetime) : lebk a b = true -> year a <= year b.
Proof.
  unfold lebk, cmp, Ord_datetime, dt_tuple. cbn [list_compare].
  destruct (Z.compare_spec (year a) (year b)); intros; try lia;
    try discriminate.
Qed.

Lemma lebk_replace_day (t : datetime) :
  1 <= day t -> lebk (replace_day t 1) t = true.
Proof.
  intros Hd. unfold lebk, cmp, Ord_datetime, dt_tuple, replace_day.
  cbn [list_compare year month day hour minute second microsecond].
  rewrite !Z.compare_refl.
  destruct (Z.compare_spec 1 (day t)); try lia; try reflexivity;
    rewrite ?Z.compare_refl; reflexivity.
Qed.

Lemma default_range_facts (today : datetime) (timeframe : string) :
  valid_datetime today = true ->
  2 <= year today ->
  exists start_date end_date,
    get_default_date_range today timeframe = Some (start_date, end_date)
    /\ valid_datetime start_date = true
    /\ valid_datetime end_date = true
    /\ year today - 1 <= year start_date
    /\ time_tuple start_date = [0; 0; 0; 0]
    /\ end_date = replace_time today 23 59 59 999999
    /\ lebk start_date end_date = true
    /\ toordinal end_date - toordinal start_date
       = (if String.eqb timeframe "daily" then 6
          else if String.eqb timeframe "weekly" then 77
          else if String.eqb timeframe "monthly" then 364 + day today
          else 29).
Proof.
  intros Hv Hy. pose proof (valid_datetime_date today Hv) as Hd.
  assert (Hfirst : 1 <= month (replace_day today 1) <= 12
                   /\ 1 <= day (replace_day today 1)
                      <= days_in_month (year (replace_day today 1))
                                       (month (replace_day today 1))).
  { unfold replace_day. cbn [year month day].
    pose proof (days_in_month_bounds (year today) (month today)). lia. }
  assert (Hy9 : year today <= 9999).
  { unfold valid_datetime in Hv. rewrite !andb_true_iff, !Z.leb_le in Hv.
    lia. }
  assert (Hend : valid_datetime (replace_time today 23 59 59 999999) = true).
  { unfold valid_datetime in *. rewrite !andb_true_iff, !Z.leb_le in *.
    unfold replace_time. cbn [year month day hour minute second microsecond].
    lia. }
  assert (Hgen : forall base n,
             (1 <= month base <= 12
              /\ 1 <= day base <= days_in_month (year base) (month base)) ->
             year base = year today -> lebk base today = true ->
             (n <= 365)%nat ->
             exists start_date,
               (match minus_days base n with
                | Some start => Some (replace_time start 0 0 0 0,
                                      replace_time today 23 59 59 999999)
                | None => None
                end) = Some (start_date, replace_time today 23 59 59 999999)
               /\ valid_datetime start_date = true
               /\ year today - 1 <= year start_date
               /\ time_tuple start_date = [0; 0; 0; 0]
               /\ lebk start_date (replace_time today 23 59 59 999999) = true
               /\ toordinal start_date = toordinal base - Z.of_nat n).
  { intros base n Hb Hyb Hle Hn.
    destruct (minus_days_some base n Hb ltac:(lia) Hn) as [-> Hyr].
    destruct (iter_prev_day_date n base Hb) as (Hr & _ & Ho & Hle').
    remember (Nat.iter n prev_day base) as r eqn:Er. clear Er.
    pose proof (lebk_year r base Hle') as Hyr'.
    exists (replace_time r 0 0 0 0). split; [reflexivity|].
    split.
    { unfold valid_datetime, replace_time.
      cbn [year month day hour minute second microsecond].
      rewrite !andb_true_iff, !Z.leb_le. lia. }
    split; [cbn [replace_time year]; lia|].
    split; [reflexivity|].
    split; [|exact Ho].
    apply lebk_same_day_times; [|vm_compute; discriminate].
    eapply lebk_trans; [exact Hle'|exact Hle]. }
  assert (Hrefl : lebk today today = true)
    by (unfold lebk; now rewrite cmp_refl).
  unfold get_default_date_range. cbv zeta.
  change (toordinal (replace_time today 23 59 59 999999))
    with (toordinal today) in *.
  destruct (String.eqb timeframe "daily").
  { destruct (Hgen today 6%nat Hd eq_refl Hrefl ltac:(lia))
      as (s & E & Hs & Hys & Ht & Hle & Ho).
    exists s, (replace_time today 23 59 59 999999).
    rewrite E. repeat split; auto.
    change (toordinal (replace_time today 23 59 59 999999))
      with (toordinal today). lia. }
  destruct (String.eqb timeframe "weekly").
  { destruct (Hgen today (11 * 7)%nat Hd eq_refl Hrefl ltac:(cbn; lia))
      as (s & E & Hs & Hys & Ht & Hle & Ho).
    exists s, (replace_time today 23 59 59 999999).
    rewrite E. repeat split; auto.
    change (toordinal (replace_time today 23 59 59 999999))
      with (toordinal today). change (11 * 7)%nat with 77%nat in Ho. lia. }
  destruct (String.eqb timeframe "monthly").
  { destruct (Hgen (replace_day today 1) 365%nat Hfirst eq_refl
                   (lebk_replace_day today ltac:(lia)) ltac:(lia))
      as (s & E & Hs & Hys & Ht & Hle & Ho).
    exists s, (replace_time today 23 59 59 999999).
    rewrite E. repeat split; auto.
    change (toordinal (replace_time today 23 59 59 999999))
      with (toordinal today).
    assert (toordinal (replace_day today 1) = toordinal today - day today + 1)
      by (unfold toordinal, replace_day; cbn [year month day]; lia).
    lia. }
  destruct (Hgen today 29%nat Hd eq_refl Hrefl ltac:(lia))
    as (s & E & Hs & Hys & Ht & Hle & Ho).
  exists s, (replace_time today 23 59 59 999999).
  rewrite E. repeat split; auto.
  change (toordinal (replace_time today 23 59 59 999999))
    with (toordinal today). lia.
Qed.

(** X14. For a day from the year 2 on, every default range of the date
    picker exists and is well formed: it starts at midnight, 6 days before
    today for the daily view, 77 for the weekly one, 29 for any other
    word, and 365 days before the first of this month for the monthly one;
    it ends at the last microsecond of today; both ends are dates of the
    calendar and the start is not after the end. *)
Theorem default_range_well_formed (today : datetime) (timeframe : string) :
  valid_datetime today = true ->
  2 <= year today ->
  exists start_date end_date,
    get_default_date_range today timeframe = Some (start_date, end_date)
    /\ valid_datetime start_date = true
    /\ valid_datetime end_date = true
    /\ year today - 1 <= year start_date
    /\ time_tuple start_date = [0; 0; 0; 0]
    /\ end_date = replace_time today 23 59 59 999999
    /\ lebk start_date end_date = true
    /\ toordinal end_date - toordinal start_date
       = (if String.eqb timeframe "daily" then 6
          else if String.eqb timeframe "weekly" then 77
          else if String.eqb timeframe "monthly" then 364 + day today
          else 29).
Proof. exact (default_range_facts today timeframe). Qed.

Lemma default_range_well_formed_witness :
  get_default_date_range sample_today "monthly"
  = Some (midnight 2023 6 2, mkdatetime 2024 6 10 23 59 59 999999)
  /\ exists start_date end_date,
       get_default_date_range sample_today "monthly"
       = Some (start_date, end_date)
       /\ valid_datetime start_date = true
       /\ valid_datetime end_date = true
       /\ year sample_today - 1 <= year start_date
       /\ time_tuple start_date = [0; 0; 0; 0]
       /\ end_date = replace_time sample_today 23 59 59 999999
       /\ lebk start_date end_date = true
       /\ toordinal end_date - toordinal start_date
          = 364 + day sample_today.
Proof.
  split; [vm_compute; reflexivity|].
  apply (default_range_well_formed sample_today "monthly");
    [reflexivity|cbn [year sample_today]; lia].
Defined.

(* ===================================================================== *)
(** * The client against the backend                                      *)
(* ===================================================================== *)

Lemma request_of_bearer_token (token : string) (s e : datetime)
      (tf : string) :
  bearer_token (TokenUsageApiClient.request_of token s e tf) = Some token.
Proof. reflexivity. Qed.

Lemma request_of_dates (token : string) (s e : datetime) (tf : string) :
  query_get "start_date"
            (query_params (TokenUsageApiClient.request_of token s e tf))
  = Some (strftime_ymd s)
  /\ query_get "end_date"
               (query_params (TokenUsageApiClient.request_of token s e tf))
     = Some (strftime_ymd e)
  /\ query_get "timeframe"
               (query_params (TokenUsageApiClient.request_of token s e tf))
     = Some tf.
Proof. repeat split. Qed.

Lemma lebk_midnights (a b : datetime) :
  lebk a b = true ->
  lebk (midnight (year a) (month a) (day a))
       (midnight (year b) (month b) (day b)) = true.
Proof.
  intros Hab.
  apply (lebk_same_day_times a b 0 0 0 0 0 0 0 0 Hab). discriminate.
Qed.

Lemma client_served (environ : dict string)
        (jwt_decode : string -> string -> list string -> option payload)
        (table : list TokenUsage.t) (token : string) (user : User.t)
        (start_date end_date : datetime) (timeframe : string) :
  verified_identity environ jwt_decode
    (TokenUsageApiClient.request_of token start_date end_date timeframe)
  = Some user ->
  valid_datetime start_date = true -> valid_datetime end_date = true ->
  1000 <= year start_date -> 1000 <= year end_date ->
  lebk start_date end_date = true ->
  In timeframe ["daily"; "weekly"; "monthly"] ->
  let start_dt :=
    midnight (year start_date) (month start_date) (day start_date) in
  let end_dt := midnight (year end_date) (month end_date) (day end_date) in
  let result :=
    get_token_usage_aggregated table (User.id user) start_dt end_dt
                               timeframe in
  bearer_token
    (TokenUsageApiClient.request_of token start_date end_date timeframe)
  = Some token
  /\ bound_parameters
       (TokenUsageApiClient.request_of token start_date end_date timeframe)
     = Some (start_dt, end_dt, timeframe)
  /\ TokenUsageApiClient.get_token_usage
       (app environ jwt_decode table) token start_date end_date timeframe
     = Some (Usage (fst result) (snd result)).
Proof.
  intros Hv Hs He Hys Hye Hle Htf start_dt end_dt result.
  split; [reflexivity|].
  assert (Hb : bound_parameters
                 (TokenUsageApiClient.request_of token start_date end_date
                                                 timeframe)
               = Some (start_dt, end_dt, timeframe)).
  { unfold bound_parameters, requested_date, requested_timeframe.
    destruct (request_of_dates token start_date end_date timeframe)
      as (-> & -> & ->).
    change (path (TokenUsageApiClient.request_of token start_date end_date
                                                 timeframe))
      with "/api/token-usage".
    cbn [String.eqb Ascii.eqb Bool.eqb].
    rewrite !strftime_then_strptime by assumption.
    assert (Hre : re_match timeframe_regex timeframe = true).
    { apply timeframe_regex_accepts. cbn [In] in Htf |- *. tauto. }
    rewrite Hre. fold start_dt end_dt.
    unfold start_dt, end_dt. now rewrite (lebk_midnights _ _ Hle). }
  split; [exact Hb|].
  destruct (app_served environ jwt_decode table _ user start_dt end_dt
                       timeframe Hv Hb) as (tk & pl & _ & _ & _ & E).
  unfold TokenUsageApiClient.get_token_usage. cbv zeta. rewrite E.
  reflexivity.
Qed.

(** X15. What the client sends is what the endpoint reads: the token comes
    back out of the header, the dates come back out of their texts as the
    midnights of their days, and for an admitted token, dates of years of
    four digits in order and one of the three granularities the client
    receives the aggregation of the rows of the subject over these
    midnights. *)
Theorem client_call_served (environ : dict string)
        (jwt_decode : string -> string -> list string -> option payload)
        (table : list TokenUsage.t) (token : string) (user : User.t)
        (start_date end_date : datetime) (timeframe : string) :
  verified_identity environ jwt_decode
    (TokenUsageApiClient.request_of token start_date end_date timeframe)
  = Some user ->
  valid_datetime start_date = true -> valid_datetime end_date = true ->
  1000 <= year start_date -> 1000 <= year end_date ->
  lebk start_date end_date = true ->
  In timeframe ["daily"; "weekly"; "monthly"] ->
  let start_dt :=
    midnight (year start_date) (month start_date) (day start_date) in
  let end_dt := midnight (year end_date) (month end_date) (day end_date) in
  let result :=
    get_token_usage_aggregated table (User.id user) start_dt end_dt
                               timeframe in
  bearer_token
    (TokenUsageApiClient.request_of token start_date end_date timeframe)
  = Some token
  /\ bound_parameters
       (TokenUsageApiClient.request_of token start_date end_date timeframe)
     = Some (start_dt, end_dt, timeframe)
  /\ TokenUsageApiClient.get_token_usage
       (app environ jwt_decode table) token start_date end_date timeframe
     = Some (Usage (fst result) (snd result)).
Proof.
  exact (client_served environ jwt_decode table token user start_date
                       end_date timeframe).
Qed.

Lemma client_call_served_witness :
  TokenUsageApiClient.get_token_usage
    (app [] sample_jwt_decode sample_table) "user-token"
    (midnight 2024 6 8) (mkdatetime 2024 6 11 23 59 59 999999) "daily"
  = Some (Usage [mk_entry "2024-06-08" 100; mk_entry "2024-06-09" 200;
                 mk_entry "2024-06-10" 150]
                [("2024-06-08", [("chat", 100)]);
                 ("2024-06-09", [("api", 200)]);
                 ("2024-06-10", [("chat", 150)])]).
Proof.
  refine (proj2 (proj2
    (client_call_served [] sample_jwt_decode sample_table "user-token"
       (User.mk "testuser" (JStr "testuser") (JList [JStr "user"]))
       (midnight 2024 6 8) (mkdatetime 2024 6 11 23 59 59 999999) "daily"
       _ _ _ _ _ _ _)));
    try reflexivity; try (cbn [year midnight]; lia).
  cbn [In]. auto.
Defined.

(** X16. The default range of the date picker is accepted by the endpoint:
    for a day from the year 1001 on, an admitted token and one of the three
    granularities, the call of the client with the default range is
    answered with the aggregation from the midnight of the first day of the
    range to the midnight of today. *)
Theorem default_range_is_served (environ : dict string)
        (jwt_decode : string -> string -> list string -> option payload)
        (table : list TokenUsage.t) (token : string) (user : User.t)
        (today : datetime) (timeframe : string) :
  verified_identity environ jwt_decode
    (TokenUsageApiClient.request_of token today today timeframe)
  = Some user ->
  valid_datetime today = true ->
  1001 <= year today ->
  In timeframe ["daily"; "weekly"; "monthly"] ->
  exists start_date end_date,
    get_default_date_range today timeframe = Some (start_date, end_date)
    /\ TokenUsageApiClient.get_token_usage
         (app environ jwt_decode table) token start_date end_date timeframe
       = Some (Usage
                 (fst (get_token_usage_aggregated
                         table (User.id user) start_date
                         (midnight (year today) (month today) (day today))
                         timeframe))
                 (snd (get_token_usage_aggregated
                         table (User.id user) start_date
                         (midnight (year today) (month today) (day today))
                         timeframe))).
Proof.
  intros Hv Ht Hy Htf.
  destruct (default_range_facts today timeframe Ht ltac:(lia))
    as (s & e & E & Hs & He & Hys & Hts & -> & Hle & _).
  exists s, (replace_time today 23 59 59 999999). split; [exact E|].
  destruct (client_served environ jwt_decode table token user s
              (replace_time today 23 59 59 999999) timeframe)
    as (_ & _ & R); auto; try (cbn [replace_time year]; lia).
  rewrite R. cbn [replace_time year month day].
  assert (Es : midnight (year s) (month s) (day s) = s).
  { destruct s as [y m d h mi sec us]. unfold time_tuple in Hts.
    cbn [hour minute second microsecond year month day] in *.
    injection Hts as -> -> -> ->. reflexivity. }
  rewrite Es. reflexivity.
Qed.

Lemma default_range_is_served_witness :
  exists start_date end_date,
    get_default_date_range sample_today "daily" = Some (start_date, end_date)
    /\ TokenUsageApiClient.get_token_usage
         (app [] sample_jwt_decode sample_table) "user-token"
         start_date end_date "daily"
       = Some (Usage
                 (fst (get_token_usage_aggregated
                         sample_table "testuser" start_date
                         (midnight 2024 6 10) "daily"))
                 (snd (get_token_usage_aggregated
                         sample_table "testuser" start_date
                         (midnight 2024 6 10) "daily"))).
Proof.
  apply (default_range_is_served [] sample_jwt_decode sample_table
           "user-token"
           (User.mk "testuser" (JStr "testuser") (JList [JStr "user"]))
           sample_today "daily");
    try reflexivity; try (cbn [year sample_today]; lia).
  cbn [In]. auto.
Defined.



(* ===================================================================== *)
(** * The audit log of the assembled application                          *)
(* ===================================================================== *)

(** X18. The audit logger is the outermost middleware and reads the user
    before it passes the request on, so for a request as it arrives the
    entry it writes names the user "anonymous", also when the
    authentication middleware then admits the caller. The response is the
    one of the application behind it; one entry is written for a path
    under /api or /dashboard, none for another path, and the entry carries
    the path and the status of the response. *)
Theorem audit_entry_is_anonymous (environ : dict string)
        (jwt_decode : string -> string -> list string -> option payload)
        (table : list TokenUsage.t) (req : request) :
  state_user req = None ->
  let out := create_app environ jwt_decode table req in
  fst out = app environ jwt_decode table req
  /\ snd out
     = (if startswith "/api" (path req) || startswith "/dashboard" (path req)
        then [mk_log_data "anonymous" "anonymous" (path req)
                (status_code (fst (app environ jwt_decode table req)))]
        else []).
Proof.
  intros Hu out. unfold out, create_app, AuditLoggerMiddleware.dispatch.
  cbv zeta. rewrite Hu.
  destruct (startswith "/api" (path req) || startswith "/dashboard" (path req));
    split; reflexivity.
Qed.

Lemma audit_entry_is_anonymous_witness :
  verified_identity [] sample_jwt_decode
    (sample_request (Some "Bearer user-token")
       [("start_date", "2024-06-08"); ("end_date", "2024-06-11")])
  = Some (User.mk "testuser" (JStr "testuser") (JList [JStr "user"]))
  /\ snd (create_app [] sample_jwt_decode sample_table
            (sample_request (Some "Bearer user-token")
               [("start_date", "2024-06-08"); ("end_date", "2024-06-11")]))
     = [mk_log_data "anonymous" "anonymous" "/api/token-usage" 200].
Proof.
  split; [reflexivity|].
  apply (proj2 (audit_entry_is_anonymous [] sample_jwt_decode sample_table
                  (sample_request (Some "Bearer user-token")
                     [("start_date", "2024-06-08");
                      ("end_date", "2024-06-11")])
                  eq_refl)).
Defined.
